(** * AI-LectureForge: the lecture pipeline of [src/core/transformer.py]

    A shallow embedding of [TranscriptTransformer] and the properties of its
    word budget, structure planner, topic loop, validators and orchestrator.

    Python values are embedded as follows.
    - [int] is [Z] (unbounded).
    - [float] is IEEE 754 binary64, taken from the Standard Library's
      executable specification [SpecFloat] at precision 53 and [emax] 1024;
      every arithmetic operation is the correctly rounded one.
    - [str] is [string]; a character is a code point below 256.
    - [list] is [list], [set] of [str] is [gset string], a [dict] with fixed
      keys is a record.
    - an exception is a constructor of [exn]; a computation that may raise
      returns a [Result]; code that calls the completion provider or the
      logger runs in the state monad [M] over [World].
    - [json.loads] is a parameter: of a document it makes a [Decoding], the
      decoded value, a [JSONDecodeError] or another exception. *)

From Stdlib Require Import ZArith List String Ascii Bool Lia Permutation.
From Stdlib Require Import Floats.SpecFloat.
From stdpp Require Import base gmap strings.

Import ListNotations.
Local Open Scope string_scope.
Local Open Scope Z_scope.

(** ** Exceptions and results *)

Inductive exn : Type :=
| ProviderError      (* any failure of the completion call *)
| ZeroDivisionError
| OverflowError
| ValueError
| KeyError
| RecursionError.

Inductive Result (A : Type) : Type :=
| Return (a : A)
| Raise (e : exn).
Arguments Return {A} a.
Arguments Raise {A} e.

Definition rbind {A B} (r : Result A) (k : A -> Result B) : Result B :=
  match r with
  | Return a => k a
  | Raise e => Raise e
  end.

(** ** Python numbers *)

Module Py.

Definition prec : Z := 53.
Definition emax : Z := 1024.

Abbreviation float := spec_float.

(** [float(n)]: the nearest binary64 value, ties to even. *)
Definition of_int (n : Z) : float := binary_normalize prec emax n 0 false.

Definition is_infinity (x : float) : bool :=
  match x with S754_infinity _ => true | _ => false end.

(** [float(n)] raises [OverflowError] when [n] is too large. *)
Definition float_of_int (n : Z) : Result float :=
  let x := of_int n in
  if is_infinity x then Raise OverflowError else Return x.

Definition fmul (x y : float) : float := SFmul prec emax x y.

(** [n * x] for an [int] [n] and a [float] [x]. *)
Definition int_mul_float (n : Z) (x : float) : Result float :=
  rbind (float_of_int n) (fun fn => Return (fmul fn x)).

(** The exact integer [n] as an (unnormalised) operand of a division. *)
Definition exact (n : Z) : float :=
  match n with
  | Z0 => S754_zero false
  | Zpos p => S754_finite false p 0
  | Zneg p => S754_finite true p 0
  end.

(** [a / b] for two [int]s: true division, correctly rounded. *)
Definition int_truediv (a b : Z) : Result float :=
  if b =? 0 then Raise ZeroDivisionError
  else if a =? 0 then Return (S754_zero (b <? 0))
  else
    let q := SFdiv prec emax (exact a) (exact b) in
    if is_infinity q then Raise OverflowError else Return q.

(** [int(x)]: truncation toward zero. *)
Definition trunc (x : float) : Result Z :=
  match x with
  | S754_zero _ => Return 0
  | S754_finite s m e =>
      let a := if 0 <=? e then Z.pos m * 2 ^ e else Z.pos m / 2 ^ (- e) in
      Return (if s then - a else a)
  | S754_infinity _ => Raise OverflowError
  | S754_nan => Raise ValueError
  end.

(** [x > y] on floats. *)
Definition gt (x y : float) : bool := SFltb y x.

(** [a // b] on [int]s. *)
Definition floordiv (a b : Z) : Result Z :=
  if b =? 0 then Raise ZeroDivisionError else Return (a / b).

(** The float literals of the source, each the binary64 value nearest
    to the decimal. *)
Definition f0_95 : float := S754_finite false 8556839292003942 (-53).
Definition f1_05 : float := S754_finite false 4728779608739021 (-52).
Definition f0_1  : float := S754_finite false 7205759403792794 (-56).
Definition f0_7  : float := S754_finite false 6305039478318694 (-53).
Definition f0_15 : float := S754_finite false 5404319552844595 (-55).
Definition f0_05 : float := S754_finite false 7205759403792794 (-57).
Definition f0_20 : float := S754_finite false 7205759403792794 (-55).

(** [int(n * x)] *)
Definition int_of_product (n : Z) (x : float) : Result Z :=
  rbind (int_mul_float n x) trunc.

End Py.

(** ** Python strings *)

Module Str.

Definition code (c : ascii) : N := N_of_ascii c.

(** [str.isspace] on one character (code points below 256). *)
Definition is_space (c : ascii) : bool :=
  let n := code c in
  ((9 <=? n) && (n <=? 13) || (28 <=? n) && (n <=? 32)
   || (n =? 133) || (n =? 160))%N.

(** [str.lower] on one character (code points below 256). *)
Definition lower_char (c : ascii) : ascii :=
  let n := code c in
  if ((65 <=? n) && (n <=? 90)
      || (192 <=? n) && (n <=? 222) && negb (n =? 215))%N
  then ascii_of_N (n + 32) else c.

Fixpoint lower (s : string) : string :=
  match s with
  | EmptyString => EmptyString
  | String c r => String (lower_char c) (lower r)
  end.

Fixpoint lstrip (s : string) : string :=
  match s with
  | EmptyString => EmptyString
  | String c r => if is_space c then lstrip r else s
  end.

(** [rstrip]: a character is kept when it is not a space or something
    non-blank follows it. *)
Fixpoint rstrip (s : string) : string :=
  match s with
  | EmptyString => EmptyString
  | String c r =>
      match rstrip r with
      | EmptyString => if is_space c then EmptyString else String c EmptyString
      | r' => String c r'
      end
  end.

Definition strip (s : string) : string := rstrip (lstrip s).

Definition is_empty (s : string) : bool :=
  match s with EmptyString => true | _ => false end.

(** [s.split(sep)] for a one-character separator: always at least one
    piece. *)
Fixpoint split_on (sep : ascii) (s : string) : list string :=
  match s with
  | EmptyString => [EmptyString]
  | String c r =>
      if Ascii.eqb c sep then EmptyString :: split_on sep r
      else match split_on sep r with
           | [] => [String c EmptyString]
           | w :: ws => String c w :: ws
           end
  end.

(** [s.split()]: the maximal runs of non-blank characters. *)
Fixpoint split_ws_aux (cur : string) (s : string) : list string :=
  match s with
  | EmptyString => if is_empty cur then [] else [cur]
  | String c r =>
      if is_space c
      then (if is_empty cur then split_ws_aux EmptyString r
            else cur :: split_ws_aux EmptyString r)
      else split_ws_aux (cur ++ String c EmptyString) r
  end.

Definition split_ws (s : string) : list string := split_ws_aux EmptyString s.

(** [sub in s] *)
Fixpoint contains (sub s : string) : bool :=
  String.prefix sub s ||
  match s with
  | EmptyString => false
  | String _ r => contains sub r
  end.

Fixpoint drop (n : nat) (s : string) : string :=
  match n, s with
  | O, _ => s
  | S n', String _ r => drop n' r
  | S _, EmptyString => EmptyString
  end.

Fixpoint take (n : nat) (s : string) : string :=
  match n, s with
  | O, _ => EmptyString
  | S n', String c r => String c (take n' r)
  | S _, EmptyString => EmptyString
  end.

(** [s.count(sub)]: occurrences that do not overlap, leftmost first; the
    empty string occurs [len(s) + 1] times. *)
Fixpoint count_from (fuel : nat) (sub s : string) : nat :=
  match fuel with
  | O => O
  | S fuel' =>
      if String.prefix sub s
      then S (match sub with
              | EmptyString =>
                  match s with
                  | EmptyString => O
                  | String _ r => count_from fuel' sub r
                  end
              | _ => count_from fuel' sub (drop (String.length sub) s)
              end)
      else match s with
           | EmptyString => O
           | String _ r => count_from fuel' sub r
           end
  end.

Definition count (sub s : string) : nat :=
  count_from (S (String.length s)) sub s.

(** [sep.join(l)] *)
Fixpoint join (sep : string) (l : list string) : string :=
  match l with
  | [] => EmptyString
  | [x] => x
  | x :: r => x ++ sep ++ join sep r
  end.

(** [s[:n]] and [s[-n:]] for [n > 0]. *)
Definition first_chars (n : nat) (s : string) : string := take n s.
Definition last_chars (n : nat) (s : string) : string :=
  drop (String.length s - n) s.

Definition index_of (c : ascii) (s : string) : option nat :=
  String.index 0 (String c EmptyString) s.

Fixpoint last_index_of (c : ascii) (s : string) : option nat :=
  match s with
  | EmptyString => None
  | String d r =>
      match last_index_of c r with
      | Some i => Some (S i)
      | None => if Ascii.eqb c d then Some O else None
      end
  end.

End Str.

(** ** Data model *)

Module Topic.
Record t : Type := make {
  title : string;
  key_concepts : list string;
  subtopics : list string;
  duration_minutes : Z;
  objective_links : list Z
}.
End Topic.

Module Structure.
(** The dictionary [structure_data]. *)
Record t : Type := make {
  title : string;
  learning_objectives : list string;
  topics : list Topic.t;
  practical_applications : list string;
  key_terms : list string
}.

Definition topic_titles (s : t) : list string := map Topic.title (topics s).
End Structure.

Module Context.
(** The dictionary [context] of [transform_to_lecture]. *)
Record t : Type := make {
  current_section : string;
  current_topic : option string;
  covered_topics : list string;
  pending_topics : list string;
  key_terms : gset string;
  current_narrative : string;
  learning_objectives : list string
}.

Definition set_current_section (v : string) (c : t) : t :=
  make v (current_topic c) (covered_topics c) (pending_topics c)
       (key_terms c) (current_narrative c) (learning_objectives c).
Definition set_current_topic (v : string) (c : t) : t :=
  make (current_section c) (Some v) (covered_topics c) (pending_topics c)
       (key_terms c) (current_narrative c) (learning_objectives c).
Definition set_covered_topics (v : list string) (c : t) : t :=
  make (current_section c) (current_topic c) v (pending_topics c)
       (key_terms c) (current_narrative c) (learning_objectives c).
Definition set_pending_topics (v : list string) (c : t) : t :=
  make (current_section c) (current_topic c) (covered_topics c) v
       (key_terms c) (current_narrative c) (learning_objectives c).
Definition set_key_terms (v : gset string) (c : t) : t :=
  make (current_section c) (current_topic c) (covered_topics c)
       (pending_topics c) v (current_narrative c) (learning_objectives c).
Definition set_current_narrative (v : string) (c : t) : t :=
  make (current_section c) (current_topic c) (covered_topics c)
       (pending_topics c) (key_terms c) v (learning_objectives c).
End Context.

(** [section_words] of [transform_to_lecture]. *)
Record SectionWords : Type := {
  sw_intro : Z;
  sw_main : Z;
  sw_practical : Z;
  sw_summary : Z
}.

(** ** The completion provider *)

Inductive SystemMessage : Type :=
| CoherentLectureEducator   (* "... creating a coherent lecture transcript." *)
| OnlyValidJSON             (* "... Output ONLY valid JSON, no other text." *)
| LineByLine.               (* "... Provide concise, line-by-line responses." *)

Inductive Guidance : Type :=
| IntroductionGuidance
| MainGuidance (titles : list string)
| PracticalGuidance
| SummaryGuidance.

(** The "Context:" block of a section prompt. *)
Record ContextBlock : Type := {
  cb_covered : string;
  cb_pending : string;
  cb_key_terms : gset string;
  cb_narrative : string
}.

(** The user prompt: the template that is filled and the values filled in. *)
Inductive Prompt : Type :=
| StructurePrompt (target_duration : Z) (excerpt : string)
| FallbackPrompt (excerpt : string)
| SectionPrompt (section_type : string) (target_words : Z)
                (lecture_title : string) (objectives : string)
                (guidance : option Guidance) (context : option ContextBlock)
                (include_examples : bool).

(** One call of [chat.completions.create]; the temperature is always 0.7. *)
Record Request : Type := {
  system : SystemMessage;
  user : Prompt;
  max_tokens : Z
}.

(** ** Logging *)

Inductive Level : Type := DEBUG | INFO | WARNING | ERROR.

Inductive Message : Type :=
| StartingTransformation (target_duration : Z)
| InputCleaned (input_words : Z)
| TargetWordCount (target min_words max_words : Z)
| StructureGenerated
| TopicsIdentified (titles : list string)
| GeneratingBySections
| IntroductionGenerated (words : Z)
| MainContentGenerated (words : Z)
| PracticalGenerated (words : Z)
| SummaryGenerated (words : Z)
| TotalGenerated (words : Z)
| CoherenceValidated
| ErrorDuringGeneration (e : exn)
| ReturningPartialContent
| GeneratingStructure
| RawStructureResponse (content : string)
| StructureParsed
| FailedToParseJSON
| StructureExtracted
| FailedToParseExtracted
| UsingFallback
| ErrorGeneratingStructure (e : exn)
| GeneratingFallback
| ErrorGeneratingFallback (e : exn)
| GeneratingSection (section_type : string) (target_words : Z)
| SectionGenerated (words : Z)
| GeneratingMainContent (target_words : Z)
| TopicAllocations (topic_words : gmap string Z)
| WordCountSignificantlyOutside (total min_words max_words : Z)
                                (deviation : Py.float)
| WordCountSlightlyOutside (total min_words max_words : Z)
                           (deviation : Py.float)
| ValidatingCoherence
| ObjectiveNotCovered (objective : string)
| KeyTermUnderutilized (term : string)
| TopicNotCovered (title : string)
| CoherenceComplete.

Definition LogRecord : Type := Level * Message.

(** ** The state monad of the pipeline *)

Record World : Type := {
  calls : nat;                    (* completion calls made so far *)
  log : list LogRecord;           (* records written, oldest first *)
  full_content : option string    (* the local [full_content] of the running
                                     [transform_to_lecture]; [None] while it
                                     is unbound *)
}.

Definition M (A : Type) : Type := World -> Result A * World.

Definition ret {A} (a : A) : M A := fun w => (Return a, w).
Definition raise {A} (e : exn) : M A := fun w => (Raise e, w).
Definition lift {A} (r : Result A) : M A := fun w => (r, w).

Definition bind {A B} (c : M A) (k : A -> M B) : M B :=
  fun w =>
    match c w with
    | (Return a, w') => k a w'
    | (Raise e, w') => (Raise e, w')
    end.

(** [try: c  except Exception as e: h e] *)
Definition try_except {A} (c : M A) (h : exn -> M A) : M A :=
  fun w =>
    match c w with
    | (Return a, w') => (Return a, w')
    | (Raise e, w') => h e w'
    end.

Notation "'let*' x ':=' c 'in' k" := (bind c (fun x => k))
  (at level 10, x name, c at level 100, k at level 200).
Notation "c >> k" := (bind c (fun _ => k))
  (at level 100, k at level 200, right associativity).

Definition logger (l : Level) (m : Message) : M unit :=
  fun w => (Return tt,
            {| calls := calls w; log := (log w ++ [(l, m)])%list;
               full_content := full_content w |}).

Definition bind_full_content (v : string) : M unit :=
  fun w => (Return tt,
            {| calls := calls w; log := log w; full_content := Some v |}).

Definition unbind_full_content : M unit :=
  fun w => (Return tt,
            {| calls := calls w; log := log w; full_content := None |}).

Definition lookup_full_content : M (option string) :=
  fun w => (Return (full_content w), w).

(** [for x in l: body x], threading an accumulator. *)
Fixpoint for_each {A S} (l : list A) (body : A -> S -> M S) (s : S) : M S :=
  match l with
  | [] => ret s
  | x :: r => let* s' := body x s in for_each r body s'
  end.

Fixpoint for_each_ {A} (l : list A) (body : A -> M unit) : M unit :=
  match l with
  | [] => ret tt
  | x :: r => body x >> for_each_ r body
  end.

(** ** Python containers *)

(** [l.remove(x)]: drops the first occurrence, [ValueError] when absent. *)
Fixpoint list_remove (x : string) (l : list string) : Result (list string) :=
  match l with
  | [] => Raise ValueError
  | y :: r =>
      if String.eqb x y then Return r
      else rbind (list_remove x r) (fun r' => Return (y :: r'))
  end.

(** [l[a:b]] *)
Definition slice {A} (a b : nat) (l : list A) : list A :=
  firstn (b - a) (skipn a l).

(** [d[k]] *)
Definition dict_get (d : gmap string Z) (k : string) : Result Z :=
  match d !! k with
  | Some v => Return v
  | None => Raise KeyError
  end.

(** [sum(...)] over [int]s. *)
Definition sum (l : list Z) : Z := fold_left Z.add l 0.

Definition newline : ascii := ascii_of_N 10.
Definition blank_line : string := String newline (String newline EmptyString).

(** ** Decoded documents *)

(** What [json.loads] makes of a document: the decoded value, a
    [JSONDecodeError], or another exception ([RecursionError] on a document
    nested too deep, [ValueError] on an integer literal too long to
    convert). *)
Inductive Decoding (Value : Type) : Type :=
| Decoded (value : Value)
| JSONDecodeError
| DecodingRaised (e : exn).
Arguments Decoded {Value} value.
Arguments JSONDecodeError {Value}.
Arguments DecodingRaised {Value} e.

(** What [_generate_detailed_structure] returns: the value [json.loads]
    decoded, handed on as it is, or the dictionary one of the fallback
    tiers built. *)
Inductive Planned (Value : Type) : Type :=
| FromJSON (value : Value)
| FromFallback (structure_data : Structure.t).
Arguments FromJSON {Value} value.
Arguments FromFallback {Value} structure_data.

(** The planner's result where every decoded value is a [LectureStructure]
    dictionary. *)
Definition planned_structure (planned : Planned Structure.t) : Structure.t :=
  match planned with
  | FromJSON structure_data => structure_data
  | FromFallback structure_data => structure_data
  end.

(** ** The transformer *)

Module TranscriptTransformer.

Definition MAX_RETRIES : Z := 3.
Definition CHUNK_SIZE : Z := 6000.
Definition LARGE_DEVIATION_THRESHOLD : Py.float := Py.f0_20.

(** The value [__init__] gives [self.words_per_minute]. *)
Definition default_words_per_minute : Z := 130.

Section Methods.

(** [TextProcessor.clean_text] and [TextProcessor.count_words]. *)
Variable clean_text : string -> string.
Variable count_words : string -> Z.

(** [json.loads] as [transform_to_lecture] uses it.  The planner hands the
    decoded value on as it is, whatever its shape; [transform_to_lecture]
    then reads it as a [LectureStructure] dictionary, and is modelled for
    the decoders whose values are such dictionaries. *)
Variable json_loads : string -> Decoding Structure.t.

(** [self.openai_client]: what the [n]-th completion call of a run
    answers to a request, a text or an exception. *)
Variable provider : nat -> Request -> Result string.

(** [self.words_per_minute] *)
Variable words_per_minute : Z.

(** [self.openai_client.chat.completions.create(...)], then
    [.choices[0].message.content]. *)
Definition create (req : Request) : M string :=
  fun w => (provider (calls w) req,
            {| calls := S (calls w); log := log w;
               full_content := full_content w |}).

Definition _validate_word_count
    (total_words target_words min_words max_words : Z) : M unit :=
  let* deviation :=
    lift (Py.int_truediv (Z.abs (total_words - target_words)) target_words) in
  if Py.gt deviation LARGE_DEVIATION_THRESHOLD then
    logger ERROR
      (WordCountSignificantlyOutside total_words min_words max_words deviation)
  else if (total_words <? min_words) || (total_words >? max_words) then
    logger WARNING
      (WordCountSlightlyOutside total_words min_words max_words deviation)
  else ret tt.

Definition hardcoded_structure (target_duration : Z) : Structure.t :=
  Structure.make "Lecture Overview"
    ["Understand key concepts"; "Apply knowledge"; "Analyze examples"]
    [Topic.make "Main Topic" ["Core concept"] ["Overview"]
                (target_duration / 2) [1]]
    ["Practical example"]
    ["Key term"].

Definition nonblank (s : string) : bool := negb (Str.is_empty s).

Definition _generate_fallback_structure
    (text : string) (target_duration : Z) : M Structure.t :=
  logger INFO GeneratingFallback >>
  let prompt := FallbackPrompt (Str.first_chars 1000 text) in
  try_except
    (let* content :=
       create {| system := LineByLine; user := prompt; max_tokens := 1000 |} in
     let lines := Str.split_on newline (Str.strip content) in
     let lines :=
       map Str.strip (List.filter (fun line => nonblank (Str.strip line)) lines) in
     let title := match lines with [] => "Lecture" | l0 :: _ => l0 end in
     let objectives := firstn 3 (List.filter nonblank (slice 1 4 lines)) in
     let topics := firstn 3 (List.filter nonblank (slice 4 7 lines)) in
     let terms := firstn 3 (List.filter nonblank (slice 7 10 lines)) in
     let* main_time := lift (Py.int_of_product target_duration Py.f0_7) in
     let* topic_minutes :=
       lift (Py.floordiv main_time (Z.of_nat (length topics))) in
     ret (Structure.make title objectives
            (map (fun topic =>
                    Topic.make topic [topic]
                               ["Overview"; "Details"; "Examples"]
                               topic_minutes [1])
                 topics)
            ["Real-world application example"; "Interactive exercise";
             "Case study"]
            terms))
    (fun e =>
       logger ERROR (ErrorGeneratingFallback e) >>
       ret (hardcoded_structure target_duration)).

(** [re.search(r'({[\s\S]*})', content)]: from the first opening brace to
    the last closing brace after it. *)
Definition extract_json (content : string) : option string :=
  match Str.index_of "{" content, Str.last_index_of "}" content with
  | Some i, Some j =>
      if (i <? j)%nat then Some (String.substring i (j - i + 1) content)
      else None
  | _, _ => None
  end.

(** The two [json.loads] calls are inside the outer [try]: an exception of
    theirs that is no [JSONDecodeError] reaches [except Exception], and the
    span between the braces is tried after a [JSONDecodeError] only.  The
    method does not look at the decoded value, so the decoder is taken at
    any type of values. *)
Definition _generate_detailed_structure {Value : Type}
    (json_loads : string -> Decoding Value)
    (text : string) (target_duration : Z) : M (Planned Value) :=
  logger INFO GeneratingStructure >>
  let prompt := StructurePrompt target_duration (Str.first_chars 2000 text) in
  let fallback :=
    let* structure_data := _generate_fallback_structure text target_duration in
    ret (FromFallback structure_data) in
  try_except
    (let* response :=
       create {| system := OnlyValidJSON; user := prompt;
                 max_tokens := 2000 |} in
     let content := Str.strip response in
     logger DEBUG (RawStructureResponse content) >>
     match json_loads content with
     | Decoded structure_data =>
         logger INFO StructureParsed >> ret (FromJSON structure_data)
     | JSONDecodeError =>
         logger WARNING FailedToParseJSON >>
         let* extracted :=
           match extract_json content with
           | Some span =>
               match json_loads span with
               | Decoded structure_data =>
                   logger INFO StructureExtracted >>
                   ret (Some structure_data)
               | JSONDecodeError =>
                   logger WARNING FailedToParseExtracted >> ret None
               | DecodingRaised e => raise e
               end
           | None => ret None
           end in
         match extracted with
         | Some structure_data => ret (FromJSON structure_data)
         | None => logger WARNING UsingFallback >> fallback
         end
     | DecodingRaised e => raise e
     end)
    (fun e => logger ERROR (ErrorGeneratingStructure e) >> fallback).

Definition guidance_for (section_type : string) (structure_data : Structure.t)
  : option Guidance :=
  if String.eqb section_type "introduction" then Some IntroductionGuidance
  else if String.eqb section_type "main"
  then Some (MainGuidance (Structure.topic_titles structure_data))
  else if String.eqb section_type "practical" then Some PracticalGuidance
  else if String.eqb section_type "summary" then Some SummaryGuidance
  else None.

Definition context_block (context : Context.t) : ContextBlock :=
  {| cb_covered := Str.join ", " (Context.covered_topics context);
     cb_pending := Str.join ", " (Context.pending_topics context);
     cb_key_terms := Context.key_terms context;
     cb_narrative := Context.current_narrative context |}.

Definition _generate_section
    (section_type : string) (structure_data : Structure.t)
    (original_text : string) (target_words : Z) (include_examples : bool)
    (context : option Context.t) (is_first is_last : bool) : M string :=
  logger INFO (GeneratingSection section_type target_words) >>
  let prompt :=
    SectionPrompt section_type target_words
      (Structure.title structure_data)
      (Str.join ", " (Structure.learning_objectives structure_data))
      (guidance_for section_type structure_data)
      (option_map context_block context)
      include_examples in
  let* content :=
    create {| system := CoherentLectureEducator; user := prompt;
              max_tokens := 8000 |} in
  let word_count := count_words content in
  logger INFO (SectionGenerated word_count) >>
  ret content.

(** [int(target_words * (duration_minutes / total_duration))] *)
Definition topic_quota (target_words total_duration duration_minutes : Z)
  : Result Z :=
  rbind (Py.int_truediv duration_minutes total_duration)
        (Py.int_of_product target_words).

(** The first loop of [_generate_main_content]: one entry of
    [topic_words] per topic. *)
Definition allocate_topic (target_words total_duration : Z)
    (topic : Topic.t) (topic_words : gmap string Z)
  : Result (gmap string Z) :=
  rbind (topic_quota target_words total_duration
           (Topic.duration_minutes topic))
    (fun quota => Return (<[Topic.title topic := quota]> topic_words)).

Fixpoint allocate_topics (target_words total_duration : Z)
    (topics : list Topic.t) (topic_words : gmap string Z)
  : Result (gmap string Z) :=
  match topics with
  | [] => Return topic_words
  | topic :: rest =>
      rbind (allocate_topic target_words total_duration topic topic_words)
            (allocate_topics target_words total_duration rest)
  end.

(** The context update at the head of the second loop. *)
Definition update_context (topic : Topic.t) (context : Context.t)
  : Result Context.t :=
  let context := Context.set_current_topic (Topic.title topic) context in
  let context :=
    Context.set_covered_topics
      (Context.covered_topics context ++ [Topic.title topic])%list context in
  rbind (list_remove (Topic.title topic) (Context.pending_topics context))
    (fun pending =>
       let context := Context.set_pending_topics pending context in
       Return (Context.set_key_terms
                 (Context.key_terms context
                    ∪ list_to_set (Topic.key_concepts topic))
                 context)).

Definition topic_iteration
    (structure_data : Structure.t) (original_text : string)
    (include_examples : bool) (topic_words : gmap string Z)
    (topic : Topic.t) (state : list string * Context.t)
  : M (list string * Context.t) :=
  let '(topic_contents, context) := state in
  let* topic_target := lift (dict_get topic_words (Topic.title topic)) in
  let* context := lift (update_context topic context) in
  let* topic_content :=
    _generate_section ("main_topic_" ++ Topic.title topic) structure_data
      original_text topic_target include_examples (Some context)
      false false in
  ret ((topic_contents ++ [topic_content])%list,
       Context.set_current_narrative
         (Str.last_chars 1000 topic_content) context).

(** Returns the text and the context as the loop left it: the source
    mutates the caller's dictionary in place. *)
Definition _generate_main_content
    (structure_data : Structure.t) (original_text : string)
    (target_words : Z) (include_examples : bool) (context : Context.t)
  : M (string * Context.t) :=
  logger INFO (GeneratingMainContent target_words) >>
  let total_duration :=
    sum (map Topic.duration_minutes (Structure.topics structure_data)) in
  let* topic_words :=
    lift (allocate_topics target_words total_duration
            (Structure.topics structure_data) ∅) in
  logger INFO (TopicAllocations topic_words) >>
  let* state :=
    for_each (Structure.topics structure_data)
      (topic_iteration structure_data original_text include_examples
         topic_words)
      ([], context) in
  ret (Str.join blank_line (fst state), snd state).

Definition covers (content : string) (term : string) : bool :=
  Str.contains (Str.lower term) (Str.lower content).

Definition _validate_coherence
    (content : string) (structure_data : Structure.t) : M unit :=
  logger INFO ValidatingCoherence >>
  for_each_ (Structure.learning_objectives structure_data)
    (fun objective =>
       if negb (existsb (covers content) (Str.split_ws objective))
       then logger WARNING (ObjectiveNotCovered objective)
       else ret tt) >>
  for_each_ (Structure.key_terms structure_data)
    (fun term =>
       if (Str.count (Str.lower term) (Str.lower content) <? 2)%nat
       then logger WARNING (KeyTermUnderutilized term)
       else ret tt) >>
  for_each_ (Structure.topics structure_data)
    (fun topic =>
       if negb (existsb (covers content) (Topic.key_concepts topic))
       then logger WARNING (TopicNotCovered (Topic.title topic))
       else ret tt) >>
  logger INFO CoherenceComplete.

(** [target_words], [min_words] and [max_words]. *)
Definition target_word_counts (target_duration : Z) : Result (Z * Z * Z) :=
  let target_words := words_per_minute * target_duration in
  rbind (Py.int_of_product target_words Py.f0_95) (fun min_words =>
  rbind (Py.int_of_product target_words Py.f1_05) (fun max_words =>
  Return (target_words, min_words, max_words))).

Definition section_quotas (target_words : Z) : Result SectionWords :=
  rbind (Py.int_of_product target_words Py.f0_1) (fun intro =>
  rbind (Py.int_of_product target_words Py.f0_7) (fun main =>
  rbind (Py.int_of_product target_words Py.f0_15) (fun practical =>
  rbind (Py.int_of_product target_words Py.f0_05) (fun summary =>
  Return {| sw_intro := intro; sw_main := main;
            sw_practical := practical; sw_summary := summary |})))).

(** The body of the [try] of [transform_to_lecture]. *)
Definition generate_sections
    (structure_data : Structure.t) (cleaned_text : string)
    (section_words : SectionWords) (include_examples : bool)
    (target_words min_words max_words : Z) : M string :=
  logger INFO GeneratingBySections >>
  let* intro :=
    _generate_section "introduction" structure_data cleaned_text
      (sw_intro section_words) include_examples None true false in
  let intro_words := count_words intro in
  logger INFO (IntroductionGenerated intro_words) >>
  let context :=
    Context.make "introduction" None []
      (Structure.topic_titles structure_data) ∅
      (Str.last_chars 1000 intro)
      (Structure.learning_objectives structure_data) in
  let* main :=
    _generate_main_content structure_data cleaned_text
      (sw_main section_words) include_examples context in
  let main_content := fst main in
  let context := snd main in
  let main_words := count_words main_content in
  logger INFO (MainContentGenerated main_words) >>
  let context := Context.set_current_section "main" context in
  let context :=
    Context.set_current_narrative (Str.last_chars 1000 main_content)
      context in
  let* practical :=
    _generate_section "practical" structure_data cleaned_text
      (sw_practical section_words) include_examples (Some context)
      false false in
  let practical_words := count_words practical in
  logger INFO (PracticalGenerated practical_words) >>
  let context := Context.set_current_section "practical" context in
  let context :=
    Context.set_current_narrative (Str.last_chars 500 practical) context in
  let* summary :=
    _generate_section "summary" structure_data cleaned_text
      (sw_summary section_words) include_examples (Some context)
      false true in
  let summary_words := count_words summary in
  logger INFO (SummaryGenerated summary_words) >>
  let content :=
    intro ++ blank_line ++ main_content ++ blank_line ++ practical
          ++ blank_line ++ summary in
  bind_full_content content >>
  let total_words := count_words content in
  logger INFO (TotalGenerated total_words) >>
  _validate_word_count total_words target_words min_words max_words >>
  _validate_coherence content structure_data >>
  logger INFO CoherenceValidated >>
  ret content.

(** The [except Exception as e] clause of [transform_to_lecture]. *)
Definition on_generation_error (e : exn) : M string :=
  logger ERROR (ErrorDuringGeneration e) >>
  let* bound := lookup_full_content in
  match bound with
  | Some content => logger WARNING ReturningPartialContent >> ret content
  | None => raise e
  end.

Definition transform_to_lecture
    (text : string) (target_duration : Z) (include_examples : bool)
  : M string :=
  unbind_full_content >>
  logger INFO (StartingTransformation target_duration) >>
  let cleaned_text := clean_text text in
  let input_words := count_words cleaned_text in
  logger INFO (InputCleaned input_words) >>
  let* counts := lift (target_word_counts target_duration) in
  let '(target_words, min_words, max_words) := counts in
  logger INFO (TargetWordCount target_words min_words max_words) >>
  let* planned :=
    _generate_detailed_structure json_loads cleaned_text target_duration in
  let structure_data := planned_structure planned in
  logger INFO StructureGenerated >>
  logger INFO (TopicsIdentified (Structure.topic_titles structure_data)) >>
  let* section_words := lift (section_quotas target_words) in
  try_except
    (generate_sections structure_data cleaned_text section_words
       include_examples target_words min_words max_words)
    on_generation_error.

End Methods.

End TranscriptTransformer.

(** ** A JSON decoder for concrete provider outputs

    [json.loads] is a parameter of the transformer.  To run the planner on
    a concrete output the parameter is instantiated with [Json.loads], or
    with [Json.loads_structure] where the decoded value is read as a
    [LectureStructure] dictionary.  The decoder covers the documents whose
    numbers are integer literals and whose strings hold characters of the
    string model (code points below 256), written as they are or escaped;
    fractions, exponents, the literals [NaN] and [Infinity] and escapes of
    other characters are outside it, and so are the documents on which
    [json.loads] raises something else than [JSONDecodeError]. *)

Module Json.

#[local] Set Warnings "-register-all".

Inductive value : Type :=
| Null
| Bool (b : bool)
| Num (n : Z)
| Text (s : string)
| Arr (l : list value)
| Obj (l : list (string * value)).

Definition quote : ascii := ascii_of_N 34.
Definition backslash : ascii := ascii_of_N 92.

Definition is_ws (c : ascii) : bool :=
  let n := Str.code c in ((n =? 32) || (n =? 9) || (n =? 10) || (n =? 13))%N.

Fixpoint skip_ws (s : string) : string :=
  match s with
  | String c r => if is_ws c then skip_ws r else s
  | EmptyString => EmptyString
  end.

Definition hex_digit (c : ascii) : option N :=
  let n := Str.code c in
  if ((48 <=? n) && (n <=? 57))%N then Some (n - 48)%N
  else if ((97 <=? n) && (n <=? 102))%N then Some (n - 87)%N
  else if ((65 <=? n) && (n <=? 70))%N then Some (n - 55)%N
  else None.

(** The character a one-letter escape stands for. *)
Definition simple_escape (c : ascii) : option ascii :=
  if Ascii.eqb c quote then Some quote
  else if Ascii.eqb c backslash then Some backslash
  else if Ascii.eqb c "/" then Some "/"%char
  else if Ascii.eqb c "b" then Some (ascii_of_N 8)
  else if Ascii.eqb c "f" then Some (ascii_of_N 12)
  else if Ascii.eqb c "n" then Some (ascii_of_N 10)
  else if Ascii.eqb c "r" then Some (ascii_of_N 13)
  else if Ascii.eqb c "t" then Some (ascii_of_N 9)
  else None.

(** The character of the four hexadecimal digits after [\u]. *)
Definition unicode_escape (a b c d : ascii) : option ascii :=
  match hex_digit a, hex_digit b, hex_digit c, hex_digit d with
  | Some x3, Some x2, Some x1, Some x0 =>
      let n := (4096 * x3 + 256 * x2 + 16 * x1 + x0)%N in
      if (n <? 256)%N then Some (ascii_of_N n) else None
  | _, _, _, _ => None
  end.

Definition cons_body (c : ascii) (r : option (string * string))
  : option (string * string) :=
  match r with
  | Some (body, rest) => Some (String c body, rest)
  | None => None
  end.

(** The characters up to the closing quote, escapes decoded; a control
    character is not allowed in a string. *)
Fixpoint string_body (s : string) : option (string * string) :=
  match s with
  | EmptyString => None
  | String c r =>
      if Ascii.eqb c quote then Some (EmptyString, r)
      else if Ascii.eqb c backslash then
        match r with
        | String e r1 =>
            match simple_escape e with
            | Some c' => cons_body c' (string_body r1)
            | None =>
                if Ascii.eqb e "u" then
                  match r1 with
                  | String h3 (String h2 (String h1 (String h0 r2))) =>
                      match unicode_escape h3 h2 h1 h0 with
                      | Some c' => cons_body c' (string_body r2)
                      | None => None
                      end
                  | _ => None
                  end
                else None
            end
        | EmptyString => None
        end
      else if (Str.code c <? 32)%N then None
      else cons_body c (string_body r)
  end.

Definition digit (c : ascii) : option Z :=
  let n := Str.code c in
  if ((48 <=? n) && (n <=? 57))%N then Some (Z.of_N n - 48) else None.

Fixpoint digits (acc : Z) (s : string) : Z * string :=
  match s with
  | String c r =>
      match digit c with
      | Some d => digits (10 * acc + d) r
      | None => (acc, s)
      end
  | EmptyString => (acc, s)
  end.

(** An integer literal: an optional minus sign, then a single zero or a
    nonzero digit and the digits after it.  A fraction or an exponent is
    rejected. *)
Definition number (s : string) : option (Z * string) :=
  let '(negative, body) :=
    match s with
    | String "-" r => (true, r)
    | _ => (false, s)
    end in
  match body with
  | String c r =>
      match digit c with
      | Some d =>
          let '(n, rest) := if d =? 0 then (0, r) else digits 0 body in
          match rest with
          | String "." _ | String "e" _ | String "E" _ => None
          | _ => Some (if negative then - n else n, rest)
          end
      | None => None
      end
  | EmptyString => None
  end.

Definition literal (word : string) (v : value) (s : string)
  : option (value * string) :=
  if String.prefix word s
  then Some (v, Str.drop (String.length word) s) else None.

Fixpoint parse_value (fuel : nat) (s : string) : option (value * string) :=
  match fuel with
  | O => None
  | S fuel' =>
      match skip_ws s with
      | String "n" _ => literal "null" Null (skip_ws s)
      | String "t" _ => literal "true" (Bool true) (skip_ws s)
      | String "f" _ => literal "false" (Bool false) (skip_ws s)
      | String "[" r =>
          match skip_ws r with
          | String "]" r' => Some (Arr [], r')
          | _ =>
              match parse_elements fuel' r with
              | Some (l, rest) => Some (Arr l, rest)
              | None => None
              end
          end
      | String "{" r =>
          match skip_ws r with
          | String "}" r' => Some (Obj [], r')
          | _ =>
              match parse_members fuel' r with
              | Some (l, rest) => Some (Obj l, rest)
              | None => None
              end
          end
      | String c r =>
          if Ascii.eqb c quote then
            match string_body r with
            | Some (body, rest) => Some (Text body, rest)
            | None => None
            end
          else
            match number (String c r) with
            | Some (n, rest) => Some (Num n, rest)
            | None => None
            end
      | EmptyString => None
      end
  end
with parse_elements (fuel : nat) (s : string) : option (list value * string) :=
  match fuel with
  | O => None
  | S fuel' =>
      match parse_value fuel' s with
      | Some (v, rest) =>
          match skip_ws rest with
          | String "," r =>
              match parse_elements fuel' r with
              | Some (l, rest') => Some (v :: l, rest')
              | None => None
              end
          | String "]" r => Some ([v], r)
          | _ => None
          end
      | None => None
      end
  end
with parse_members (fuel : nat) (s : string)
  : option (list (string * value) * string) :=
  match fuel with
  | O => None
  | S fuel' =>
      match skip_ws s with
      | String c r =>
          if Ascii.eqb c quote then
            match string_body r with
            | Some (key, rest) =>
                match skip_ws rest with
                | String ":" r1 =>
                    match parse_value fuel' r1 with
                    | Some (v, rest1) =>
                        match skip_ws rest1 with
                        | String "," r2 =>
                            match parse_members fuel' r2 with
                            | Some (l, rest2) => Some ((key, v) :: l, rest2)
                            | None => None
                            end
                        | String "}" r2 => Some ([(key, v)], r2)
                        | _ => None
                        end
                    | None => None
                    end
                | _ => None
                end
            | None => None
            end
          else None
      | EmptyString => None
      end
  end.

(** A whole document: one value and blanks around it. *)
Definition parse (s : string) : option value :=
  match parse_value (2 * String.length s + 2) s with
  | Some (v, rest) =>
      match skip_ws rest with
      | EmptyString => Some v
      | _ => None
      end
  | None => None
  end.

(** [d[key]] on a decoded object: a repeated key keeps its last value. *)
Fixpoint field (key : string) (members : list (string * value))
  : option value :=
  match members with
  | [] => None
  | (k, v) :: r =>
      match field key r with
      | Some v' => Some v'
      | None => if String.eqb k key then Some v else None
      end
  end.

Definition as_text (v : value) : option string :=
  match v with Text s => Some s | _ => None end.

Definition as_int (v : value) : option Z :=
  match v with Num n => Some n | _ => None end.

Fixpoint all_some {A} (l : list (option A)) : option (list A) :=
  match l with
  | [] => Some []
  | Some x :: r =>
      match all_some r with Some r' => Some (x :: r') | None => None end
  | None :: _ => None
  end.

Definition as_list {A} (f : value -> option A) (v : value)
  : option (list A) :=
  match v with
  | Arr l => all_some (map f l)
  | _ => None
  end.

Definition get {A} (f : value -> option A) (key : string)
    (members : list (string * value)) : option A :=
  match field key members with
  | Some v => f v
  | None => None
  end.

Definition as_topic (v : value) : option Topic.t :=
  match v with
  | Obj m =>
      match get as_text "title" m, get (as_list as_text) "key_concepts" m,
            get (as_list as_text) "subtopics" m,
            get as_int "duration_minutes" m,
            get (as_list as_int) "objective_links" m with
      | Some t, Some k, Some s, Some d, Some o => Some (Topic.make t k s d o)
      | _, _, _, _, _ => None
      end
  | _ => None
  end.

Definition as_structure (v : value) : option Structure.t :=
  match v with
  | Obj m =>
      match get as_text "title" m,
            get (as_list as_text) "learning_objectives" m,
            get (as_list as_topic) "topics" m,
            get (as_list as_text) "practical_applications" m,
            get (as_list as_text) "key_terms" m with
      | Some t, Some o, Some ts, Some p, Some k =>
          Some (Structure.make t o ts p k)
      | _, _, _, _, _ => None
      end
  | _ => None
  end.

Definition loads (s : string) : Decoding value :=
  match parse s with
  | Some v => Decoded v
  | None => JSONDecodeError
  end.

(** [json.loads] for [transform_to_lecture], which takes the decoded value
    for a [LectureStructure] dictionary: the decoder of the documents that
    hold one.  A document that holds a value of another shape has no
    decoding at this type; it is answered like a document that is no
    JSON. *)
Definition loads_structure (s : string) : Decoding Structure.t :=
  match parse s with
  | Some v =>
      match as_structure v with
      | Some structure_data => Decoded structure_data
      | None => JSONDecodeError
      end
  | None => JSONDecodeError
  end.

(** [s] between double quotes. *)
Definition quoted (s : string) : string :=
  String quote (s ++ String quote EmptyString).

End Json.

(** ** Model selection and free-form generation

    The constructor of [TranscriptTransformer] and the methods that generate
    text from a raw prompt: [_get_safe_max_tokens],
    [_generate_with_local_model], [_generate_with_api] and [_generate_text].
    The object is a record; an attribute that the constructor has not set is
    [None], and reading it raises [AttributeError]. *)

Module Generator.

(** The float literals of [_get_safe_max_tokens] and [_generate_with_api]. *)
Definition f0_9 : Py.float := S754_finite false 8106479329266893 (-53).
Definition f1_3 : Py.float := S754_finite false 5854679515581645 (-52).

Definition LOCAL_MODEL_IDS : gmap string string :=
  list_to_map
    [("phi-4", "microsoft/phi-4");
     ("sky-t1-32b", "NovaSky-AI/Sky-T1-32B-Preview");
     ("deepseek-v3", "deepseek-ai/DeepSeek-V3")].

(** Context limits, in tokens. *)
Definition MODEL_LIMITS : gmap string Z :=
  list_to_map
    [("phi-4", 16384);
     ("sky-t1-32b", 4096);
     ("deepseek-v3", 8192);
     ("gpt-3.5-turbo", 4096);
     ("gpt-4", 8192);
     ("gpt-4-turbo", 128000);
     ("gpt-4o-mini", 8192);
     ("gemini-pro", 32768);
     ("gemini-2.0-flash-exp", 128000)].

Inductive error : Type :=
| AttributeError (attribute : string)
| Exn (e : exn).

Inductive Outcome (A : Type) : Type :=
| Done (a : A)
| Failed (e : error).
Arguments Done {A} a.
Arguments Failed {A} e.

(** [openai.OpenAI(api_key=..., base_url=...)] *)
Record Client : Type := {
  api_key : option string;
  base_url : option string
}.

Inductive Notice : Type :=
| UsingCustomContext (max_tokens : Z)
| ModelContextLimit (model_type : string) (max_tokens : Z)
| InitializingLocal (model_type : string)
| InitializingOpenAI (model_type : string)
| InitializingGemini (model_type : string)
| GeneratingLocal (max_tokens prompt_length : Z)
| GeneratingApi (max_tokens estimated_prompt : Z).

Record State : Type := {
  requests : nat;                    (* generation requests made so far *)
  notices : list (Level * Notice)    (* records written, oldest first *)
}.

Definition G (A : Type) : Type := State -> Outcome A * State.

Definition gret {A} (a : A) : G A := fun st => (Done a, st).

Definition gbind {A B} (c : G A) (k : A -> G B) : G B :=
  fun st =>
    match c st with
    | (Done a, st') => k a st'
    | (Failed e, st') => (Failed e, st')
    end.

Notation "'let!' x ':=' c 'in' k" := (gbind c (fun x => k))
  (at level 10, x name, c at level 100, k at level 200).

(** A computation of the arithmetic or of the outside world. *)
Definition glift {A} (r : Result A) : G A :=
  fun st => (match r with Return a => Done a | Raise e => Failed (Exn e) end, st).

(** [self.<attribute>] *)
Definition attr {A} (attribute : string) (v : option A) : G A :=
  fun st => (match v with
             | Some a => Done a
             | None => Failed (AttributeError attribute)
             end, st).

Definition info (n : Notice) : G unit :=
  fun st => (Done tt,
             {| requests := requests st;
                notices := (notices st ++ [(INFO, n)])%list |}).

(** One generation request: what the [n]-th request of a run answers. *)
Definition request {A} (answer : nat -> Result A) : G A :=
  fun st => (match answer (requests st) with
             | Return a => Done a
             | Raise e => Failed (Exn e)
             end,
             {| requests := S (requests st); notices := notices st |}).

(** The truth value of an [Optional[str]]. *)
Definition truthy (s : option string) : bool :=
  match s with
  | Some s => negb (Str.is_empty s)
  | None => false
  end.

(** [api_provider == name] *)
Definition is_provider (name : string) (api_provider : option string) : bool :=
  match api_provider with
  | Some p => String.eqb p name
  | None => false
  end.

Definition GEMINI_BASE_URL : string :=
  "https://generativelanguage.googleapis.com/v1beta".

Section Methods.

(** [os.getenv] *)
Variable getenv : string -> option string.

(** [AutoTokenizer] and [AutoModelForCausalLM]: loading by model id,
    encoding a prompt (with truncation) to its input ids, sampling a
    completion of at most [max_new_tokens] tokens, decoding without the
    special tokens. *)
Variables Tokenizer Model : Type.
Variable tokenizer_from_pretrained : string -> Result Tokenizer.
Variable model_from_pretrained : string -> Result Model.
Variable encode : Tokenizer -> string -> list Z.
Variable generate : Model -> Tokenizer -> list Z -> Z -> nat -> Result (list Z).
Variable decode : Tokenizer -> list Z -> string.

(** [client.chat.completions.create(model=..., messages=[system, user],
    temperature=0.7, max_tokens=...)], then [.choices[0].message.content]:
    the system message is always the one of the lecture educator. *)
Variable chat : Client -> string -> string -> Z -> nat -> Result string.

(** The attributes of [self]; [text_processor] is left out. *)
Record Self : Type := {
  model_type : string;
  api_provider : option string;
  max_tokens : Z;
  tokenizer : option Tokenizer;
  model : option Model;
  openai_client : option Client;
  model_name : option string;
  words_per_minute : Z
}.

Definition __init__ (model_type : string) (api_provider : option string)
    (custom_context : option Z) : G Self :=
  let! max_tokens :=
    match custom_context with
    | Some limit =>
        let! _ := info (UsingCustomContext limit) in gret limit
    | None =>
        let limit := default 4096 (MODEL_LIMITS !! model_type) in
        let! _ := info (ModelContextLimit model_type limit) in gret limit
    end in
  let self tokenizer model openai_client model_name :=
    {| model_type := model_type; api_provider := api_provider;
       max_tokens := max_tokens; tokenizer := tokenizer; model := model;
       openai_client := openai_client; model_name := model_name;
       words_per_minute := 130 |} in
  match LOCAL_MODEL_IDS !! model_type with
  | Some model_id =>
      let! _ := info (InitializingLocal model_type) in
      let! tokenizer := glift (tokenizer_from_pretrained model_id) in
      let! model := glift (model_from_pretrained model_id) in
      gret (self (Some tokenizer) (Some model) None None)
  | None =>
      if truthy api_provider then
        if is_provider "openai" api_provider then
          if truthy (getenv "OPENAI_API_KEY") then
            let! _ := info (InitializingOpenAI model_type) in
            gret (self None None
                    (Some {| api_key := getenv "OPENAI_API_KEY";
                             base_url := None |})
                    (Some model_type))
          else glift (Raise ValueError)
        else if is_provider "gemini" api_provider then
          if truthy (getenv "GOOGLE_API_KEY") then
            let! _ := info (InitializingGemini model_type) in
            gret (self None None
                    (Some {| api_key := getenv "GOOGLE_API_KEY";
                             base_url := Some GEMINI_BASE_URL |})
                    (Some model_type))
          else glift (Raise ValueError)
        else gret (self None None None None)
      else glift (Raise ValueError)
  end.

(** [max(100, min(int(available_tokens * 0.9), 8000))] *)
Definition _get_safe_max_tokens (self : Self) (prompt_tokens : Z) : Result Z :=
  let available_tokens := max_tokens self - prompt_tokens in
  rbind (Py.int_of_product available_tokens f0_9) (fun safe_tokens =>
  Return (Z.max 100 (Z.min safe_tokens 8000))).

Definition _generate_with_local_model (self : Self) (prompt : string)
    (max_tokens : option Z) : G string :=
  let! tokenizer := attr "tokenizer" (tokenizer self) in
  let! model := attr "model" (model self) in
  let input_ids := encode tokenizer prompt in
  let prompt_length := Z.of_nat (length input_ids) in
  let! max_tokens :=
    match max_tokens with
    | None => glift (_get_safe_max_tokens self prompt_length)
    | Some limit => gret limit
    end in
  let! _ := info (GeneratingLocal max_tokens prompt_length) in
  let! outputs := request (generate model tokenizer input_ids max_tokens) in
  let response := decode tokenizer outputs in
  gret (Str.strip (Str.drop (String.length prompt) response)).

Definition _generate_with_api (self : Self) (prompt : string)
    (max_tokens : option Z) : G string :=
  let words := Z.of_nat (length (Str.split_ws prompt)) in
  let! prompt_tokens := glift (Py.int_mul_float words f1_3) in
  let! max_tokens :=
    match max_tokens with
    | None =>
        let! estimate := glift (Py.trunc prompt_tokens) in
        glift (_get_safe_max_tokens self estimate)
    | Some limit => gret limit
    end in
  let! estimate := glift (Py.trunc prompt_tokens) in
  let! _ := info (GeneratingApi max_tokens estimate) in
  let! client := attr "openai_client" (openai_client self) in
  let! name := attr "model_name" (model_name self) in
  let! content := request (chat client name prompt max_tokens) in
  gret (Str.strip content).

(** The default of the parameter [max_tokens] of [_generate_text]. *)
Definition default_max_tokens : Z := 1000.

Definition _generate_text (self : Self) (prompt : string) (max_tokens : Z)
  : G string :=
  match LOCAL_MODEL_IDS !! model_type self with
  | Some _ => _generate_with_local_model self prompt (Some max_tokens)
  | None => _generate_with_api self prompt (Some max_tokens)
  end.

End Methods.

Arguments model_type {Tokenizer Model} s.
Arguments api_provider {Tokenizer Model} s.
Arguments max_tokens {Tokenizer Model} s.
Arguments tokenizer {Tokenizer Model} s.
Arguments model {Tokenizer Model} s.
Arguments openai_client {Tokenizer Model} s.
Arguments model_name {Tokenizer Model} s.
Arguments words_per_minute {Tokenizer Model} s.
Arguments __init__ getenv {Tokenizer Model}.
Arguments _get_safe_max_tokens {Tokenizer Model}.
Arguments _generate_with_local_model {Tokenizer Model}.
Arguments _generate_with_api {Tokenizer Model}.
Arguments _generate_text {Tokenizer Model}.

End Generator.

(** * Specification vocabulary *)

Import TranscriptTransformer.

(** The record after [k] halvings of the virtual mantissa [M]. *)
Definition halved (M k : Z) : shr_record :=
  {| shr_m := M / 2 ^ k;
     shr_r := Z.odd (M / 2 ^ (k - 1));
     shr_s := negb (M mod 2 ^ (k - 1) =? 0) |}.

Definition loc_code (l : location) : Z :=
  match l with
  | loc_Exact => 0
  | loc_Inexact Lt => 1
  | loc_Inexact Eq => 2
  | loc_Inexact Gt => 3
  end.

(** Rounding to nearest, ties to even, of [M / 2^K]. *)
Definition nearest (M K : Z) : Z :=
  round_nearest_even (shr_m (halved M K)) (loc_of_shr_record (halved M K)).

(** [floor (num / den * x)] and [ceil (num / den * x)] in exact arithmetic. *)
Definition floor_frac (num den x : Z) : Z := num * x / den.
Definition ceil_frac (num den x : Z) : Z := - (- (num * x) / den).

(** [sub] occurs somewhere in [s]. *)
Definition occurs_in (sub s : string) : Prop :=
  exists pre post, s = pre ++ sub ++ post.

(** [term] occurs in [content] when both are lower-cased. *)
Definition occurs_ci (term content : string) : Prop :=
  occurs_in (Str.lower term) (Str.lower content).

(** No whitespace-separated token of [objective] occurs in [content]. *)
Definition objective_missed (content objective : string) : Prop :=
  forall token, In token (Str.split_ws objective) -> ~ occurs_ci token content.

(** [sub] occurs at two places of [s] that do not overlap. *)
Definition occurs_twice (sub s : string) : Prop :=
  exists a b c, s = a ++ sub ++ b ++ sub ++ c /\ (sub = "" -> b <> "").

(** Fewer than two occurrences of [term] in [content], lower-cased. *)
Definition term_underused (content term : string) : Prop :=
  ~ occurs_twice (Str.lower term) (Str.lower content).

(** No key concept of [topic] occurs in [content]. *)
Definition topic_missed (content : string) (topic : Topic.t) : Prop :=
  forall concept, In concept (Topic.key_concepts topic) ->
                  ~ occurs_ci concept content.

(** [out] holds one record for each element of the list that satisfies
    [P], in the order of the list, and nothing else. *)
Inductive one_per {A} (P : A -> Prop) (record : A -> LogRecord)
  : list A -> list LogRecord -> Prop :=
| one_per_nil : one_per P record [] []
| one_per_hit x xs out :
    P x -> one_per P record xs out ->
    one_per P record (x :: xs) (record x :: out)
| one_per_miss x xs out :
    ~ P x -> one_per P record xs out -> one_per P record (x :: xs) out.

Definition add_log (w : World) (out : list LogRecord) : World :=
  {| calls := calls w; log := (log w ++ out)%list;
     full_content := full_content w |}.

(** The union of the key concepts of the topics processed. *)
Definition concepts_of (topics : list Topic.t) : gset string :=
  ⋃ (map (fun topic => list_to_set (Topic.key_concepts topic)) topics).

(** The non-blank lines of a line-oriented response, stripped. *)
Definition response_lines (content : string) : list string :=
  map Str.strip
      (List.filter (fun line => nonblank (Str.strip line))
              (Str.split_on newline (Str.strip content))).

Definition fallback_request (text : string) : Request :=
  {| system := LineByLine; user := FallbackPrompt (Str.first_chars 1000 text);
     max_tokens := 1000 |}.

(** [c] leaves the local [full_content] as it found it. *)
Definition keeps_full_content {A} (c : M A) : Prop :=
  forall w, full_content (snd (c w)) = full_content w.

(** A request for the practical section. *)
Definition is_practical (request : Request) : bool :=
  match user request with
  | SectionPrompt section_type _ _ _ _ _ _ => String.eqb section_type "practical"
  | _ => false
  end.

Definition initial_world : World :=
  {| calls := 0; log := []; full_content := None |}.

(** A word counter: the number of whitespace-separated tokens. *)
Definition count_tokens (s : string) : Z := Z.of_nat (length (Str.split_ws s)).

Definition lines_of (l : list string) : string :=
  Str.join (String newline EmptyString) l.

(** A provider that never answers. *)
Definition unavailable (n : nat) (request : Request) : Result string :=
  Raise ProviderError.

(** A provider whose planner calls fail and whose section calls succeed,
    except for the practical section. *)
Definition fails_on_practical (n : nat) (request : Request) : Result string :=
  match user request with
  | SectionPrompt section_type _ _ _ _ _ _ =>
      if String.eqb section_type "practical" then Raise ProviderError
      else Return ("Text of " ++ section_type)
  | _ => Raise ProviderError
  end.

(** A line-oriented answer with a title and two objectives only. *)
Definition three_lines : string :=
  lines_of ["Title"; "Objective one"; "Objective two"].

Definition answers_three_lines (n : nat) (request : Request) : Result string :=
  Return three_lines.

(** A well-formed structure document whose topic list is empty. *)
Definition no_topics_document : string :=
  "{" ++ Json.quoted "title" ++ ": " ++ Json.quoted "T" ++ ", "
      ++ Json.quoted "learning_objectives" ++ ": [], "
      ++ Json.quoted "topics" ++ ": [], "
      ++ Json.quoted "practical_applications" ++ ": [], "
      ++ Json.quoted "key_terms" ++ ": []}".

Definition answers_no_topics (n : nat) (request : Request) : Result string :=
  Return no_topics_document.

(** A structure document with one topic of five minutes. *)
Definition one_topic_document : string :=
  "{" ++ Json.quoted "title" ++ ": " ++ Json.quoted "T" ++ ", "
      ++ Json.quoted "learning_objectives" ++ ": [" ++ Json.quoted "learn" ++ "], "
      ++ Json.quoted "topics" ++ ": [{"
      ++ Json.quoted "title" ++ ": " ++ Json.quoted "A" ++ ", "
      ++ Json.quoted "key_concepts" ++ ": [" ++ Json.quoted "text" ++ "], "
      ++ Json.quoted "subtopics" ++ ": [], "
      ++ Json.quoted "duration_minutes" ++ ": 5, "
      ++ Json.quoted "objective_links" ++ ": [1]}], "
      ++ Json.quoted "practical_applications" ++ ": [], "
      ++ Json.quoted "key_terms" ++ ": []}".

Definition answers_everything (n : nat) (request : Request) : Result string :=
  match user request with
  | SectionPrompt section_type _ _ _ _ _ _ => Return ("Text of " ++ section_type)
  | _ => Return one_topic_document
  end.

(** The structure that [one_topic_document] encodes. *)
Definition one_topic_structure : Structure.t :=
  Structure.make "T" ["learn"] [Topic.make "A" ["text"] [] 5 [1]] [] [].

(** The same document between two sentences of prose. *)
Definition wrapped_document : string :=
  "Here is the outline: " ++ one_topic_document ++ " I hope it helps.".

Definition answers_wrapped (n : nat) (request : Request) : Result string :=
  Return wrapped_document.

(** A provider that answers the planner with prose, and the line-oriented
    request with seven lines. *)
Definition seven_lines : string :=
  lines_of ["Title"; "O1"; "O2"; "O3"; ""; "  First  "; "Second"; "Term"].

Definition answers_lines (n : nat) (request : Request) : Result string :=
  match user request with
  | FallbackPrompt _ => Return seven_lines
  | _ => Return "Sorry, no outline today."
  end.

Definition topic_of (title : string) (minutes : Z) : Topic.t :=
  Topic.make title [title] [] minutes [1].

Definition two_topics : Structure.t :=
  Structure.make "T" ["learn"] [topic_of "A" 7; topic_of "B" 3] [] [].

Definition zero_topics : Structure.t :=
  Structure.make "T" ["learn"] [topic_of "A" 0; topic_of "B" 0] [] [].

Definition seeded_context (structure_data : Structure.t) (intro : string)
  : Context.t :=
  Context.make "introduction" None [] (Structure.topic_titles structure_data)
    ∅ (Str.last_chars 1000 intro)
    (Structure.learning_objectives structure_data).

Definition three_equal_topics : list Topic.t :=
  [topic_of "A" 10; topic_of "B" 10; topic_of "C" 10].

Definition two_topic_words : gmap string Z := <["B" := 819]> (<["A" := 1910]> ∅).

(** ** Vocabulary of the constructor and of the generation methods *)

(** [s] starts with a blank character. *)
Definition starts_blank (s : string) : bool :=
  match s with
  | String c _ => Str.is_space c
  | EmptyString => false
  end.

(** The limit that [_generate_with_api] asks for. *)
Definition api_limit {Tokenizer Model} (self : Generator.Self Tokenizer Model)
    (prompt : string) (max_tokens : option Z) : Z :=
  match max_tokens with
  | Some limit => limit
  | None =>
      let words := Z.of_nat (length (Str.split_ws prompt)) in
      let available := Generator.max_tokens self - floor_frac 13 10 words in
      Z.max 100 (Z.min (floor_frac 9 10 available) 8000)
  end.

(** The limit that [_generate_with_local_model] asks for. *)
Definition local_limit {Tokenizer Model} (self : Generator.Self Tokenizer Model)
    (prompt_length : Z) (max_tokens : option Z) : Z :=
  match max_tokens with
  | Some limit => limit
  | None =>
      Z.max 100
        (Z.min (floor_frac 9 10 (Generator.max_tokens self - prompt_length)) 8000)
  end.

(** [self.openai_client.chat.completions.create] as the pipeline calls it:
    without the attribute the call expression raises. *)
Definition pipeline_provider (client : option Generator.Client)
    (completions : Generator.Client -> nat -> Request -> Result string)
  : nat -> Request -> Result string :=
  match client with
  | Some c => completions c
  | None => fun _ _ => Raise ProviderError
  end.

(** ** Vocabulary of the pipeline *)

(** The quotas that the second loop of [_generate_main_content] reads, in
    topic order. *)
Definition quotas_of (topic_words : gmap string Z) (topics : list Topic.t)
  : list Z :=
  map (fun topic => default 0 (topic_words !! Topic.title topic)) topics.

(** A request for the introduction. *)
Definition is_introduction (request : Request) : bool :=
  match user request with
  | SectionPrompt section_type _ _ _ _ _ _ =>
      String.eqb section_type "introduction"
  | _ => false
  end.

(** [c] is one of the characters of [s]. *)
Fixpoint has_char (c : ascii) (s : string) : Prop :=
  match s with
  | EmptyString => False
  | String d r => c = d \/ has_char c r
  end.

Definition open_brace : ascii := "{"%char.
Definition close_brace : ascii := "}"%char.

(** The first request of the planner. *)
Definition structure_request (text : string) (target_duration : Z) : Request :=
  {| system := OnlyValidJSON;
     user := StructurePrompt target_duration (Str.first_chars 2000 text);
     max_tokens := 2000 |}.

(** What the two decoding attempts of the planner make of an answer: the
    value of the whole answer, or after a [JSONDecodeError] the value of
    the span between its braces. *)
Definition decoded {Value : Type} (json_loads : string -> Decoding Value)
    (response : string) : option Value :=
  match json_loads (Str.strip response) with
  | Decoded value => Some value
  | JSONDecodeError =>
      match extract_json (Str.strip response) with
      | Some span =>
          match json_loads span with
          | Decoded value => Some value
          | _ => None
          end
      | None => None
      end
  | DecodingRaised _ => None
  end.

(** No tier of the planner can decode [content]. *)
Definition undecodable {Value : Type} (json_loads : string -> Decoding Value)
    (content : string) : Prop :=
  decoded json_loads content = None.

(** The section and the word target that a request asks for. *)
Definition section_of (request : Request) : option (string * Z) :=
  match user request with
  | SectionPrompt section_type target_words _ _ _ _ _ =>
      Some (section_type, target_words)
  | _ => None
  end.

(** From call [n] on, one call per topic, in order: the text in [texts] is
    the provider's answer to a request for the section of the topic, with
    the quota of the topic. *)
Inductive one_call_each (provider : nat -> Request -> Result string)
    (topic_words : gmap string Z)
  : nat -> list Topic.t -> list string -> Prop :=
| no_topic_left n : one_call_each provider topic_words n [] []
| topic_called n topic topics text texts request quota :
    provider n request = Return text ->
    topic_words !! Topic.title topic = Some quota ->
    section_of request = Some ("main_topic_" ++ Topic.title topic, quota) ->
    one_call_each provider topic_words (S n) topics texts ->
    one_call_each provider topic_words n (topic :: topics) (text :: texts).

(** Two worlds with the same number of calls made and the same
    [full_content]; the logs may differ. *)
Definition sim (w1 w2 : World) : Prop :=
  calls w1 = calls w2 /\ full_content w1 = full_content w2.

(** Two computations that, from such worlds, give the same result and end
    in such worlds. *)
Definition alike {A} (c1 c2 : M A) : Prop :=
  forall w1 w2, sim w1 w2 ->
    fst (c1 w1) = fst (c2 w2) /\ sim (snd (c1 w1)) (snd (c2 w2)).

(** The requests that a run of [transform_to_lecture] can send: the two of
    the planner, and a section request for the introduction (no context),
    a main topic (no guidance), the practical part or the summary. *)
Definition pipeline_request (request : Request) : bool :=
  match system request, user request with
  | OnlyValidJSON, StructurePrompt _ _ => max_tokens request =? 2000
  | LineByLine, FallbackPrompt _ => max_tokens request =? 1000
  | CoherentLectureEducator, SectionPrompt section_type _ _ _ guidance context _ =>
      (max_tokens request =? 8000)
      && match guidance, context with
         | Some IntroductionGuidance, None => String.eqb section_type "introduction"
         | Some PracticalGuidance, Some _ => String.eqb section_type "practical"
         | Some SummaryGuidance, Some _ => String.eqb section_type "summary"
         | None, Some _ => String.prefix "main_topic_" section_type
         | _, _ => false
         end
  | _, _ => false
  end.

(** [provider], deaf to every other request. *)
Definition restrict (accepted : Request -> bool)
    (provider : nat -> Request -> Result string) : nat -> Request -> Result string :=
  fun n request => if accepted request then provider n request
                   else Raise ProviderError.

(** ** Fixtures of the instances *)

Definition no_environment (name : string) : option string := None.

Definition openai_environment (name : string) : option string :=
  if String.eqb name "OPENAI_API_KEY" then Some "sk-test" else None.

(** Loaders, an encoder and a model on a tokenizer and a model without
    content: one token per word, and an answer that repeats the prompt. *)
Definition load_unit (model_id : string) : Result unit := Return tt.

Definition encode_words (tokenizer : unit) (prompt : string) : list Z :=
  map (fun _ => 0) (Str.split_ws prompt).

Definition generate_nothing (model tokenizer : unit) (input_ids : list Z)
    (max_new_tokens : Z) (n : nat) : Result (list Z) :=
  Return input_ids.

Definition decode_padded (tokenizer : unit) (outputs : list Z) : string :=
  "Say hi.  Hi!  ".

Definition chat_padded (client : Generator.Client) (model_name prompt : string)
    (max_tokens : Z) (n : nat) : Result string :=
  Return "  Hi!  ".

Definition initial_state : Generator.State :=
  {| Generator.requests := 0; Generator.notices := [] |}.

Definition test_client : Generator.Client :=
  {| Generator.api_key := Some "sk-test"; Generator.base_url := None |}.

Definition api_self : Generator.Self unit unit :=
  {| Generator.model_type := "gpt-4";
     Generator.api_provider := Some "openai";
     Generator.max_tokens := 8192;
     Generator.tokenizer := None;
     Generator.model := None;
     Generator.openai_client := Some test_client;
     Generator.model_name := Some "gpt-4";
     Generator.words_per_minute := 130 |}.

Definition local_self : Generator.Self unit unit :=
  {| Generator.model_type := "phi-4";
     Generator.api_provider := None;
     Generator.max_tokens := 16384;
     Generator.tokenizer := Some tt;
     Generator.model := Some tt;
     Generator.openai_client := None;
     Generator.model_name := None;
     Generator.words_per_minute := 130 |}.

(** A provider that answers every section request with one sentence and
    fails the planner. *)
Definition answers_welcome (n : nat) (request : Request) : Result string :=
  match user request with
  | SectionPrompt _ _ _ _ _ _ _ => Return "Welcome."
  | _ => Raise ProviderError
  end.

(** Two texts that differ after 2000 characters. *)
Definition long_text (ending : string) : string :=
  Str.join "" (repeat "a" 2000) ++ ending.

Definition any_completions (client : Generator.Client) (n : nat)
    (request : Request) : Result string :=
  Return "Welcome.".

(** * Properties

    ** Binary64 rounding of integer products and quotients *)

Lemma digits2_pos_size p : digits2_pos p = Pos.size p.
Proof. induction p; simpl; congruence. Qed.

Lemma Zdigits2_log2 p : Zdigits2 (Z.pos p) = Z.log2 (Z.pos p) + 1.
Proof.
  simpl. rewrite digits2_pos_size.
  destruct p; simpl; lia.
Qed.

Lemma digits_bounds p : 2 ^ (Zdigits2 (Z.pos p) - 1) <= Z.pos p < 2 ^ Zdigits2 (Z.pos p).
Proof.
  rewrite Zdigits2_log2.
  replace (Z.log2 (Z.pos p) + 1 - 1) with (Z.log2 (Z.pos p)) by lia.
  replace (Z.log2 (Z.pos p) + 1) with (Z.succ (Z.log2 (Z.pos p))) by lia.
  apply Z.log2_spec. lia.
Qed.

Lemma digits_unique m d : 0 < d -> 2 ^ (d - 1) <= m < 2 ^ d -> Zdigits2 m = d.
Proof.
  intros Hd H. assert (0 < m) by (pose proof (Z.pow_pos_nonneg 2 (d-1)); lia).
  destruct m as [|p|p]; try lia.
  rewrite Zdigits2_log2.
  assert (Z.log2 (Z.pos p) = d - 1); [|lia].
  apply Z.log2_unique; [lia|]. replace (Z.succ (d-1)) with d by lia. exact H.
Qed.

(** SpecFloat.iter_pos as Nat.iter *)
Lemma iter_pos_nat {A} (f : A -> A) p x : SpecFloat.iter_pos f p x = Nat.iter (Pos.to_nat p) f x.
Proof.
  revert x. induction p; intros x; cbn [SpecFloat.iter_pos].
  - rewrite !IHp, Pos2Nat.inj_xI.
    replace (S (2 * Pos.to_nat p)) with (Pos.to_nat p + S (Pos.to_nat p))%nat by lia.
    rewrite Nat.iter_add, Nat.iter_succ_r. reflexivity.
  - rewrite !IHp, Pos2Nat.inj_xO.
    replace (2 * Pos.to_nat p)%nat with (Pos.to_nat p + Pos.to_nat p)%nat by lia.
    rewrite Nat.iter_add. reflexivity.
  - reflexivity.
Qed.

Lemma halved_of_loc m l : shr_record_of_loc m l = halved (4 * m + loc_code l) 2.
Proof.
  unfold halved. change (2 ^ 2) with 4. change (2 ^ (2 - 1)) with 2.
  destruct l as [|[]]; cbn [loc_code shr_record_of_loc].
  - replace ((4 * m + 0) / 4) with m by (apply Z.div_unique with (r := 0); lia).
    replace ((4 * m + 0) / 2) with (2 * m) by (apply Z.div_unique with (r := 0); lia).
    replace ((4 * m + 0) mod 2) with 0 by (apply Z.mod_unique with (q := 2 * m); lia).
    rewrite Z.odd_mul. reflexivity.
  - replace ((4 * m + 2) / 4) with m by (apply Z.div_unique with (r := 2); lia).
    replace ((4 * m + 2) / 2) with (2 * m + 1) by (apply Z.div_unique with (r := 0); lia).
    replace ((4 * m + 2) mod 2) with 0 by (apply Z.mod_unique with (q := 2 * m + 1); lia).
    rewrite Z.add_comm, Z.odd_add_mul_2. reflexivity.
  - replace ((4 * m + 1) / 4) with m by (apply Z.div_unique with (r := 1); lia).
    replace ((4 * m + 1) / 2) with (2 * m) by (apply Z.div_unique with (r := 1); lia).
    replace ((4 * m + 1) mod 2) with 1 by (apply Z.mod_unique with (q := 2 * m); lia).
    rewrite Z.odd_mul. reflexivity.
  - replace ((4 * m + 3) / 4) with m by (apply Z.div_unique with (r := 3); lia).
    replace ((4 * m + 3) / 2) with (2 * m + 1) by (apply Z.div_unique with (r := 1); lia).
    replace ((4 * m + 3) mod 2) with 1 by (apply Z.mod_unique with (q := 2 * m + 1); lia).
    rewrite Z.add_comm, Z.odd_add_mul_2. reflexivity.
Qed.

Lemma shr_1_spec m r s :
  0 <= m ->
  shr_1 {| shr_m := m; shr_r := r; shr_s := s |} =
  {| shr_m := m / 2; shr_r := Z.odd m; shr_s := r || s |}.
Proof.
  intros Hm. rewrite <- Z.div2_div.
  destruct m as [|[p|p|]|]; try lia; reflexivity.
Qed.

(** M = 2^k q + 2^(k-1) a + b *)
Lemma split_at k M :
  1 <= k -> 0 <= M ->
  M = 2 ^ k * (M / 2 ^ k) + 2 ^ (k - 1) * (if Z.odd (M / 2 ^ (k - 1)) then 1 else 0)
      + M mod 2 ^ (k - 1)
  /\ 0 <= M mod 2 ^ (k - 1) < 2 ^ (k - 1)
  /\ 0 <= M / 2 ^ k.
Proof.
  intros Hk HM.
  assert (Hp : 0 < 2 ^ (k - 1)) by (apply Z.pow_pos_nonneg; lia).
  assert (Hk2 : 2 ^ k = 2 ^ (k - 1) * 2).
  { replace k with ((k - 1) + 1) at 1 by lia. rewrite Z.pow_add_r by lia. reflexivity. }
  split; [|split].
  - rewrite Hk2. rewrite <- Z.div_div by lia.
    pose proof (Z.div_mod M (2 ^ (k - 1)) ltac:(lia)) as H1.
    pose proof (Z.div_mod (M / 2 ^ (k - 1)) 2 ltac:(lia)) as H2.
    rewrite Zmod_odd in H2. destruct (Z.odd (M / 2 ^ (k - 1))); nia.
  - apply Z.mod_pos_bound; lia.
  - apply Z.div_pos; lia.
Qed.

Lemma shr_1_halved M k : 1 <= k -> 0 <= M -> shr_1 (halved M k) = halved M (k + 1).
Proof.
  intros Hk HM. unfold halved.
  rewrite shr_1_spec by (apply Z.div_pos; [lia | apply Z.pow_pos_nonneg; lia]).
  replace (k + 1 - 1) with k by lia.
  assert (Hp : 0 < 2 ^ (k - 1)) by (apply Z.pow_pos_nonneg; lia).
  assert (Hk2 : 2 ^ k = 2 ^ (k - 1) * 2).
  { replace k with ((k - 1) + 1) at 1 by lia. rewrite Z.pow_add_r by lia. reflexivity. }
  f_equal.
  - rewrite Z.div_div by (try apply Z.pow_pos_nonneg; lia).
    f_equal. rewrite Z.pow_add_r by lia. reflexivity.
  - destruct (split_at k M Hk HM) as (E & Hb & Hq).
    set (a := Z.odd (M / 2 ^ (k - 1))) in *.
    set (b := M mod 2 ^ (k - 1)) in *.
    assert (Hmod : M mod 2 ^ k = 2 ^ (k - 1) * (if a then 1 else 0) + b).
    { symmetry. apply Z.mod_unique with (q := M / 2 ^ k); [left; destruct a; lia | lia]. }
    rewrite Hmod.
    destruct a; simpl.
    + symmetry. apply negb_true_iff. apply Z.eqb_neq. lia.
    + f_equal. f_equal. lia.
Qed.

Lemma iter_shr_1_halved n M k :
  1 <= k -> 0 <= M -> Nat.iter n shr_1 (halved M k) = halved M (k + Z.of_nat n).
Proof.
  intros Hk HM. induction n.
  - simpl. f_equal. lia.
  - rewrite Nat.iter_succ, IHn, shr_1_halved by lia. f_equal. lia.
Qed.

(** [shr] on a located mantissa, for any shift count. *)
Lemma shr_halved m l e n :
  0 <= m ->
  shr (shr_record_of_loc m l) e n =
  (halved (4 * m + loc_code l) (2 + Z.max 0 n), e + Z.max 0 n).
Proof.
  intros Hm. unfold shr. rewrite halved_of_loc.
  assert (0 <= 4 * m + loc_code l) by (destruct l as [|[]]; simpl; lia).
  destruct n as [|p|p].
  - change (Z.max 0 0) with 0. rewrite !Z.add_0_r. reflexivity.
  - rewrite iter_pos_nat, iter_shr_1_halved by lia.
    rewrite positive_nat_Z. replace (Z.max 0 (Z.pos p)) with (Z.pos p) by lia. reflexivity.
  - replace (Z.max 0 (Z.neg p)) with 0 by lia. rewrite !Z.add_0_r. reflexivity.
Qed.

Lemma nearest_bounds M K :
  1 <= K -> 0 <= M ->
  2 ^ K * nearest M K <= M + 2 ^ (K - 1) /\ M <= 2 ^ K * nearest M K + 2 ^ (K - 1)
  /\ 0 <= nearest M K.
Proof.
  intros HK HM. unfold nearest, halved. cbn [shr_m loc_of_shr_record].
  destruct (split_at K M HK HM) as (E & Hb & Hq).
  assert (Hk2 : 2 ^ K = 2 ^ (K - 1) * 2).
  { replace K with ((K - 1) + 1) at 1 by lia. rewrite Z.pow_add_r by lia. reflexivity. }
  set (q := M / 2 ^ K) in *. set (b := M mod 2 ^ (K - 1)) in *.
  destruct (Z.odd (M / 2 ^ (K - 1))); destruct (Z.eqb_spec b 0) as [Hb0|Hb0];
    cbn [negb round_nearest_even]; try (destruct (Z.even q)); nia.
Qed.

Lemma nearest_exact m K : 1 <= K -> 0 <= m -> nearest (2 ^ K * m) K = m.
Proof.
  intros HK Hm.
  destruct (nearest_bounds (2 ^ K * m) K HK) as (H1 & H2 & H3).
  { assert (0 < 2 ^ K) by (apply Z.pow_pos_nonneg; lia). nia. }
  assert (Hk2 : 2 ^ K = 2 ^ (K - 1) * 2).
  { replace K with ((K - 1) + 1) at 1 by lia. rewrite Z.pow_add_r by lia. reflexivity. }
  assert (Hp : 0 < 2 ^ (K - 1)) by (apply Z.pow_pos_nonneg; lia).
  nia.
Qed.

Lemma fexp_64 z : fexp Py.prec Py.emax z = Z.max (z - 53) (-1074).
Proof. reflexivity. Qed.

Lemma pow2_pos k : 0 <= k -> 0 < 2 ^ k.
Proof. intros. apply Z.pow_pos_nonneg; lia. Qed.

Lemma pow2_add a b : 0 <= a -> 0 <= b -> 2 ^ (a + b) = 2 ^ a * 2 ^ b.
Proof. intros. apply Z.pow_add_r; lia. Qed.

(** The mantissa and exponent that [binary_round_aux] delivers in the
    normal range. *)
Lemma binary_round_aux_normal s m e l n :
  0 <= n ->
  2 ^ (n + 52) <= m < 2 ^ (n + 53) ->
  -1074 <= e + n ->
  let m1 := nearest (4 * m + loc_code l) (n + 2) in
  2 ^ 52 <= m1 <= 2 ^ 53 /\
  binary_round_aux Py.prec Py.emax s m e l =
    if m1 <? 2 ^ 53 then
      if e + n <=? 971 then S754_finite s (Z.to_pos m1) (e + n)
      else S754_infinity s
    else
      if e + n + 1 <=? 971 then S754_finite s (Z.to_pos (2 ^ 52)) (e + n + 1)
      else S754_infinity s.
Proof.
  intros Hn Hm He m1.
  assert (Hm0 : 0 < m) by (pose proof (pow2_pos (n + 52)); lia).
  assert (Hd : Zdigits2 m = n + 53).
  { apply digits_unique; [lia|]. replace (n + 53 - 1) with (n + 52) by lia. exact Hm. }
  assert (HM : 0 <= 4 * m + loc_code l) by (destruct l as [|[]]; simpl; lia).
  assert (Hc : 0 <= loc_code l <= 3) by (destruct l as [|[]]; simpl; lia).
  destruct (nearest_bounds (4 * m + loc_code l) (n + 2) ltac:(lia) HM) as (B1 & B2 & B3).
  fold m1 in B1, B2, B3.
  replace (n + 2 - 1) with (n + 1) in B1, B2 by lia.
  assert (P2 : 2 ^ (n + 2) = 4 * 2 ^ n) by (rewrite pow2_add by lia; lia).
  assert (P1 : 2 ^ (n + 1) = 2 * 2 ^ n) by (rewrite pow2_add by lia; lia).
  assert (P52 : 2 ^ (n + 52) = 2 ^ n * 2 ^ 52) by (rewrite pow2_add by lia; lia).
  assert (P53 : 2 ^ (n + 53) = 2 ^ n * 2 ^ 53) by (rewrite pow2_add by lia; lia).
  pose proof (pow2_pos n Hn) as Hpn.
  assert (R : 2 ^ 52 <= m1 <= 2 ^ 53).
  { change (2 ^ 52) with 4503599627370496 in *. change (2 ^ 53) with 9007199254740992 in *. nia. }
  split; [exact R|].
  unfold binary_round_aux, shr_fexp.
  rewrite Hd, fexp_64.
  replace (Z.max (n + 53 + e - 53) (-1074) - e) with n by lia.
  rewrite shr_halved by lia.
  replace (2 + Z.max 0 n) with (n + 2) by lia.
  replace (e + Z.max 0 n) with (e + n) by lia.
  fold (nearest (4 * m + loc_code l) (n + 2)). fold m1.
  destruct (Z.ltb_spec m1 (2 ^ 53)) as [Hlt|Hge].
  - assert (Hd1 : Zdigits2 m1 = 53) by (apply digits_unique; [lia|]; change (53 - 1) with 52; lia).
    rewrite Hd1, fexp_64.
    replace (Z.max (53 + (e + n) - 53) (-1074) - (e + n)) with 0 by lia.
    cbn [shr shr_record_of_loc shr_m].
    destruct m1 as [|p|p] eqn:E1; try lia.
    reflexivity.
  - assert (E1 : m1 = 2 ^ 53) by lia.
    rewrite E1.
    change (Zdigits2 (2 ^ 53)) with 54. rewrite fexp_64.
    replace (Z.max (54 + (e + n) - 53) (-1074) - (e + n)) with 1 by lia.
    cbn [shr shr_record_of_loc SpecFloat.iter_pos].
    change (shr_m (shr_1 {| shr_m := 2 ^ 53; shr_r := false; shr_s := false |}))
      with (2 ^ 52).
    change (2 ^ 52) with 4503599627370496. cbn [Z.to_pos].
    reflexivity.
Qed.

Lemma trunc_round m e l n :
  0 <= n ->
  2 ^ (n + 52) <= m < 2 ^ (n + 53) ->
  -1074 <= e + n < 0 ->
  Py.trunc (binary_round_aux Py.prec Py.emax false m e l) =
  Return (nearest (4 * m + loc_code l) (n + 2) / 2 ^ (- (e + n))).
Proof.
  intros Hn Hm He.
  destruct (binary_round_aux_normal false m e l n Hn Hm ltac:(lia)) as (R & ->).
  set (m1 := nearest (4 * m + loc_code l) (n + 2)) in *.
  destruct (Z.ltb_spec m1 (2 ^ 53)) as [Hlt|Hge].
  - destruct (Z.leb_spec (e + n) 971); [|lia].
    unfold Py.trunc. destruct (Z.leb_spec 0 (e + n)); [lia|].
    rewrite Z2Pos.id by lia. reflexivity.
  - assert (E1 : m1 = 2 ^ 53) by lia. rewrite E1.
    destruct (Z.leb_spec (e + n + 1) 971); [|lia].
    unfold Py.trunc. f_equal.
    destruct (Z.leb_spec 0 (e + n + 1)).
    + replace (e + n + 1) with 0 by lia. replace (- (e + n)) with 1 by lia. reflexivity.
    + replace (- (e + n)) with (1 + - (e + n + 1)) by lia.
      rewrite pow2_add by lia. rewrite <- Z.div_div by (try apply pow2_pos; lia).
      reflexivity.
Qed.

Lemma pos_iter_xO p d : Z.pos (Pos.iter xO p d) = Z.pos p * 2 ^ Z.pos d.
Proof.
  induction d using Pos.peano_ind.
  - simpl. lia.
  - rewrite Pos.iter_succ, Pos2Z.inj_succ, Z.pow_succ_r by lia.
    rewrite Pos2Z.inj_xO, IHd. lia.
Qed.

(** [float(t)] is exact below [2^53]. *)
Lemma of_int_exact t d :
  1 <= d <= 53 -> 2 ^ (d - 1) <= t < 2 ^ d ->
  Py.of_int t = S754_finite false (Z.to_pos (t * 2 ^ (53 - d))) (d - 53).
Proof.
  intros Hd Ht.
  assert (Ht0 : 0 < t) by (pose proof (pow2_pos (d - 1)); lia).
  destruct t as [|p|p]; try lia.
  unfold Py.of_int, binary_normalize, binary_round.
  assert (Hdig : Z.pos (digits2_pos p) = d).
  { change (Z.pos (digits2_pos p)) with (Zdigits2 (Z.pos p)). apply digits_unique; lia. }
  rewrite Hdig, fexp_64.
  replace (Z.max (d + 0 - 53) (-1074)) with (d - 53) by lia.
  unfold shl_align. replace (d - 53 - 0) with (d - 53) by lia.
  assert (Hmz : 2 ^ (0 + 52) <= Z.pos p * 2 ^ (53 - d) < 2 ^ (0 + 53)).
  { change (0 + 52) with 52. change (0 + 53) with 53.
    assert (E52 : 2 ^ 52 = 2 ^ (d - 1) * 2 ^ (53 - d))
      by (rewrite <- pow2_add by lia; f_equal; lia).
    assert (E53 : 2 ^ 53 = 2 ^ d * 2 ^ (53 - d))
      by (rewrite <- pow2_add by lia; f_equal; lia).
    rewrite E52, E53.
    pose proof (pow2_pos (53 - d) ltac:(lia)). nia. }
  destruct (d - 53) as [|q|q] eqn:Eq; try lia.
  - replace (53 - d) with 0 in * by lia. rewrite Z.mul_1_r in *.
    destruct (binary_round_aux_normal false (Z.pos p) 0 loc_Exact 0 ltac:(lia) Hmz ltac:(lia))
      as (R & ->).
    cbn [loc_code]. rewrite Z.add_0_r.
    change (0 + 2) with 2. change 4 with (2 ^ 2).
    rewrite (nearest_exact (Z.pos p) 2) by lia.
    destruct (Z.ltb_spec (Z.pos p) (2 ^ 53)); [|lia]. reflexivity.
  - replace (53 - d) with (Z.pos q) in * by lia.
    rewrite <- pos_iter_xO in Hmz |- *.
    destruct (binary_round_aux_normal false (Z.pos (Pos.iter xO p q)) (Z.neg q) loc_Exact 0
                ltac:(lia) Hmz ltac:(lia)) as (R & ->).
    cbn [loc_code]. rewrite Z.add_0_r.
    change (0 + 2) with 2. change 4 with (2 ^ 2).
    rewrite (nearest_exact (Z.pos (Pos.iter xO p q)) 2) by lia.
    destruct (Z.ltb_spec (Z.pos (Pos.iter xO p q)) (2 ^ 53)); [|lia].
    rewrite Z.add_0_r. reflexivity.
Qed.

Lemma digits_exists m : 0 < m -> 2 ^ Z.log2 m <= m < 2 ^ (Z.log2 m + 1).
Proof. intros H. pose proof (Z.log2_spec m H). unfold Z.succ in *. lia. Qed.

(** [int(t * c)] for [0 < t < 2^53] and a positive normal [c]. *)
Lemma int_of_product_nearest t d (mc : positive) ec g :
  1 <= d <= 53 -> 2 ^ (d - 1) <= t < 2 ^ d ->
  0 <= g -> 2 ^ (g + 52) <= t * Z.pos mc < 2 ^ (g + 53) ->
  -1074 <= ec + g < 0 ->
  Py.int_of_product t (S754_finite false mc ec) =
  Return (nearest (4 * (2 ^ (53 - d) * (t * Z.pos mc))) (g + (53 - d) + 2)
          / 2 ^ (- (ec + g))).
Proof.
  intros Hd Ht Hg HP He.
  assert (Ht0 : 0 < t) by (pose proof (pow2_pos (d - 1)); lia).
  pose proof (pow2_pos (53 - d) ltac:(lia)) as Hj.
  unfold Py.int_of_product, Py.int_mul_float, Py.float_of_int.
  rewrite (of_int_exact t d Hd Ht). cbn [Py.is_infinity rbind Py.fmul SFmul xorb].
  rewrite Pos2Z.inj_mul, Z2Pos.id by nia.
  rewrite (trunc_round _ _ loc_Exact (g + (53 - d))).
  - cbn [loc_code]. rewrite Z.add_0_r. f_equal. f_equal.
    + f_equal. lia.
    + f_equal. lia.
  - lia.
  - replace (g + (53 - d) + 52) with ((53 - d) + (g + 52)) by lia.
    replace (g + (53 - d) + 53) with ((53 - d) + (g + 53)) by lia.
    rewrite !pow2_add by lia.
    rewrite !pow2_add in HP by lia. nia.
  - lia.
Qed.

Lemma int_of_product_bounds t (mc : positive) ec g :
  0 < t < 2 ^ 53 ->
  0 <= g -> 2 ^ (g + 52) <= t * Z.pos mc < 2 ^ (g + 53) ->
  -1074 <= ec + g < 0 ->
  exists v,
    Py.int_of_product t (S754_finite false mc ec) = Return v /\
    (forall lo, 2 ^ (2 - ec) * lo < 4 * (t * Z.pos mc) + 2 ^ (g + 1) -> lo <= v) /\
    (forall hi, 4 * (t * Z.pos mc) + 2 ^ (g + 1) < 2 ^ (2 - ec) * (hi + 1) -> v <= hi).
Proof.
  intros Ht Hg HP He.
  set (d := Z.log2 t + 1).
  assert (Hd : 2 ^ (d - 1) <= t < 2 ^ d).
  { unfold d. replace (Z.log2 t + 1 - 1) with (Z.log2 t) by lia.
    apply digits_exists. lia. }
  assert (Hd1 : 1 <= d <= 53).
  { unfold d. pose proof (Z.log2_nonneg t).
    assert (Z.log2 t < 53) by (apply Z.log2_lt_pow2; lia). lia. }
  rewrite (int_of_product_nearest t d mc ec g Hd1 Hd Hg HP He).
  eexists; split; [reflexivity|].
  set (P := t * Z.pos mc) in *.
  set (j := 53 - d).
  set (K := g + j + 2).
  set (s := - (ec + g)).
  assert (HM : 0 <= 4 * (2 ^ j * P)) by (pose proof (pow2_pos j ltac:(lia)); nia).
  destruct (nearest_bounds (4 * (2 ^ j * P)) K ltac:(lia) HM) as (B1 & B2 & B3).
  set (m1 := nearest (4 * (2 ^ j * P)) K) in *.
  assert (EK1 : 2 ^ (K - 1) = 2 ^ j * 2 ^ (g + 1)).
  { rewrite <- pow2_add by lia. f_equal. lia. }
  assert (EKs : 2 ^ K * 2 ^ s = 2 ^ j * 2 ^ (2 - ec)).
  { rewrite <- !pow2_add by lia. f_equal. lia. }
  assert (EK : 2 ^ K = 2 * 2 ^ (K - 1)).
  { replace K with (1 + (K - 1)) at 1 by lia. rewrite pow2_add by lia. reflexivity. }
  pose proof (pow2_pos j ltac:(lia)) as Pj.
  pose proof (pow2_pos s ltac:(lia)) as Ps.
  pose proof (pow2_pos (K - 1) ltac:(lia)) as PK.
  pose proof (pow2_pos (g + 1) ltac:(lia)) as Pg.
  pose proof (pow2_pos (2 - ec) ltac:(lia)) as PE.
  split.
  - intros lo Hlo. apply Z.div_le_lower_bound; [lia|].
    assert (H1 : 2 ^ j * (2 ^ (2 - ec) * lo) < 2 ^ j * (4 * P + 2 ^ (g + 1)))
      by (apply Z.mul_lt_mono_pos_l; assumption).
    assert (H2 : 2 ^ K * (2 ^ s * lo) < 2 ^ K * (m1 + 1)).
    { rewrite Z.mul_assoc, EKs, <- Z.mul_assoc. clear - H1 EK1 EK B2. lia. }
    apply Z.mul_lt_mono_pos_l in H2; [lia | clear - EK PK; lia].
  - intros hi Hhi. apply Z.lt_succ_r. apply Z.div_lt_upper_bound; [lia|].
    assert (H1 : 2 ^ j * (4 * P + 2 ^ (g + 1)) < 2 ^ j * (2 ^ (2 - ec) * (hi + 1)))
      by (apply Z.mul_lt_mono_pos_l; assumption).
    assert (H2 : 2 ^ K * m1 < 2 ^ K * (2 ^ s * (hi + 1))).
    { rewrite (Z.mul_assoc (2 ^ K)), EKs, <- Z.mul_assoc. clear - H1 EK1 EK B1. lia. }
    apply Z.mul_lt_mono_pos_l in H2; [| clear - EK PK; lia].
    unfold Z.succ. exact H2.
Qed.

(** The same bounds with the binade of the product eliminated. *)
Lemma int_of_product_between t (mc : positive) ec lo hi :
  0 < t < 2 ^ 53 ->
  2 ^ 52 <= Z.pos mc < 2 ^ 53 ->
  -1074 <= ec ->
  t * Z.pos mc < 2 ^ (52 - ec) ->
  2 ^ (54 - ec) * lo <= (2 ^ 54 + 1) * (t * Z.pos mc) ->
  (2 ^ 53 + 1) * (t * Z.pos mc) < 2 ^ (53 - ec) * (hi + 1) ->
  exists v,
    Py.int_of_product t (S754_finite false mc ec) = Return v /\ lo <= v <= hi.
Proof.
  intros Ht Hmc Hec Hrange Hlo Hhi.
  set (P := t * Z.pos mc) in *.
  assert (HP52 : 2 ^ 52 <= P) by (unfold P; nia).
  set (g := Z.log2 P - 52).
  assert (Hg : 0 <= g).
  { unfold g. assert (52 <= Z.log2 P); [|lia]. apply Z.log2_le_pow2; lia. }
  assert (HPg : 2 ^ (g + 52) <= P < 2 ^ (g + 53)).
  { unfold g. replace (Z.log2 P - 52 + 52) with (Z.log2 P) by lia.
    replace (Z.log2 P - 52 + 53) with (Z.log2 P + 1) by lia.
    apply digits_exists. lia. }
  assert (Hglt : ec + g < 0).
  { assert (Z.log2 P < 52 - ec); [|unfold g; lia].
    apply Z.log2_lt_pow2; lia. }
  destruct (int_of_product_bounds t mc ec g Ht Hg HPg ltac:(lia)) as (v & Ev & Lo & Hi).
  exists v. split; [exact Ev|].
  fold P in Lo, Hi.
  assert (E1 : 2 ^ (g + 53) = 2 ^ 52 * 2 ^ (g + 1)).
  { rewrite <- pow2_add by lia. f_equal. lia. }
  assert (E2 : 2 ^ (g + 52) = 2 ^ 51 * 2 ^ (g + 1)).
  { rewrite <- pow2_add by lia. f_equal. lia. }
  assert (E3 : 2 ^ (54 - ec) = 2 ^ 52 * 2 ^ (2 - ec)).
  { rewrite <- pow2_add by lia. f_equal. lia. }
  assert (E4 : 2 ^ (53 - ec) = 2 ^ 51 * 2 ^ (2 - ec)).
  { rewrite <- pow2_add by lia. f_equal. lia. }
  pose proof (pow2_pos (g + 1) ltac:(lia)) as Pg.
  pose proof (pow2_pos (2 - ec) ltac:(lia)) as PE.
  change (2 ^ 54) with 18014398509481984 in *.
  change (2 ^ 53) with 9007199254740992 in *.
  change (2 ^ 52) with 4503599627370496 in *.
  change (2 ^ 51) with 2251799813685248 in *.
  split.
  - apply Lo. nia.
  - apply Hi. nia.
Qed.

Lemma loc_code_new_location b r :
  0 <= r < b ->
  let c := loc_code (new_location b r) in
  (c = 0 /\ r = 0) \/ (c = 1 /\ 0 < 2 * r < b) \/ (c = 2 /\ 2 * r = b)
  \/ (c = 3 /\ b < 2 * r).
Proof.
  intros Hr. unfold new_location, new_location_even, new_location_odd.
  destruct (Z.even b) eqn:Eb.
  - destruct (Z.eqb_spec r 0) as [->|Hr0]; [left; split; reflexivity|].
    destruct (Z.compare_spec (2 * r) b); cbn [loc_code]; lia.
  - destruct (Z.eqb_spec r 0) as [->|Hr0]; [left; split; reflexivity|].
    assert (Hodd : 2 * r <> b).
    { intros E. rewrite <- E, Z.even_mul in Eb. discriminate. }
    destruct (Z.compare_spec (2 * r + 1) b); cbn [loc_code]; lia.
Qed.

Lemma div_eucl_div_mod a b : Z.div_eucl a b = (a / b, a mod b).
Proof. unfold Z.div, Z.modulo. destruct (Z.div_eucl a b). reflexivity. Qed.

(** The correctly rounded quotient of two positive integers below [2^53]. *)
Lemma int_truediv_pos a b :
  0 < a < 2 ^ 53 -> 0 < b < 2 ^ 53 ->
  exists (mr : positive) (er : Z),
    Py.int_truediv a b = Return (S754_finite false mr er) /\
    2 ^ 52 <= Z.pos mr < 2 ^ 53 /\
    -106 <= er <= 0 /\
    b * (2 * Z.pos mr - 1) <= 2 * (a * 2 ^ (- er)) <= b * (2 * Z.pos mr + 1).
Proof.
  intros Ha Hb.
  set (d1 := Z.log2 a + 1). set (d2 := Z.log2 b + 1).
  assert (Hd1 : 2 ^ (d1 - 1) <= a < 2 ^ d1).
  { unfold d1. replace (Z.log2 a + 1 - 1) with (Z.log2 a) by lia. apply digits_exists; lia. }
  assert (Hd2 : 2 ^ (d2 - 1) <= b < 2 ^ d2).
  { unfold d2. replace (Z.log2 b + 1 - 1) with (Z.log2 b) by lia. apply digits_exists; lia. }
  assert (Rd1 : 1 <= d1 <= 53).
  { unfold d1. pose proof (Z.log2_nonneg a).
    assert (Z.log2 a < 53) by (apply Z.log2_lt_pow2; lia). lia. }
  assert (Rd2 : 1 <= d2 <= 53).
  { unfold d2. pose proof (Z.log2_nonneg b).
    assert (Z.log2 b < 53) by (apply Z.log2_lt_pow2; lia). lia. }
  set (s := 53 + d2 - d1).
  set (A := a * 2 ^ s).
  set (q := A / b). set (r := A mod b).
  assert (HA : A = b * q + r) by (apply Z.div_mod; lia).
  assert (Hr : 0 <= r < b) by (apply Z.mod_pos_bound; lia).
  pose proof (pow2_pos s ltac:(lia)) as Ps.
  assert (Hq : 2 ^ 52 <= q < 2 ^ 54).
  { assert (E1 : 2 ^ (d1 - 1) * 2 ^ s = 2 ^ 52 * 2 ^ d2)
      by (rewrite <- !pow2_add by lia; f_equal; lia).
    assert (E2 : 2 ^ d1 * 2 ^ s = 2 ^ 54 * 2 ^ (d2 - 1))
      by (rewrite <- !pow2_add by lia; f_equal; lia).
    pose proof (pow2_pos (d2 - 1) ltac:(lia)). pose proof (pow2_pos d2 ltac:(lia)).
    split.
    - apply Z.div_le_lower_bound; [lia|]. unfold A. nia.
    - apply Z.div_lt_upper_bound; [lia|]. unfold A. nia. }
  unfold Py.int_truediv.
  destruct (Z.eqb_spec b 0) as [Hb0|Hb0]; [lia|].
  destruct (Z.eqb_spec a 0) as [Ha0|Ha0]; [lia|].
  destruct a as [|pa|pa]; try lia. destruct b as [|pb|pb]; try lia.
  cbn [Py.exact SFdiv xorb].
  assert (Core : SFdiv_core_binary Py.prec Py.emax (Z.pos pa) 0 (Z.pos pb) 0
                 = (q, - s, new_location (Z.pos pb) r)).
  { unfold SFdiv_core_binary.
    replace (Zdigits2 (Z.pos pa)) with d1 by (symmetry; apply digits_unique; lia).
    replace (Zdigits2 (Z.pos pb)) with d2 by (symmetry; apply digits_unique; lia).
    rewrite fexp_64.
    replace (Z.min (Z.max (d1 + 0 - (d2 + 0) - 53) (-1074)) (0 - 0)) with (- s)
      by (unfold s; lia).
    replace (0 - 0 - - s) with s by lia.
    destruct s as [|ps|ps] eqn:Es; try lia.
    rewrite Z.shiftl_mul_pow2 by lia. fold A.
    rewrite div_eucl_div_mod. reflexivity. }
  rewrite Core.
  set (n := if q <? 2 ^ 53 then 0 else 1).
  assert (Hn : 0 <= n <= 1) by (unfold n; destruct (q <? 2 ^ 53); lia).
  assert (Hqn : 2 ^ (n + 52) <= q < 2 ^ (n + 53)).
  { unfold n. destruct (Z.ltb_spec q (2 ^ 53)).
    - change (0 + 52) with 52. change (0 + 53) with 53. lia.
    - change (1 + 52) with 53. change (1 + 53) with 54. lia. }
  destruct (binary_round_aux_normal false q (- s) (new_location (Z.pos pb) r) n
              ltac:(lia) Hqn ltac:(unfold s; lia)) as (R & ->).
  set (c := loc_code (new_location (Z.pos pb) r)) in *.
  pose proof (loc_code_new_location (Z.pos pb) r Hr) as Hc. cbv zeta in Hc. fold c in Hc.
  assert (HM : 0 <= 4 * q + c) by lia.
  destruct (nearest_bounds (4 * q + c) (n + 2) ltac:(lia) HM) as (B1 & B2 & B3).
  set (m1 := nearest (4 * q + c) (n + 2)) in *.
  replace (n + 2 - 1) with (n + 1) in B1, B2 by lia.
  assert (P2 : 2 ^ (n + 2) = 4 * 2 ^ n) by (rewrite pow2_add by lia; lia).
  assert (P1 : 2 ^ (n + 1) = 2 * 2 ^ n) by (rewrite pow2_add by lia; lia).
  pose proof (pow2_pos n ltac:(lia)) as Pn.
  rewrite P2, P1 in B1, B2.
  (* the rounding is within half a unit of the exact quotient *)
  assert (Near : Z.pos pb * (2 * m1 - 1) * 2 ^ n <= 2 * A
                 /\ 2 * A <= Z.pos pb * (2 * m1 + 1) * 2 ^ n).
  { assert (En : 2 ^ n = 1 \/ 2 ^ n = 2).
    { assert (n = 0 \/ n = 1) as [-> | ->] by lia; [left|right]; reflexivity. }
    rewrite HA. clear - En Hc Hr B1 B2 B3.
    destruct En as [En|En]; rewrite En in *; clear En;
    destruct Hc as [(Hc & H0)|[(Hc & H0)|[(Hc & H0)|(Hc & H0)]]]; rewrite Hc in *; nia. }
  destruct Near as (N1 & N2).
  assert (Es : 2 ^ s = 2 ^ n * 2 ^ (s - n)).
  { rewrite <- pow2_add by (unfold s; lia). f_equal. lia. }
  pose proof (pow2_pos (s - n) ltac:(unfold s; lia)) as Psn.
  destruct (Z.ltb_spec m1 (2 ^ 53)) as [Hlt|Hge].
  - destruct (Z.leb_spec (- s + n) 971); [|unfold s in *; lia].
    exists (Z.to_pos m1), (- s + n).
    rewrite Z2Pos.id by lia.
    split; [reflexivity|]. split; [lia|]. split; [unfold s; lia|].
    replace (- (- s + n)) with (s - n) by lia.
    unfold A in N1, N2. rewrite Es in N1, N2.
    clear - N1 N2 Pn. split.
    + apply Z.mul_le_mono_pos_r with (p := 2 ^ n); [assumption|]. lia.
    + apply Z.mul_le_mono_pos_r with (p := 2 ^ n); [assumption|]. lia.
  - assert (E1 : m1 = 2 ^ 53) by lia.
    destruct (Z.leb_spec (- s + n + 1) 971); [|unfold s in *; lia].
    exists (Z.to_pos (2 ^ 52)), (- s + n + 1).
    rewrite Z2Pos.id by lia.
    split; [reflexivity|]. split; [lia|].
    assert (Hsn : 1 <= s - n).
    { (* the quotient reaches 2^53 only when a / b >= 1/2 *)
      destruct (Z.le_gt_cases 1 (s - n)) as [|Hc0]; [assumption|].
      exfalso. assert (Hs0 : s - n <= 0) by lia.
      assert (s = 1 /\ n = 1) as (Hs1 & Hn1) by (unfold s in *; lia).
      unfold A in N1. rewrite Hs1, Hn1, E1 in N1.
      change (2 ^ 1) with 2 in N1. change (2 ^ 53) with 9007199254740992 in *.
      lia. }
    split; [unfold s in *; lia|].
    replace (- (- s + n + 1)) with (s - n - 1) by lia.
    assert (Es1 : 2 ^ (s - n) = 2 * 2 ^ (s - n - 1)).
    { replace (s - n) with (1 + (s - n - 1)) at 1 by lia. rewrite pow2_add by lia. reflexivity. }
    pose proof (pow2_pos (s - n - 1) ltac:(lia)).
    unfold A in N1, N2. rewrite Es, Es1, E1 in N1, N2.
    change (2 ^ 53) with 9007199254740992 in *. change (2 ^ 52) with 4503599627370496.
    clear - N1 N2 Pn. split.
    + apply Z.mul_le_mono_pos_r with (p := 2 ^ n); [assumption|]. lia.
    + apply Z.mul_le_mono_pos_r with (p := 2 ^ n); [assumption|]. lia.
Qed.

Lemma of_int_finite t :
  0 < t < 2 ^ 53 -> exists m e, Py.of_int t = S754_finite false m e.
Proof.
  intros Ht.
  set (d := Z.log2 t + 1).
  assert (Hd : 2 ^ (d - 1) <= t < 2 ^ d).
  { unfold d. replace (Z.log2 t + 1 - 1) with (Z.log2 t) by lia.
    apply digits_exists. lia. }
  assert (Hd1 : 1 <= d <= 53).
  { unfold d. pose proof (Z.log2_nonneg t).
    assert (Z.log2 t < 53) by (apply Z.log2_lt_pow2; lia). lia. }
  rewrite (of_int_exact t d Hd1 Hd). eauto.
Qed.

Lemma int_of_product_zero_r t s :
  0 <= t < 2 ^ 53 -> Py.int_of_product t (S754_zero s) = Return 0.
Proof.
  intros Ht. unfold Py.int_of_product, Py.int_mul_float, Py.float_of_int.
  destruct (Z.eq_dec t 0) as [->|Hne]; [reflexivity|].
  destruct (of_int_finite t ltac:(lia)) as (m & e & ->). reflexivity.
Qed.

Lemma int_of_product_zero_l m e s : Py.int_of_product 0 (S754_finite s m e) = Return 0.
Proof. reflexivity. Qed.

(** [int(q * (d / T))]: the exact floor of [q * d / T] or one less. *)
Lemma topic_quota_bounds q d T :
  0 <= q -> 0 <= d <= T -> 0 < T < 2 ^ 51 -> q * T < 2 ^ 51 ->
  exists v,
    rbind (Py.int_truediv d T) (Py.int_of_product q) = Return v /\
    q * d / T - 1 <= v <= q * d / T.
Proof.
  intros Hq Hd HT HqT.
  change (2 ^ 51) with 2251799813685248 in *.
  assert (Hq53 : q < 2251799813685248) by nia.
  destruct (Z.eq_dec d 0) as [->|Hd0].
  { unfold Py.int_truediv. destruct (Z.eqb_spec T 0); [lia|]. cbn [Z.eqb rbind].
    rewrite int_of_product_zero_r by (change (2 ^ 53) with 9007199254740992; lia).
    exists 0. rewrite Z.mul_0_r, Z.div_0_l by lia. split; [reflexivity | lia]. }
  destruct (int_truediv_pos d T) as (mr & er & Ediv & Hmr & Her & F1 & F2).
  { change (2 ^ 53) with 9007199254740992. lia. }
  { change (2 ^ 53) with 9007199254740992. lia. }
  rewrite Ediv. cbn [rbind].
  destruct (Z.eq_dec q 0) as [->|Hq0].
  { rewrite int_of_product_zero_l. exists 0. rewrite Z.mul_0_l, Z.div_0_l by lia.
    split; [reflexivity | lia]. }
  set (E2 := 2 ^ (- er)) in *.
  change (2 ^ 52) with 4503599627370496 in *. change (2 ^ 53) with 9007199254740992 in *.
  assert (HE2 : 4503599627370496 <= E2).
  { assert (Z.pos mr <= E2) by nia. lia. }
  set (f := q * d / T).
  assert (Hf1 : T * f <= q * d) by (apply Z.mul_div_le; lia).
  assert (Hf2 : q * d < T * f + T).
  { pose proof (Z.mul_succ_div_gt (q * d) T ltac:(lia)) as H. unfold Z.succ in H.
    fold f in H. lia. }
  assert (Hf0 : 0 <= f) by (apply Z.div_pos; nia).
  apply (int_of_product_between q mr er (f - 1) f).
  - change (2 ^ 53) with 9007199254740992. lia.
  - change (2 ^ 52) with 4503599627370496. change (2 ^ 53) with 9007199254740992. lia.
  - lia.
  - replace (52 - er) with (52 + - er) by lia. rewrite pow2_add by lia. fold E2.
    change (2 ^ 52) with 4503599627370496.
    clear - Hq Hq0 Hq53 Hmr HE2 F1 F2 Hd HT. nia.
  - replace (54 - er) with (54 + - er) by lia. rewrite pow2_add by lia. fold E2.
    change (2 ^ 54) with 18014398509481984.
    apply Z.mul_le_mono_pos_l with (p := 2 * T); [lia|].
    assert (A1 : T * f * E2 <= q * d * E2) by (apply Z.mul_le_mono_nonneg_r; lia).
    assert (A2 : q * (2 * (d * E2)) <= q * (T * (2 * Z.pos mr + 1)))
      by (apply Z.mul_le_mono_nonneg_l; lia).
    assert (A3 : T * q <= T * (2 * E2)) by (apply Z.mul_le_mono_nonneg_l; lia).
    assert (A4 : 0 <= T * (q * Z.pos mr)) by nia.
    clear - A1 A2 A3 A4. nia.
  - replace (53 - er) with (53 + - er) by lia. rewrite pow2_add by lia. fold E2.
    change (2 ^ 53) with 9007199254740992.
    apply Z.mul_lt_mono_pos_l with (p := 2 * T); [lia|].
    assert (A1 : q * (T * (2 * Z.pos mr - 1)) <= q * (2 * (d * E2)))
      by (apply Z.mul_le_mono_nonneg_l; lia).
    assert (A2 : (q * d + 1) * E2 <= (T * f + T) * E2)
      by (apply Z.mul_le_mono_nonneg_r; lia).
    assert (A3 : q * (2 * (d * E2)) <= q * (T * (2 * Z.pos mr + 1)))
      by (apply Z.mul_le_mono_nonneg_l; lia).
    assert (A4 : q * T * Z.pos mr < q * T * 9007199254740992)
      by (apply Z.mul_lt_mono_pos_l; nia).
    assert (A5 : q * T * 4503599627370496 <= 2251799813685247 * E2) by nia.
    clear - A1 A2 A3 A4 A5 HqT HE2. nia.
Qed.

(** [a / b > 0.20] holds exactly when [5 * a > b]. *)
Lemma deviation_gt_threshold a b :
  0 <= a < 2 ^ 52 -> 0 < b < 2 ^ 52 ->
  exists dev,
    Py.int_truediv a b = Return dev /\
    Py.gt dev Py.f0_20 = (b <? 5 * a).
Proof.
  intros Ha Hb.
  change (2 ^ 52) with 4503599627370496 in *.
  destruct (Z.eq_dec a 0) as [->|Ha0].
  { unfold Py.int_truediv. destruct (Z.eqb_spec b 0); [lia|]. cbn [Z.eqb].
    eexists; split; [reflexivity|].
    destruct (Z.ltb_spec b (5 * 0)); [lia|]. reflexivity. }
  destruct (int_truediv_pos a b) as (mr & er & Ediv & Hmr & Her & F1 & F2).
  { change (2 ^ 53) with 9007199254740992. lia. }
  { change (2 ^ 53) with 9007199254740992. lia. }
  exists (S754_finite false mr er). split; [exact Ediv|].
  change (2 ^ 52) with 4503599627370496 in *. change (2 ^ 53) with 9007199254740992 in *.
  unfold Py.gt, Py.f0_20, SFltb, SFcompare.
  set (E2 := 2 ^ (- er)) in *.
  destruct (Z.compare_spec (-55) er) as [Heq|Hlt|Hgt].
  - assert (HE : E2 = 36028797018963968) by (unfold E2; rewrite <- Heq; reflexivity).
    rewrite HE in *.
    rewrite Pos.compare_cont_spec. cbn [Pos.switch_Eq].
    destruct (Pos.compare_spec 7205759403792794 mr) as [E|L|G];
      destruct (Z.ltb_spec b (5 * a)); try reflexivity; exfalso.
    + rewrite <- E in *. lia.
    + assert (L' : 7205759403792794 < Z.pos mr) by exact L.
      clear - L' F1 H Hb.
      assert (b * (2 * 7205759403792794 + 1) <= b * (2 * Z.pos mr - 1))
        by (apply Z.mul_le_mono_nonneg_l; lia).
      lia.
    + assert (G' : Z.pos mr < 7205759403792794) by exact G.
      clear - G' F2 H Hb.
      assert (b * (2 * Z.pos mr + 1) <= b * (2 * 7205759403792794 + 1)).
      { apply Z.mul_le_mono_nonneg_l. timeout 20 lia. timeout 20 lia. }
      timeout 20 lia.
  - assert (HE : E2 <= 18014398509481984).
    { unfold E2. change 18014398509481984 with (2 ^ 54).
      apply Z.pow_le_mono_r; lia. }
    assert (0 < E2) by (apply pow2_pos; lia).
    destruct (Z.ltb_spec b (5 * a)); [reflexivity|exfalso].
    assert (A1 : a * E2 <= a * 18014398509481984)
      by (apply Z.mul_le_mono_nonneg_l; lia).
    assert (A2 : b * (2 * 4503599627370496 - 1) <= b * (2 * Z.pos mr - 1))
      by (apply Z.mul_le_mono_nonneg_l; lia).
    lia.
  - assert (HE : 72057594037927936 <= E2).
    { unfold E2. change 72057594037927936 with (2 ^ 56).
      apply Z.pow_le_mono_r; lia. }
    destruct (Z.ltb_spec b (5 * a)); [exfalso|reflexivity].
    assert (A1 : a * 72057594037927936 <= a * E2)
      by (apply Z.mul_le_mono_nonneg_l; lia).
    assert (A2 : b * (2 * Z.pos mr + 1) <= b * (2 * 9007199254740991 + 1))
      by (apply Z.mul_le_mono_nonneg_l; lia).
    lia.
Qed.

Ltac eval_pow :=
  repeat match goal with
         | |- context [2 ^ ?k] =>
             let c := eval vm_compute in (2 ^ k) in change (2 ^ k) with c
         | H : context [2 ^ ?k] |- _ =>
             let c := eval vm_compute in (2 ^ k) in change (2 ^ k) with c in H
         end.

Ltac floor_facts num den t :=
  pose proof (Z.div_mod (num * t) den ltac:(lia));
  pose proof (Z.mod_pos_bound (num * t) den ltac:(lia)).

(** [int(t * c)] is between two floors of exact fractions of [t]. *)
Ltac product_between mc ec lo hi t :=
  let v := fresh "v" in
  let Ev := fresh "Ev" in
  let Hv := fresh "Hv" in
  destruct (int_of_product_between t mc ec lo hi) as (v & Ev & Hv);
  [ eval_pow; lia
  | split; [apply Z.leb_le | apply Z.ltb_lt]; vm_compute; reflexivity
  | lia
  | eval_pow; lia
  | eval_pow; lia
  | eval_pow; lia
  | exists v; split; [exact Ev | exact Hv] ].

Lemma int_of_product_0 (mc : positive) ec : Py.int_of_product 0 (S754_finite false mc ec) = Return 0.
Proof. reflexivity. Qed.

Lemma product_0_95 t :
  0 <= t < 2 ^ 48 -> Py.int_of_product t Py.f0_95 = Return (floor_frac 95 100 t).
Proof.
  intros Ht. unfold floor_frac, Py.f0_95.
  destruct (Z.eq_dec t 0) as [->|Hne]; [reflexivity|].
  floor_facts 95 100 t.
  assert (exists v, Py.int_of_product t (S754_finite false 8556839292003942 (-53)) = Return v
                    /\ 95 * t / 100 <= v <= 95 * t / 100) as (v & -> & Hv).
  { product_between 8556839292003942%positive (-53) (95 * t / 100) (95 * t / 100) t. }
  f_equal. lia.
Qed.

Lemma product_1_05 t :
  0 <= t < 2 ^ 48 -> Py.int_of_product t Py.f1_05 = Return (floor_frac 105 100 t).
Proof.
  intros Ht. unfold floor_frac, Py.f1_05.
  destruct (Z.eq_dec t 0) as [->|Hne]; [reflexivity|].
  floor_facts 105 100 t.
  assert (exists v, Py.int_of_product t (S754_finite false 4728779608739021 (-52)) = Return v
                    /\ 105 * t / 100 <= v <= 105 * t / 100) as (v & -> & Hv).
  { product_between 4728779608739021%positive (-52) (105 * t / 100) (105 * t / 100) t. }
  f_equal. lia.
Qed.

Lemma product_0_1 t :
  0 <= t < 2 ^ 48 -> Py.int_of_product t Py.f0_1 = Return (floor_frac 1 10 t).
Proof.
  intros Ht. unfold floor_frac, Py.f0_1.
  destruct (Z.eq_dec t 0) as [->|Hne]; [reflexivity|].
  floor_facts 1 10 t.
  assert (exists v, Py.int_of_product t (S754_finite false 7205759403792794 (-56)) = Return v
                    /\ 1 * t / 10 <= v <= 1 * t / 10) as (v & -> & Hv).
  { product_between 7205759403792794%positive (-56) (1 * t / 10) (1 * t / 10) t. }
  f_equal. lia.
Qed.

Lemma product_0_15 t :
  0 <= t < 2 ^ 48 -> Py.int_of_product t Py.f0_15 = Return (floor_frac 15 100 t).
Proof.
  intros Ht. unfold floor_frac, Py.f0_15.
  destruct (Z.eq_dec t 0) as [->|Hne]; [reflexivity|].
  floor_facts 15 100 t.
  assert (exists v, Py.int_of_product t (S754_finite false 5404319552844595 (-55)) = Return v
                    /\ 15 * t / 100 <= v <= 15 * t / 100) as (v & -> & Hv).
  { product_between 5404319552844595%positive (-55) (15 * t / 100) (15 * t / 100) t. }
  f_equal. lia.
Qed.

Lemma product_0_05 t :
  0 <= t < 2 ^ 48 -> Py.int_of_product t Py.f0_05 = Return (floor_frac 5 100 t).
Proof.
  intros Ht. unfold floor_frac, Py.f0_05.
  destruct (Z.eq_dec t 0) as [->|Hne]; [reflexivity|].
  floor_facts 5 100 t.
  assert (exists v, Py.int_of_product t (S754_finite false 7205759403792794 (-57)) = Return v
                    /\ 5 * t / 100 <= v <= 5 * t / 100) as (v & -> & Hv).
  { product_between 7205759403792794%positive (-57) (5 * t / 100) (5 * t / 100) t. }
  f_equal. lia.
Qed.

(** The product with 0.7 can fall one short of the exact floor. *)
Lemma product_0_7 t :
  0 <= t < 2 ^ 48 ->
  exists v, Py.int_of_product t Py.f0_7 = Return v
            /\ floor_frac 7 10 t - 1 <= v <= floor_frac 7 10 t.
Proof.
  intros Ht. unfold floor_frac, Py.f0_7.
  destruct (Z.eq_dec t 0) as [->|Hne].
  { exists 0. split; [reflexivity|]. change (7 * 0 / 10) with 0. lia. }
  floor_facts 7 10 t.
  product_between 6305039478318694%positive (-53) (7 * t / 10 - 1) (7 * t / 10) t.
Qed.

(** ** The coherence validator *)

Lemma append_cons c a b : String c a ++ b = String c (a ++ b).
Proof. reflexivity. Qed.

Lemma append_nil b : "" ++ b = b.
Proof. reflexivity. Qed.

Lemma prefix_app sub s :
  String.prefix sub s = true <-> exists post, s = sub ++ post.
Proof.
  revert s. induction sub as [|c sub IH]; intros s; simpl.
  - split; [intros _; exists s; reflexivity | intros _; destruct s; reflexivity].
  - destruct s as [|d s]; simpl.
    + split; [discriminate | intros (post & H); rewrite append_cons in H; discriminate].
    + destruct (Ascii.ascii_dec c d) as [->|Hne].
      * rewrite IH. split; intros (post & H); exists post;
          rewrite append_cons in *; congruence.
      * split; [discriminate | intros (post & H); rewrite append_cons in H; congruence].
Qed.

Lemma contains_nil sub : Str.contains sub "" = String.prefix sub "".
Proof. unfold Str.contains. apply orb_false_r. Qed.

Lemma contains_cons sub c r :
  Str.contains sub (String c r) = String.prefix sub (String c r) || Str.contains sub r.
Proof. reflexivity. Qed.

Lemma contains_occurs sub s : Str.contains sub s = true <-> occurs_in sub s.
Proof.
  split.
  - induction s as [|c s IH]; intros H.
    + rewrite contains_nil in H. apply prefix_app in H as (post & ->).
      exists "", post. reflexivity.
    + rewrite contains_cons in H. apply orb_true_iff in H as [H|H].
      * apply prefix_app in H as (post & ->). exists "", post. reflexivity.
      * destruct (IH H) as (pre & post & ->). exists (String c pre), post. reflexivity.
  - intros (pre & post & ->). induction pre as [|c pre IH].
    + rewrite append_nil.
      assert (Hp : String.prefix sub (sub ++ post) = true)
        by (apply prefix_app; exists post; reflexivity).
      destruct (sub ++ post).
      * rewrite contains_nil. exact Hp.
      * rewrite contains_cons, Hp. reflexivity.
    + rewrite append_cons, contains_cons, IH. apply orb_true_r.
Qed.

Lemma covers_occurs content term : covers content term = true <-> occurs_ci term content.
Proof. apply contains_occurs. Qed.

Lemma none_covered content l :
  negb (existsb (covers content) l) = true <->
  forall x, In x l -> ~ occurs_ci x content.
Proof.
  rewrite negb_true_iff. split.
  - intros H x Hx Hocc. apply covers_occurs in Hocc.
    assert (existsb (covers content) l = true); [|congruence].
    apply existsb_exists. eauto.
  - intros H. destruct (existsb (covers content) l) eqn:E; [|reflexivity].
    apply existsb_exists in E as (x & Hx & Hc). apply covers_occurs in Hc.
    exfalso. eapply H; eauto.
Qed.

Lemma append_assoc (a b c : string) : (a ++ b) ++ c = a ++ b ++ c.
Proof. induction a as [|x a IH]; [reflexivity|]. rewrite !append_cons, IH. reflexivity. Qed.

Lemma append_nil_r (a : string) : a ++ "" = a.
Proof. induction a as [|x a IH]; [reflexivity|]. rewrite append_cons, IH. reflexivity. Qed.

Lemma length_append (a b : string) :
  String.length (a ++ b) = (String.length a + String.length b)%nat.
Proof. induction a as [|x a IH]; [reflexivity|]. rewrite append_cons. simpl. rewrite IH. reflexivity. Qed.

Lemma drop_append (a b : string) : Str.drop (String.length a) (a ++ b) = b.
Proof. induction a as [|x a IH]; [destruct b; reflexivity|]. rewrite append_cons. simpl. exact IH. Qed.

Lemma drop_append_le n (a b : string) :
  (n <= String.length a)%nat -> Str.drop n (a ++ b) = Str.drop n a ++ b.
Proof.
  revert a. induction n as [|n IH]; intros a Hn.
  - destruct a; destruct b; reflexivity.
  - destruct a as [|x a]; [simpl in Hn; lia|].
    rewrite append_cons. simpl. apply IH. simpl in Hn. lia.
Qed.

Lemma count_from_unfold fuel sub s :
  Str.count_from (S fuel) sub s =
  if String.prefix sub s
  then S (match sub with
          | "" => match s with
                  | "" => O
                  | String _ r => Str.count_from fuel sub r
                  end
          | _ => Str.count_from fuel sub (Str.drop (String.length sub) s)
          end)
  else match s with
       | "" => O
       | String _ r => Str.count_from fuel sub r
       end.
Proof. reflexivity. Qed.

Lemma prefix_nil_l s : String.prefix "" s = true.
Proof. destruct s; reflexivity. Qed.

Lemma count_from_empty fuel s :
  (String.length s < fuel)%nat -> Str.count_from fuel "" s = S (String.length s).
Proof.
  revert s. induction fuel as [|fuel IH]; intros s Hs; [lia|].
  rewrite count_from_unfold, prefix_nil_l.
  destruct s as [|c r]; [reflexivity|].
  rewrite IH by (simpl in Hs; lia). reflexivity.
Qed.

Section NonEmpty.

Variable sub : string.
Hypothesis sub_nonempty : sub <> "".

Lemma sub_length_pos : (1 <= String.length sub)%nat.
Proof. destruct sub; [congruence | simpl; lia]. Qed.

Lemma count_from_step fuel s :
  Str.count_from (S fuel) sub s =
  if String.prefix sub s
  then S (Str.count_from fuel sub (Str.drop (String.length sub) s))
  else match s with
       | "" => O
       | String _ r => Str.count_from fuel sub r
       end.
Proof. rewrite count_from_unfold. destruct sub; [congruence | reflexivity]. Qed.

Lemma not_prefix_nonempty_pre a post :
  String.prefix sub (a ++ sub ++ post) = false -> exists x a', a = String x a'.
Proof.
  intros H. destruct a as [|x a']; [|eauto].
  rewrite append_nil in H.
  assert (String.prefix sub (sub ++ post) = true) by (apply prefix_app; eauto).
  congruence.
Qed.

Lemma count_from_once fuel s :
  (String.length s < fuel)%nat ->
  (1 <= Str.count_from fuel sub s)%nat <-> occurs_in sub s.
Proof.
  revert s. induction fuel as [|fuel IH]; intros s Hs; [lia|].
  rewrite count_from_step.
  destruct (String.prefix sub s) eqn:Ep.
  - split; [intros _|intros _; lia].
    apply prefix_app in Ep as (post & ->). exists "", post. reflexivity.
  - split.
    + intros H. destruct s as [|x r]; [lia|].
      apply IH in H; [|simpl in Hs; lia].
      destruct H as (pre & post & ->). exists (String x pre), post. reflexivity.
    + intros (pre & post & ->).
      destruct (not_prefix_nonempty_pre pre post Ep) as (x & a' & ->).
      rewrite append_cons in *. apply IH; [simpl in Hs; lia|].
      exists a', post. reflexivity.
Qed.

Lemma count_from_twice fuel s :
  (String.length s < fuel)%nat ->
  (2 <= Str.count_from fuel sub s)%nat <->
  exists a b c, s = a ++ sub ++ b ++ sub ++ c.
Proof.
  pose proof sub_length_pos as Hn.
  revert s. induction fuel as [|fuel IH]; intros s Hs; [lia|].
  rewrite count_from_step.
  destruct (String.prefix sub s) eqn:Ep.
  - assert (Ep' := Ep). apply prefix_app in Ep' as (rest & ->).
    rewrite drop_append. rewrite length_append in Hs.
    split.
    + intros H. assert (H1 : (1 <= Str.count_from fuel sub rest)%nat) by lia.
      apply count_from_once in H1; [|lia].
      destruct H1 as (b & c & ->). exists "", b, c. reflexivity.
    + intros (a & b & c & E).
      assert (H1 : (1 <= Str.count_from fuel sub rest)%nat); [|lia].
      apply count_from_once; [lia|].
      assert (Ed : rest = Str.drop (String.length sub) (a ++ sub ++ b) ++ sub ++ c).
      { rewrite <- (drop_append sub rest), E.
        rewrite <- (append_assoc sub b), <- (append_assoc a).
        apply drop_append_le. rewrite !length_append. lia. }
      rewrite Ed. eexists _, c. reflexivity.
  - split.
    + intros H. destruct s as [|x r]; [lia|].
      apply IH in H; [|simpl in Hs; lia].
      destruct H as (a & b & c & ->). exists (String x a), b, c. reflexivity.
    + intros (a & b & c & ->).
      destruct (not_prefix_nonempty_pre a _ Ep) as (x & a' & ->).
      rewrite append_cons in *. apply IH; [simpl in Hs; lia|].
      exists a', b, c. reflexivity.
Qed.

End NonEmpty.

(** [str.count] reaches two exactly when two occurrences fit side by side. *)
Lemma count_twice sub s : (2 <= Str.count sub s)%nat <-> occurs_twice sub s.
Proof.
  unfold Str.count, occurs_twice.
  destruct (string_dec sub "") as [->|Hne].
  - rewrite count_from_empty by lia. split.
    + intros H. exists "", s, "". split.
      * rewrite !append_nil, append_nil_r. reflexivity.
      * intros _ ->. simpl in H. lia.
    + intros (a & b & c & -> & Hb). specialize (Hb eq_refl).
      rewrite !append_nil, !length_append.
      destruct b as [|x b]; [congruence|]. simpl. lia.
  - rewrite (count_from_twice sub Hne) by lia. split.
    + intros (a & b & c & E). exists a, b, c. split; [exact E | congruence].
    + intros (a & b & c & E & _). eauto.
Qed.

Lemma term_underused_count content term :
  (Str.count (Str.lower term) (Str.lower content) <? 2)%nat = true
  <-> term_underused content term.
Proof.
  unfold term_underused. rewrite <- count_twice, Nat.ltb_lt. lia.
Qed.

Lemma logger_spec l m w : logger l m w = (Return tt, add_log w [(l, m)]).
Proof. reflexivity. Qed.

Lemma add_log_app w a b : add_log (add_log w a) b = add_log w (a ++ b).
Proof. unfold add_log; simpl. rewrite <- app_assoc. reflexivity. Qed.

Lemma add_log_nil w : add_log w [] = w.
Proof. destruct w; unfold add_log; simpl. rewrite app_nil_r. reflexivity. Qed.

(** A loop that logs one record for each element passing [test]. *)
Lemma for_each_one_per {A} (test : A -> bool) (P : A -> Prop)
      (level : Level) (message : A -> Message) (l : list A) (w : World) :
  (forall x, test x = true <-> P x) ->
  exists out,
    for_each_ l (fun x => if test x then logger level (message x) else ret tt) w
    = (Return tt, add_log w out)
    /\ one_per P (fun x => (level, message x)) l out.
Proof.
  intros Htest. revert w. induction l as [|x l IH]; intros w.
  - exists []. split; [simpl; unfold ret; rewrite add_log_nil; reflexivity | constructor].
  - simpl. unfold bind. destruct (test x) eqn:E.
    + rewrite logger_spec. destruct (IH (add_log w [(level, message x)])) as (out & -> & Hout).
      exists ((level, message x) :: out). split.
      * rewrite add_log_app. reflexivity.
      * apply (one_per_hit P (fun x => (level, message x)));
          [apply Htest; exact E | exact Hout].
    + unfold ret at 1. destruct (IH w) as (out & -> & Hout).
      exists out. split; [reflexivity|].
      apply one_per_miss; [|exact Hout].
      intros HP. apply Htest in HP. congruence.
Qed.

(** C9. [_validate_coherence] returns normally on every content and
    structure, and what it logs is, between its opening and closing INFO
    records: one warning for each learning objective none of whose
    whitespace-separated tokens occurs in the content (case-insensitively),
    then one warning for each key term that does not occur twice, then one
    warning for each topic none of whose key concepts occurs; each of the
    three lists depends on its own check only, and all three loops run to
    their end. *)
Theorem validate_coherence_warnings (content : string) (structure_data : Structure.t)
    (w : World) :
  exists objective_warnings term_warnings topic_warnings,
    _validate_coherence content structure_data w =
      (Return tt,
       add_log w ([(INFO, ValidatingCoherence)] ++ objective_warnings
                  ++ term_warnings ++ topic_warnings
                  ++ [(INFO, CoherenceComplete)]))
    /\ one_per (objective_missed content)
               (fun objective => (WARNING, ObjectiveNotCovered objective))
               (Structure.learning_objectives structure_data)
               objective_warnings
    /\ one_per (term_underused content)
               (fun term => (WARNING, KeyTermUnderutilized term))
               (Structure.key_terms structure_data) term_warnings
    /\ one_per (topic_missed content)
               (fun topic => (WARNING, TopicNotCovered (Topic.title topic)))
               (Structure.topics structure_data) topic_warnings.
Proof.
  unfold _validate_coherence.
  destruct (for_each_one_per
              (fun objective => negb (existsb (covers content) (Str.split_ws objective)))
              (objective_missed content) WARNING ObjectiveNotCovered
              (Structure.learning_objectives structure_data)
              (add_log w [(INFO, ValidatingCoherence)]))
    as (ow & Eo & Ho).
  { intros o. apply none_covered. }
  destruct (for_each_one_per
              (fun term => (Str.count (Str.lower term) (Str.lower content) <? 2)%nat)
              (term_underused content) WARNING KeyTermUnderutilized
              (Structure.key_terms structure_data)
              (add_log (add_log w [(INFO, ValidatingCoherence)]) ow))
    as (tw & Et & Ht).
  { intros t. apply term_underused_count. }
  destruct (for_each_one_per
              (fun topic => negb (existsb (covers content) (Topic.key_concepts topic)))
              (topic_missed content) WARNING
              (fun topic => TopicNotCovered (Topic.title topic))
              (Structure.topics structure_data)
              (add_log (add_log (add_log w [(INFO, ValidatingCoherence)]) ow) tw))
    as (cw & Ec & Hc).
  { intros t. apply none_covered. }
  exists ow, tw, cw. split; [|auto].
  unfold bind at 1. rewrite logger_spec.
  unfold bind at 1. rewrite Eo.
  unfold bind at 1. rewrite Et.
  unfold bind at 1. rewrite Ec.
  rewrite logger_spec, !add_log_app. reflexivity.
Qed.

(** ** Topic allocation *)

Lemma sum_from l a : fold_left Z.add l a = a + sum l.
Proof.
  unfold sum. revert a. induction l as [|x l IH]; intros a; cbn [fold_left].
  - lia.
  - rewrite (IH (a + x)), (IH (0 + x)). lia.
Qed.

Lemma sum_cons x l : sum (x :: l) = x + sum l.
Proof. unfold sum at 1. cbn [fold_left]. rewrite sum_from. lia. Qed.

Lemma sum_zero l : (forall x, In x l -> x = 0) -> sum l = 0.
Proof.
  induction l as [|x l IH]; intros H; [reflexivity|].
  rewrite sum_cons, IH, (H x); [reflexivity | left; reflexivity | ].
  intros y Hy. apply H. right. exact Hy.
Qed.

Lemma sum_nonneg l : (forall x, In x l -> 0 <= x) -> 0 <= sum l.
Proof.
  induction l as [|x l IH]; intros H; [unfold sum; simpl; lia|].
  rewrite sum_cons. assert (0 <= x) by (apply H; left; reflexivity).
  assert (0 <= sum l) by (apply IH; intros y Hy; apply H; right; exact Hy). lia.
Qed.

Lemma sum_member_le l x :
  (forall y, In y l -> 0 <= y) -> In x l -> x <= sum l.
Proof.
  induction l as [|y l IH]; intros H Hx; [destruct Hx|].
  rewrite sum_cons.
  assert (0 <= y) by (apply H; left; reflexivity).
  assert (0 <= sum l) by (apply sum_nonneg; intros z Hz; apply H; right; exact Hz).
  destruct Hx as [->|Hx]; [lia|].
  assert (x <= sum l) by (apply IH; [intros z Hz; apply H; right; exact Hz | exact Hx]).
  lia.
Qed.

(** What [topic_words] binds after the first loop: each title to the quota
    of the last topic that carries it. *)
Lemma allocate_topics_spec q T (R : Topic.t -> Z -> Prop) topics :
  (forall t, In t topics ->
             exists v, topic_quota q T (Topic.duration_minutes t) = Return v /\ R t v) ->
  forall m0, exists tw,
    allocate_topics q T topics m0 = Return tw /\
    forall k,
      (exists t v, In t topics /\ Topic.title t = k /\ R t v /\ tw !! k = Some v)
      \/ ((forall t, In t topics -> Topic.title t <> k) /\ tw !! k = m0 !! k).
Proof.
  induction topics as [|t rest IH]; intros H m0.
  - exists m0. split; [reflexivity|]. intros k. right. split; [intros t []|reflexivity].
  - destruct (H t ltac:(left; reflexivity)) as (v & Ev & Rv).
    destruct (IH ltac:(intros t' Ht'; apply H; right; exact Ht')
                 (<[Topic.title t := v]> m0)) as (tw & Etw & Htw).
    exists tw. split.
    + simpl. unfold allocate_topic. rewrite Ev. simpl. exact Etw.
    + intros k. destruct (Htw k) as [(t' & v' & Hin & Ht' & Rv' & L)|(Hnone & L)].
      * left. exists t', v'. split; [right; exact Hin|auto].
      * destruct (String.eqb_spec (Topic.title t) k) as [Heq|Hne].
        -- left. exists t, v. split; [left; reflexivity|]. split; [exact Heq|].
           split; [exact Rv|]. rewrite L, <- Heq. apply lookup_insert_eq.
        -- right. split.
           ++ intros t' [<-|Hin]; [exact Hne | apply Hnone; exact Hin].
           ++ rewrite L. apply lookup_insert_ne. exact Hne.
Qed.

(** C6. When the structure has topics and each of them has
    [duration_minutes = 0], [_generate_main_content] raises
    [ZeroDivisionError]: the first topic's ratio divides by the zero total,
    nothing guards the division, and only the opening INFO record has been
    logged (no provider call, no allocation). *)
Theorem zero_durations_fault
    (count_words : string -> Z) (provider : nat -> Request -> Result string)
    (structure_data : Structure.t) (original_text : string) (target_words : Z)
    (include_examples : bool) (context : Context.t) (w : World) :
  Structure.topics structure_data <> [] ->
  (forall topic, In topic (Structure.topics structure_data) ->
                 Topic.duration_minutes topic = 0) ->
  _generate_main_content count_words provider structure_data original_text
    target_words include_examples context w
  = (Raise ZeroDivisionError,
     add_log w [(INFO, GeneratingMainContent target_words)]).
Proof.
  intros Hne Hzero.
  unfold _generate_main_content.
  unfold bind at 1. rewrite logger_spec.
  assert (Hsum : sum (map Topic.duration_minutes (Structure.topics structure_data)) = 0).
  { apply sum_zero. intros x Hx. apply in_map_iff in Hx as (t & <- & Ht).
    apply Hzero. exact Ht. }
  rewrite Hsum.
  destruct (Structure.topics structure_data) as [|t rest] eqn:E; [congruence|].
  unfold bind at 1, lift.
  cbn [allocate_topics]. unfold allocate_topic, topic_quota.
  rewrite (Hzero t ltac:(left; reflexivity)).
  reflexivity.
Qed.

Lemma NoDup_map_inj {A B} (f : A -> B) l x y :
  NoDup (map f l) -> In x l -> In y l -> f x = f y -> x = y.
Proof.
  induction l as [|a l IH]; intros Hnd Hx Hy Hf; [destruct Hx|].
  simpl in Hnd. apply NoDup_cons in Hnd as (Hnotin & Hnd).
  destruct Hx as [->|Hx], Hy as [->|Hy]; auto.
  - exfalso. apply Hnotin. rewrite Hf. apply list_elem_of_In, in_map. exact Hy.
  - exfalso. apply Hnotin. rewrite <- Hf. apply list_elem_of_In, in_map. exact Hx.
Qed.

Example equal_split_quota : topic_quota 210 30 10 = Return 70.
Proof. vm_compute. reflexivity. Qed.

(** C4. With three topics of 10 minutes each and 210 words for the main
    section, the first loop of [_generate_main_content] binds the title of
    each topic to 70. In general, for a non-negative word count,
    non-negative durations with a positive total, distinct titles and
    [target_words * total_duration < 2^51], the
    quota of a topic is [floor (target_words * duration / total_duration)]
    or one less: the ratio is rounded to binary64 before it is multiplied. *)
Theorem topic_allocation :
  (forall topics : list Topic.t,
      map Topic.duration_minutes topics = [10; 10; 10] ->
      exists topic_words,
        allocate_topics 210 (sum (map Topic.duration_minutes topics)) topics ∅
        = Return topic_words /\
        forall topic, In topic topics ->
                      topic_words !! Topic.title topic = Some 70)
  /\
  (forall (target_words : Z) (topics : list Topic.t),
      let total_duration := sum (map Topic.duration_minutes topics) in
      0 <= target_words ->
      (forall topic, In topic topics -> 0 <= Topic.duration_minutes topic) ->
      0 < total_duration < 2 ^ 51 ->
      target_words * total_duration < 2 ^ 51 ->
      NoDup (map Topic.title topics) ->
      exists topic_words,
        allocate_topics target_words total_duration topics ∅ = Return topic_words /\
        forall topic, In topic topics ->
          exists quota,
            topic_words !! Topic.title topic = Some quota /\
            target_words * Topic.duration_minutes topic / total_duration - 1
            <= quota
            <= target_words * Topic.duration_minutes topic / total_duration).
Proof.
  split.
  - intros topics Hd.
    assert (HT : sum (map Topic.duration_minutes topics) = 30) by (rewrite Hd; reflexivity).
    rewrite HT.
    destruct (allocate_topics_spec 210 30 (fun _ v => v = 70) topics) with (m0 := (∅ : gmap string Z))
      as (tw & Etw & Htw).
    { intros t Ht. exists 70. split; [|reflexivity].
      assert (Topic.duration_minutes t = 10) as ->.
      { apply (in_map Topic.duration_minutes) in Ht. rewrite Hd in Ht.
        simpl in Ht. intuition congruence. }
      exact equal_split_quota. }
    exists tw. split; [exact Etw|].
    intros t Ht. destruct (Htw (Topic.title t)) as [(t' & v & _ & _ & -> & L)|(Hnone & _)].
    + exact L.
    + exfalso. exact (Hnone t Ht eq_refl).
  - intros q topics T Hq Hdur HT HqT Hnd.
    destruct (allocate_topics_spec q T
                (fun t v => q * Topic.duration_minutes t / T - 1 <= v
                            <= q * Topic.duration_minutes t / T) topics)
      with (m0 := (∅ : gmap string Z)) as (tw & Etw & Htw).
    { intros t Ht. apply topic_quota_bounds; try assumption.
      split; [apply Hdur; exact Ht|].
      apply sum_member_le.
      - intros y Hy. apply in_map_iff in Hy as (t' & <- & Ht'). apply Hdur. exact Ht'.
      - apply in_map. exact Ht. }
    exists tw. split; [exact Etw|].
    intros t Ht. destruct (Htw (Topic.title t)) as [(t' & v & Hin & Heq & Rv & L)|(Hnone & _)].
    + assert (t' = t) as -> by (eapply NoDup_map_inj; eauto).
      exists v. split; [exact L | exact Rv].
    + exfalso. exact (Hnone t Ht eq_refl).
Qed.

(** ** The topic loop *)

(** The first loop binds the title of every topic it has seen. *)
Lemma allocate_topics_binds target_words total_duration topics :
  forall m0 topic_words,
    allocate_topics target_words total_duration topics m0 = Return topic_words ->
    (forall k, is_Some (m0 !! k) -> is_Some (topic_words !! k))
    /\ forall topic, In topic topics ->
                     is_Some (topic_words !! Topic.title topic).
Proof.
  induction topics as [|t rest IH]; intros m0 tw H.
  - injection H as <-. split; [auto | intros topic []].
  - cbn [allocate_topics] in H. unfold allocate_topic in H.
    destruct (topic_quota target_words total_duration (Topic.duration_minutes t))
      as [quota|e]; [|discriminate].
    cbn [rbind] in H. destruct (IH _ _ H) as (Hkeep & Hrest).
    assert (Ht : is_Some (tw !! Topic.title t)).
    { apply Hkeep. rewrite lookup_insert_eq. eauto. }
    split.
    + intros k Hk. apply Hkeep.
      destruct (String.eqb_spec (Topic.title t) k) as [<-|Hne].
      * rewrite lookup_insert_eq. eauto.
      * rewrite lookup_insert_ne by exact Hne. exact Hk.
    + intros topic [<-|Hin]; [exact Ht | apply Hrest; exact Hin].
Qed.

Lemma list_remove_head x l : list_remove x (x :: l) = Return l.
Proof. simpl. rewrite String.eqb_refl. reflexivity. Qed.

Lemma for_each_app {A S} (l1 l2 : list A) (body : A -> S -> M S) (s : S) (w : World) :
  for_each (l1 ++ l2) body s w =
  bind (for_each l1 body s) (fun s' => for_each l2 body s') w.
Proof.
  revert s w. induction l1 as [|x l1 IH]; intros s w.
  - reflexivity.
  - cbn [for_each app]. unfold bind in *.
    destruct (body x s w) as [[s'|e] w']; [apply IH | reflexivity].
Qed.

Section TopicLoop.

Variable count_words : string -> Z.
Variable provider : nat -> Request -> Result string.
Variable structure_data : Structure.t.
Variable original_text : string.
Variable include_examples : bool.
Variable topic_words : gmap string Z.

Local Abbreviation iteration :=
  (topic_iteration count_words provider structure_data original_text
     include_examples topic_words).

Lemma update_context_head topic context pending :
  Context.pending_topics context = Topic.title topic :: pending ->
  exists context',
    update_context topic context = Return context' /\
    Context.covered_topics context'
      = (Context.covered_topics context ++ [Topic.title topic])%list /\
    Context.pending_topics context' = pending /\
    Context.key_terms context'
      = Context.key_terms context ∪ list_to_set (Topic.key_concepts topic).
Proof.
  intros Hp. unfold update_context. cbn [Context.set_current_topic
    Context.set_covered_topics Context.pending_topics Context.covered_topics
    Context.key_terms].
  rewrite Hp, list_remove_head. cbn [rbind].
  eexists. split; [reflexivity|]. cbn. auto.
Qed.

Lemma iteration_step topic acc context pending w :
  Context.pending_topics context = Topic.title topic :: pending ->
  match iteration topic (acc, context) w with
  | (Return (acc', context'), w') =>
      Context.covered_topics context'
        = (Context.covered_topics context ++ [Topic.title topic])%list /\
      Context.pending_topics context' = pending /\
      Context.key_terms context'
        = Context.key_terms context ∪ list_to_set (Topic.key_concepts topic)
  | (Raise e, w') =>
      topic_words !! Topic.title topic = None /\ e = KeyError
      \/ exists n request, provider n request = Raise e
  end.
Proof.
  intros Hp. unfold topic_iteration.
  unfold bind at 1, lift, dict_get.
  destruct (topic_words !! Topic.title topic) as [target|] eqn:Etw;
    [|left; split; reflexivity].
  destruct (update_context_head topic context pending Hp)
    as (context' & Eu & Hc & Hpe & Hk).
  unfold bind at 1. rewrite Eu.
  unfold bind at 1.
  unfold _generate_section. unfold bind at 1. rewrite logger_spec.
  unfold bind at 1. unfold create at 1.
  match goal with
  | |- context [provider ?n ?r] => destruct (provider n r) as [text|e] eqn:Ep
  end.
  - unfold bind at 1. rewrite logger_spec. cbn. auto.
  - right. eauto.
Qed.

Lemma loop_invariant done :
  forall acc context rest w,
    Context.pending_topics context
      = (map Topic.title done ++ rest)%list ->
    match for_each done iteration (acc, context) w with
    | (Return (acc', context'), w') =>
        Context.covered_topics context'
          = (Context.covered_topics context ++ map Topic.title done)%list /\
        Context.pending_topics context' = rest /\
        Context.key_terms context'
          = Context.key_terms context ∪ concepts_of done
    | (Raise e, w') =>
        (exists topic, In topic done /\
                       topic_words !! Topic.title topic = None)
        \/ exists n request, provider n request = Raise e
    end.
Proof.
  induction done as [|topic done IH]; intros acc context rest w Hp.
  - cbn. rewrite app_nil_r. split; [reflexivity|]. split; [exact Hp|].
    unfold concepts_of. cbn [map union_list]. rewrite union_empty_r_L. reflexivity.
  - cbn [for_each]. unfold bind.
    pose proof (iteration_step topic acc context
                  (map Topic.title done ++ rest)%list w Hp) as Hstep.
    destruct (iteration topic (acc, context) w) as [[[acc1 context1]|e] w1].
    + destruct Hstep as (Hc & Hpe & Hk).
      specialize (IH acc1 context1 rest w1 Hpe).
      destruct (for_each done iteration (acc1, context1) w1)
        as [[[acc2 context2]|e] w2].
      * destruct IH as (Hc2 & Hp2 & Hk2).
        rewrite Hc2, Hc, Hk2, Hk. split; [|split; [exact Hp2|]].
        -- rewrite <- app_assoc. reflexivity.
        -- unfold concepts_of. cbn [map]. rewrite union_list_cons, union_assoc_L.
           reflexivity.
      * destruct IH as [(t & Hin & Hnone)|Hprov]; [left|right; exact Hprov].
        exists t. split; [right; exact Hin | exact Hnone].
    + destruct Hstep as [(Hnone & _)|Hprov]; [left|right; exact Hprov].
      exists topic. split; [left; reflexivity | exact Hnone].
Qed.

End TopicLoop.

Lemma allocate_topics_raises target_words total_duration topics :
  forall m0 e,
    allocate_topics target_words total_duration topics m0 = Raise e ->
    exists topic,
      In topic topics
      /\ topic_quota target_words total_duration (Topic.duration_minutes topic)
         = Raise e.
Proof.
  induction topics as [|t rest IH]; intros m0 e H; [discriminate|].
  cbn [allocate_topics] in H. unfold allocate_topic in H.
  destruct (topic_quota target_words total_duration (Topic.duration_minutes t))
    as [quota|e'] eqn:Eq.
  - cbn [rbind] in H. destruct (IH _ _ H) as (topic & Hin & Hq).
    exists topic. split; [right; exact Hin | exact Hq].
  - cbn [rbind] in H. injection H as <-.
    exists t. split; [left; reflexivity | exact Eq].
Qed.

(** What the whole of [_generate_main_content] leaves in the context. *)
Lemma main_content_final_context
    (count_words : string -> Z) (provider : nat -> Request -> Result string)
    (structure_data : Structure.t) (original_text : string)
    (target_words : Z) (include_examples : bool) (context : Context.t)
    (w : World) :
  Context.pending_topics context = Structure.topic_titles structure_data ->
  match _generate_main_content count_words provider structure_data
          original_text target_words include_examples context w with
  | (Return (main_content, context'), _) =>
      Context.covered_topics context'
        = (Context.covered_topics context
             ++ Structure.topic_titles structure_data)%list
      /\ Context.pending_topics context' = []
      /\ Context.key_terms context'
         = Context.key_terms context
             ∪ concepts_of (Structure.topics structure_data)
  | (Raise e, _) =>
      (exists topic,
          In topic (Structure.topics structure_data)
          /\ topic_quota target_words
               (sum (map Topic.duration_minutes (Structure.topics structure_data)))
               (Topic.duration_minutes topic) = Raise e)
      \/ exists n request, provider n request = Raise e
  end.
Proof.
  intros Hpend. unfold _generate_main_content.
  unfold bind at 1. rewrite logger_spec.
  unfold bind at 1, lift.
  destruct (allocate_topics target_words _ (Structure.topics structure_data) ∅)
    as [topic_words|e] eqn:Ealloc.
  2:{ left. eapply allocate_topics_raises. exact Ealloc. }
  unfold bind at 1. rewrite logger_spec.
  unfold bind at 1.
  apply allocate_topics_binds in Ealloc as (_ & Hwords).
  match goal with
  | |- context [for_each ?l ?body ([], context) ?w1] =>
      pose proof (loop_invariant count_words provider structure_data
                    original_text include_examples topic_words
                    (Structure.topics structure_data) [] context [] w1) as H;
      destruct (for_each l body ([], context) w1) as [[[acc ctx]|e] w2]
  end.
  - cbn [ret fst snd]. apply H. rewrite Hpend, app_nil_r. reflexivity.
  - right.
    destruct H as [(t & Hin & Hnone)|Hprov];
      [rewrite Hpend, app_nil_r; reflexivity| |exact Hprov].
    destruct (Hwords t Hin) as (v & Hv). congruence.
Qed.

(** C10. The second loop of [_generate_main_content], started on the
    context that [transform_to_lecture] seeds (nothing covered, every topic
    title pending) and on the [topic_words] of the first loop: after the
    iterations of any prefix [done] of the topics, [covered_topics] is the
    titles of [done], [pending_topics] is the titles of the remaining
    topics, so their concatenation is a permutation of all the titles, and
    [key_terms] is the initial set joined with the key concepts of [done].
    The loop stops early only when a provider call raises. *)
Theorem topic_loop_invariant
    (count_words : string -> Z) (provider : nat -> Request -> Result string)
    (structure_data : Structure.t) (original_text : string)
    (include_examples : bool) (target_words : Z) (topic_words : gmap string Z)
    (context : Context.t) (done rest : list Topic.t) (w : World) :
  Structure.topics structure_data = (done ++ rest)%list ->
  Context.covered_topics context = [] ->
  Context.pending_topics context = Structure.topic_titles structure_data ->
  allocate_topics target_words
    (sum (map Topic.duration_minutes (Structure.topics structure_data)))
    (Structure.topics structure_data) ∅ = Return topic_words ->
  match for_each done
          (topic_iteration count_words provider structure_data original_text
             include_examples topic_words)
          ([], context) w with
  | (Return (topic_contents, context'), w') =>
      Context.covered_topics context' = map Topic.title done /\
      Context.pending_topics context' = map Topic.title rest /\
      Permutation (Context.covered_topics context'
                     ++ Context.pending_topics context')%list
                  (Structure.topic_titles structure_data) /\
      Context.key_terms context'
        = Context.key_terms context ∪ concepts_of done
  | (Raise e, w') => exists n request, provider n request = Raise e
  end.
Proof.
  intros Htopics Hcov Hpend Hwords.
  apply allocate_topics_binds in Hwords as (_ & Hwords).
  assert (Hp : Context.pending_topics context
               = (map Topic.title done ++ map Topic.title rest)%list).
  { rewrite Hpend. unfold Structure.topic_titles. rewrite Htopics. apply map_app. }
  pose proof (loop_invariant count_words provider structure_data original_text
                include_examples topic_words done [] context
                (map Topic.title rest) w Hp) as H.
  destruct (for_each done _ ([], context) w) as [[[acc ctx]|e] w'].
  - destruct H as (Hc & Hpe & Hk). rewrite Hcov in Hc. cbn [app] in Hc.
    split; [exact Hc|]. split; [exact Hpe|]. split; [|exact Hk].
    rewrite Hc, Hpe. unfold Structure.topic_titles. rewrite Htopics, map_app.
    reflexivity.
  - destruct H as [(t & Hin & Hnone)|Hprov]; [|exact Hprov].
    exfalso. destruct (Hwords t) as (v & Hv).
    + rewrite Htopics. apply in_or_app. left. exact Hin.
    + congruence.
Qed.

(** ** The word-count validator *)

(** C8. For positive [total_words] and [target_words] below [2^52], and
    any [min_words] and [max_words], [_validate_word_count] returns
    normally and logs: one ERROR record when
    [|total - target| / target > 0.20], which for these sizes is exactly
    [5 * |total - target| > target]; otherwise one WARNING record when
    [total < min_words] or [total > max_words]; otherwise nothing. *)
Theorem validate_word_count_returns (total_words target_words min_words max_words : Z)
    (w : World) :
  0 < total_words < 2 ^ 52 ->
  0 < target_words < 2 ^ 52 ->
  exists deviation,
    _validate_word_count total_words target_words min_words max_words w =
    (Return tt,
     add_log w
       (if target_words <? 5 * Z.abs (total_words - target_words) then
          [(ERROR, WordCountSignificantlyOutside total_words min_words max_words
                     deviation)]
        else if (total_words <? min_words) || (total_words >? max_words) then
          [(WARNING, WordCountSlightlyOutside total_words min_words max_words
                       deviation)]
        else [])).
Proof.
  intros Htotal Htarget.
  destruct (deviation_gt_threshold (Z.abs (total_words - target_words)) target_words)
    as (deviation & Ediv & Hgt).
  { change (2 ^ 52) with 4503599627370496 in *. lia. }
  { exact Htarget. }
  exists deviation. unfold _validate_word_count, bind, lift.
  rewrite Ediv. unfold LARGE_DEVIATION_THRESHOLD. rewrite Hgt.
  destruct (target_words <? 5 * Z.abs (total_words - target_words)).
  - apply logger_spec.
  - destruct ((total_words <? min_words) || (total_words >? max_words)).
    + apply logger_spec.
    + unfold ret. rewrite add_log_nil. reflexivity.
Qed.

(** ** The structure planner *)

Lemma hardcoded_has_topic d : Structure.topics (hardcoded_structure d) <> [].
Proof. discriminate. Qed.

(** The fallback tier never raises and its structure has a topic. *)
Lemma fallback_outcome (provider : nat -> Request -> Result string)
    (text : string) (target_duration : Z) (w : World) :
  match _generate_fallback_structure provider text target_duration w with
  | (Return structure_data, _) => Structure.topics structure_data <> []
  | (Raise _, _) => False
  end.
Proof.
  unfold _generate_fallback_structure.
  unfold bind at 1. rewrite logger_spec.
  unfold try_except, bind at 1, create.
  set (w1 := add_log w [(INFO, GeneratingFallback)]).
  destruct (provider (calls w1) _) as [content|e]; [|discriminate].
  fold (response_lines content).
  unfold bind at 1, lift.
  destruct (Py.int_of_product target_duration Py.f0_7) as [main_time|e];
    [|discriminate].
  unfold bind at 1. unfold Py.floordiv.
  set (topics := firstn 3 (List.filter nonblank (slice 4 7 (response_lines content)))).
  destruct (Z.eqb_spec (Z.of_nat (length topics)) 0) as [Hz|Hnz]; [discriminate|].
  cbn [ret Structure.topics]. destruct topics; [cbn in Hnz; lia | discriminate].
Qed.

Lemma fallback_total (provider : nat -> Request -> Result string)
    (text : string) (target_duration : Z) (w : World) :
  exists structure_data w',
    _generate_fallback_structure provider text target_duration w
    = (Return structure_data, w')
    /\ Structure.topics structure_data <> [].
Proof.
  pose proof (fallback_outcome provider text target_duration w) as H.
  destruct (_generate_fallback_structure provider text target_duration w)
    as [[s|e] w']; [eauto | destruct H].
Qed.

(** With fewer than five non-blank lines there is no topic line: the
    division by [len(topics)] faults and the handler answers. *)
Lemma fallback_short_response (provider : nat -> Request -> Result string)
    (text : string) (target_duration : Z) (w : World) (content : string) :
  provider (calls w) (fallback_request text) = Return content ->
  (length (response_lines content) <= 4)%nat ->
  fst (_generate_fallback_structure provider text target_duration w)
  = Return (hardcoded_structure target_duration).
Proof.
  intros Hp Hshort.
  unfold _generate_fallback_structure.
  unfold bind at 1. rewrite logger_spec.
  unfold try_except, bind at 1, create.
  cbn [calls add_log]. fold (fallback_request text). rewrite Hp.
  fold (response_lines content).
  assert (Hnil : slice 4 7 (response_lines content) = []).
  { unfold slice. rewrite skipn_all2 by exact Hshort. reflexivity. }
  rewrite Hnil. cbn [List.filter firstn length Z.of_nat].
  unfold bind at 1, lift.
  destruct (Py.int_of_product target_duration Py.f0_7) as [main_time|e].
  - reflexivity.
  - reflexivity.
Qed.


(** The planner hands over to the fallback tier. *)
Ltac planner_falls_back :=
  match goal with
  | |- context [_generate_fallback_structure ?provider ?text ?duration ?w0] =>
      let O := fresh "O" in
      let E := fresh "E" in
      pose proof (fallback_outcome provider text duration w0) as O;
      destruct (_generate_fallback_structure provider text duration w0)
        as [[s|e'] w'] eqn:E; [|destruct O];
      exists w0, s; split; [reflexivity|]; split; [exact E|reflexivity]
  end.

(** A run of the planner, case by case: the provider's answer to the
    first request and what the two decoding attempts make of it decide
    between the decoded value, after one call, and the fallback tier, run
    after that call. *)
Lemma planner_run {Value : Type}
    (provider : nat -> Request -> Result string)
    (json_loads : string -> Decoding Value)
    (text : string) (target_duration : Z) (w : World) :
  match _generate_detailed_structure provider json_loads text target_duration w with
  | (result, w') =>
      let fell_back :=
        exists w0 structure_data,
          calls w0 = S (calls w)
          /\ _generate_fallback_structure provider text target_duration w0
             = (Return structure_data, w')
          /\ result = Return (FromFallback structure_data) in
      match provider (calls w) (structure_request text target_duration) with
      | Return response =>
          match decoded json_loads response with
          | Some value =>
              result = Return (FromJSON value) /\ calls w' = S (calls w)
          | None => fell_back
          end
      | Raise _ => fell_back
      end
  end.
Proof.
  unfold decoded.
  unfold _generate_detailed_structure.
  unfold bind at 1. rewrite logger_spec.
  unfold try_except, bind at 1, create. cbv beta.
  change (calls (add_log w [(INFO, GeneratingStructure)])) with (calls w).
  fold (structure_request text target_duration).
  destruct (provider (calls w) (structure_request text target_duration))
    as [response|e].
  2:{ unfold bind. rewrite logger_spec. planner_falls_back. }
  unfold bind at 1. rewrite logger_spec.
  destruct (json_loads (Str.strip response)) as [value| |e].
  - unfold bind. rewrite logger_spec. cbn. split; reflexivity.
  - unfold bind at 1. rewrite logger_spec.
    unfold bind at 1.
    destruct (extract_json (Str.strip response)) as [span|].
    + destruct (json_loads span) as [value| |e].
      * unfold bind. rewrite logger_spec. cbn. split; reflexivity.
      * unfold bind at 1. rewrite logger_spec. unfold ret at 1.
        unfold bind. rewrite logger_spec. planner_falls_back.
      * unfold raise at 1.
        unfold bind. rewrite logger_spec. planner_falls_back.
    + unfold ret at 1. unfold bind. rewrite logger_spec. planner_falls_back.
  - unfold raise at 1. unfold bind. rewrite logger_spec. planner_falls_back.
Qed.

(** C2. For every text, duration, decoder and provider,
    [_generate_detailed_structure] returns normally, and what it returns is
    one of two things.  Either it is the value that [json.loads] decoded
    from the provider's answer to the structure request, stripped, or,
    after a [JSONDecodeError] on that, from the span between its first
    opening and its last closing brace: a value handed on as it is, after
    that one call.  Or it is what [_generate_fallback_structure] returned,
    run after that call, with at least one topic; this happens exactly
    when the provider raised or no decoding attempt gave a value. *)
Theorem planner_total {Value : Type}
    (provider : nat -> Request -> Result string)
    (json_loads : string -> Decoding Value)
    (text : string) (target_duration : Z) (w : World) :
  exists planned w',
    _generate_detailed_structure provider json_loads text target_duration w
    = (Return planned, w')
    /\ match planned with
       | FromJSON value =>
           calls w' = S (calls w)
           /\ exists response,
                provider (calls w) (structure_request text target_duration)
                = Return response
                /\ (json_loads (Str.strip response) = Decoded value
                    \/ json_loads (Str.strip response) = JSONDecodeError
                       /\ exists span,
                            extract_json (Str.strip response) = Some span
                            /\ json_loads span = Decoded value)
       | FromFallback structure_data =>
           Structure.topics structure_data <> []
           /\ (exists w0,
                 calls w0 = S (calls w)
                 /\ _generate_fallback_structure provider text target_duration w0
                    = (Return structure_data, w'))
           /\ forall response,
                provider (calls w) (structure_request text target_duration)
                = Return response ->
                decoded json_loads response = None
       end.
Proof.
  pose proof (planner_run provider json_loads text target_duration w) as H.
  destruct (_generate_detailed_structure provider json_loads text target_duration w)
    as [result w'].
  cbv zeta in H.
  assert (Hfall :
    forall w0 structure_data,
      _generate_fallback_structure provider text target_duration w0
      = (Return structure_data, w') ->
      Structure.topics structure_data <> []).
  { intros w0 s E.
    pose proof (fallback_outcome provider text target_duration w0) as O.
    rewrite E in O. exact O. }
  destruct (provider (calls w) (structure_request text target_duration))
    as [response|e] eqn:Ep.
  - destruct (decoded json_loads response) as [value|] eqn:Ed.
    + destruct H as [-> Hc]. exists (FromJSON value), w'.
      split; [reflexivity|]. split; [exact Hc|].
      exists response. split; [reflexivity|].
      unfold decoded in Ed.
      destruct (json_loads (Str.strip response)) as [v| |e] eqn:E1.
      * injection Ed as ->. left. reflexivity.
      * right. split; [reflexivity|].
        destruct (extract_json (Str.strip response)) as [span|];
          [|discriminate Ed].
        exists span. split; [reflexivity|].
        destruct (json_loads span) as [v| |e]; try discriminate Ed.
        injection Ed as ->. reflexivity.
      * discriminate Ed.
    + destruct H as (w0 & s & Hc & E & ->). exists (FromFallback s), w'.
      split; [reflexivity|]. split; [exact (Hfall w0 s E)|].
      split; [exists w0; split; [exact Hc|exact E]|].
      intros response' [= <-]. exact Ed.
  - destruct H as (w0 & s & Hc & E & ->). exists (FromFallback s), w'.
    split; [reflexivity|]. split; [exact (Hfall w0 s E)|].
    split; [exists w0; split; [exact Hc|exact E]|].
    intros response' [=].
Qed.

(** ** The orchestrator *)

Lemma keeps_ret {A} (a : A) : keeps_full_content (ret a).
Proof. intros w. reflexivity. Qed.

Lemma keeps_raise {A} (e : exn) : keeps_full_content (@raise A e).
Proof. intros w. reflexivity. Qed.

Lemma keeps_lift {A} (r : Result A) : keeps_full_content (lift r).
Proof. intros w. reflexivity. Qed.

Lemma keeps_logger l m : keeps_full_content (logger l m).
Proof. intros w. reflexivity. Qed.

Lemma keeps_create provider request : keeps_full_content (create provider request).
Proof. intros w. reflexivity. Qed.

Lemma keeps_bind {A B} (c : M A) (k : A -> M B) :
  keeps_full_content c -> (forall a, keeps_full_content (k a)) ->
  keeps_full_content (bind c k).
Proof.
  intros Hc Hk w. unfold bind. specialize (Hc w).
  destruct (c w) as [[a|e] w1]; cbn [snd] in *.
  - rewrite (Hk a w1). exact Hc.
  - exact Hc.
Qed.

Lemma keeps_try_except {A} (c : M A) (h : exn -> M A) :
  keeps_full_content c -> (forall e, keeps_full_content (h e)) ->
  keeps_full_content (try_except c h).
Proof.
  intros Hc Hh w. unfold try_except. specialize (Hc w).
  destruct (c w) as [[a|e] w1]; cbn [snd] in *.
  - exact Hc.
  - rewrite (Hh e w1). exact Hc.
Qed.

Lemma keeps_for_each {A S} (l : list A) (body : A -> S -> M S) (s : S) :
  (forall x s', keeps_full_content (body x s')) ->
  keeps_full_content (for_each l body s).
Proof.
  intros Hb. revert s. induction l as [|x l IH]; intros s.
  - apply keeps_ret.
  - cbn [for_each]. apply keeps_bind; [apply Hb | intros s'; apply IH].
Qed.

Lemma keeps_generate_section count_words provider section_type structure_data
      original_text target_words include_examples context is_first is_last :
  keeps_full_content
    (_generate_section count_words provider section_type structure_data
       original_text target_words include_examples context is_first is_last).
Proof.
  unfold _generate_section.
  apply keeps_bind; [apply keeps_logger|intros _].
  apply keeps_bind; [apply keeps_create|intros content].
  apply keeps_bind; [apply keeps_logger|intros _]. apply keeps_ret.
Qed.

Lemma keeps_generate_main_content count_words provider structure_data
      original_text target_words include_examples context :
  keeps_full_content
    (_generate_main_content count_words provider structure_data original_text
       target_words include_examples context).
Proof.
  unfold _generate_main_content.
  apply keeps_bind; [apply keeps_logger|intros _].
  apply keeps_bind; [apply keeps_lift|intros topic_words].
  apply keeps_bind; [apply keeps_logger|intros _].
  apply keeps_bind; [|intros state; apply keeps_ret].
  apply keeps_for_each. intros topic [acc context']. unfold topic_iteration.
  apply keeps_bind; [apply keeps_lift|intros target].
  apply keeps_bind; [apply keeps_lift|intros context''].
  apply keeps_bind; [apply keeps_generate_section|intros content]. apply keeps_ret.
Qed.

Lemma keeps_fallback provider text target_duration :
  keeps_full_content (_generate_fallback_structure provider text target_duration).
Proof.
  unfold _generate_fallback_structure.
  apply keeps_bind; [apply keeps_logger|intros _].
  apply keeps_try_except.
  - apply keeps_bind; [apply keeps_create|intros content].
    apply keeps_bind; [apply keeps_lift|intros main_time].
    apply keeps_bind; [apply keeps_lift|intros topic_minutes]. apply keeps_ret.
  - intros e. apply keeps_bind; [apply keeps_logger|intros _]. apply keeps_ret.
Qed.

Lemma keeps_planner {Value : Type} provider
    (json_loads : string -> Decoding Value) text target_duration :
  keeps_full_content
    (_generate_detailed_structure provider json_loads text target_duration).
Proof.
  assert (Hfallback :
    keeps_full_content
      (let* structure_data :=
         _generate_fallback_structure provider text target_duration in
       ret (@FromFallback Value structure_data))).
  { apply keeps_bind; [apply keeps_fallback|intros s]. apply keeps_ret. }
  unfold _generate_detailed_structure.
  apply keeps_bind; [apply keeps_logger|intros _].
  apply keeps_try_except.
  - apply keeps_bind; [apply keeps_create|intros response].
    apply keeps_bind; [apply keeps_logger|intros _].
    destruct (json_loads (Str.strip response)).
    + apply keeps_bind; [apply keeps_logger|intros _]. apply keeps_ret.
    + apply keeps_bind; [apply keeps_logger|intros _].
      apply keeps_bind.
      * destruct (extract_json (Str.strip response)); [|apply keeps_ret].
        destruct (json_loads s);
          [apply keeps_bind; [apply keeps_logger|intros _]; apply keeps_ret
          |apply keeps_bind; [apply keeps_logger|intros _]; apply keeps_ret
          |apply keeps_raise].
      * intros [s|]; [apply keeps_ret|].
        apply keeps_bind; [apply keeps_logger|intros _]. exact Hfallback.
    + apply keeps_raise.
  - intros e. apply keeps_bind; [apply keeps_logger|intros _]. exact Hfallback.
Qed.

(** When the practical call raises, the body of the [try] raises with
    [full_content] still unbound. *)
Lemma generate_sections_practical_failure
    count_words provider structure_data cleaned_text section_words
    include_examples target_words min_words max_words w :
  (forall n request, is_practical request = true ->
                     exists e, provider n request = Raise e) ->
  full_content w = None ->
  exists e w',
    generate_sections count_words provider structure_data cleaned_text
      section_words include_examples target_words min_words max_words w
    = (Raise e, w')
    /\ full_content w' = None.
Proof.
  intros Hprov Hfc. unfold generate_sections.
  unfold bind at 1. rewrite logger_spec.
  set (w1 := add_log w [(INFO, GeneratingBySections)]).
  assert (Hfc1 : full_content w1 = None) by exact Hfc.
  unfold bind at 1.
  pose proof (keeps_generate_section count_words provider "introduction"
                structure_data cleaned_text (sw_intro section_words)
                include_examples None true false w1) as K1.
  destruct (_generate_section count_words provider "introduction" _ _ _ _ None true false w1)
    as [[intro|e] w2]; cbn [snd] in K1.
  2:{ exists e, w2. split; [reflexivity | congruence]. }
  unfold bind at 1. rewrite logger_spec.
  set (w3 := add_log w2 _).
  assert (Hfc3 : full_content w3 = None) by (cbn; congruence).
  unfold bind at 1.
  match goal with
  | |- context [_generate_main_content ?a ?b ?c ?d ?e ?f ?g w3] =>
      pose proof (keeps_generate_main_content a b c d e f g w3) as K2;
      destruct (_generate_main_content a b c d e f g w3) as [[main|e'] w4];
      cbn [snd] in K2
  end.
  2:{ exists e', w4. split; [reflexivity | congruence]. }
  unfold bind at 1. rewrite logger_spec.
  set (w5 := add_log w4 _).
  assert (Hfc5 : full_content w5 = None) by (cbn; congruence).
  unfold bind at 1.
  unfold _generate_section at 1. unfold bind at 1. rewrite logger_spec.
  unfold bind at 1, create at 1.
  match goal with
  | |- context [provider ?n ?r] =>
      destruct (Hprov n r eq_refl) as (e' & ->)
  end.
  eexists _, _. split; [reflexivity|]. exact Hfc5.
Qed.

(** A provider that fails every practical-section request makes every
    run raise: no partial transcript is ever returned. *)
Theorem practical_failure_always_raises
    (clean_text : string -> string) (count_words : string -> Z)
    (json_loads : string -> Decoding Structure.t)
    (provider : nat -> Request -> Result string) (words_per_minute : Z)
    (text : string) (target_duration : Z) (include_examples : bool) (w : World) :
  (forall n request, is_practical request = true ->
                     exists e, provider n request = Raise e) ->
  exists e w',
    transform_to_lecture clean_text count_words json_loads provider
      words_per_minute text target_duration include_examples w
    = (Raise e, w').
Proof.
  intros Hprov. unfold transform_to_lecture.
  unfold bind at 1. cbn [unbind_full_content].
  set (w0 := {| calls := calls w; log := log w; full_content := None |}).
  unfold bind at 1. rewrite logger_spec.
  unfold bind at 1. rewrite logger_spec.
  unfold bind at 1, lift at 1.
  destruct (target_word_counts words_per_minute target_duration)
    as [[[target_words min_words] max_words]|e]; [|eauto].
  unfold bind at 1. rewrite logger_spec.
  unfold bind at 1.
  match goal with
  | |- context [_generate_detailed_structure ?a ?b ?c ?d ?w1] =>
      pose proof (keeps_planner a b c d w1) as K1;
      destruct (_generate_detailed_structure a b c d w1) as [[structure_data|e] w2];
      cbn [snd] in K1
  end; [|eauto].
  unfold bind at 1. rewrite logger_spec.
  unfold bind at 1. rewrite logger_spec.
  unfold bind at 1, lift at 1.
  destruct (section_quotas target_words) as [section_words|e]; [|eauto].
  unfold try_except.
  match goal with
  | |- context [generate_sections ?a ?b ?c ?d ?e ?f ?g ?h ?i ?w3] =>
      destruct (generate_sections_practical_failure a b c d e f g h i w3 Hprov)
        as (e' & w4 & -> & Hfc4)
  end.
  { cbn. exact K1. }
  unfold on_generation_error. unfold bind at 1. rewrite logger_spec.
  unfold bind, lookup_full_content. cbn [add_log full_content]. rewrite Hfc4.
  eauto.
Qed.

(** ** The line-oriented tier on a long enough answer *)

Lemma response_lines_nonblank content :
  Forall (fun line => nonblank line = true) (response_lines content).
Proof.
  unfold response_lines. apply Forall_forall. intros line Hin.
  apply list_elem_of_In in Hin.
  apply in_map_iff in Hin as (raw & <- & Hraw).
  apply filter_In in Hraw as (_ & H). exact H.
Qed.

Lemma filter_all {A} (f : A -> bool) l :
  Forall (fun x => f x = true) l -> List.filter f l = l.
Proof.
  induction 1 as [|x l Hx _ IH]; [reflexivity|].
  cbn. rewrite Hx. f_equal. exact IH.
Qed.

Lemma Forall_slice {A} (P : A -> Prop) a b l : Forall P l -> Forall P (slice a b l).
Proof.
  intros H. unfold slice. apply Forall_forall. intros x Hx.
  rewrite Forall_forall in H. apply H.
  apply (subseteq_drop a l). apply (subseteq_take (b - a) (skipn a l)). exact Hx.
Qed.

(** With five non-blank lines or more, the structure is read off the
    lines: line 0, lines 1-3, lines 4-6 and lines 7-9. *)
Lemma fallback_from_lines (provider : nat -> Request -> Result string)
    (text : string) (target_duration : Z) (w : World) (content : string) :
  provider (calls w) (fallback_request text) = Return content ->
  (5 <= length (response_lines content))%nat ->
  0 <= target_duration < 2 ^ 48 ->
  exists structure_data,
    fst (_generate_fallback_structure provider text target_duration w)
    = Return structure_data
    /\ Structure.title structure_data = hd "Lecture" (response_lines content)
    /\ Structure.learning_objectives structure_data
       = slice 1 4 (response_lines content)
    /\ map Topic.title (Structure.topics structure_data)
       = slice 4 7 (response_lines content)
    /\ Structure.key_terms structure_data = slice 7 10 (response_lines content).
Proof.
  intros Hp Hlong Hd.
  unfold _generate_fallback_structure.
  unfold bind at 1. rewrite logger_spec.
  unfold try_except, bind at 1, create.
  cbn [calls add_log]. fold (fallback_request text). rewrite Hp.
  fold (response_lines content).
  set (lines := response_lines content) in *.
  pose proof (response_lines_nonblank content) as Hnb. fold lines in Hnb.
  rewrite !filter_all by (apply Forall_slice; exact Hnb).
  assert (L3 : forall a b, (b - a <= 3)%nat ->
                           firstn 3 (slice a b lines) = slice a b lines).
  { intros a b Hab. apply firstn_all2. unfold slice.
    rewrite length_firstn. lia. }
  rewrite !L3 by lia.
  destruct (product_0_7 target_duration Hd) as (main_time & Emain & _).
  unfold bind at 1, lift. rewrite Emain.
  unfold bind at 1, Py.floordiv.
  assert (Hlen : length (slice 4 7 lines) <> 0%nat).
  { unfold slice. rewrite length_firstn, length_skipn. lia. }
  destruct (Z.eqb_spec (Z.of_nat (length (slice 4 7 lines))) 0) as [Hz|_]; [lia|].
  cbn [ret fst]. eexists. split; [reflexivity|].
  cbn [Structure.title Structure.learning_objectives Structure.topics
       Structure.key_terms].
  split; [destruct lines; reflexivity|]. split; [reflexivity|].
  split; [|reflexivity].
  rewrite map_map. cbn [Topic.title]. apply map_id.
Qed.

(** ** Runs on concrete inputs *)

(** C1. A run of [transform_to_lecture] on the text "X" for 10 minutes,
    with a provider that answers the introduction and the main topic and
    raises on the practical section: the run logs the introduction (3
    words) and the main content (4 words) as generated, and then raises the
    provider's exception to the caller. No text is returned, because
    [full_content] is bound only after the summary. *)
Theorem practical_failure_is_reraised :
  let run :=
    transform_to_lecture (fun s => s) count_tokens Json.loads_structure
      fails_on_practical 130 "X" 10 true initial_world in
  fst run = Raise ProviderError
  /\ In (INFO, IntroductionGenerated 3) (log (snd run))
  /\ In (INFO, MainContentGenerated 4) (log (snd run)).
Proof.
  vm_compute. split; [reflexivity|].
  split; repeat (first [left; reflexivity | right]).
Qed.

(** The one way through the handler's [return full_content]: a fault
    after the four sections are joined. With a duration of 0 minutes the
    target is 0 words and the word-count validator divides by it. *)
Example validation_failure_returns_content :
  fst (transform_to_lecture (fun s => s) count_tokens Json.loads_structure
         answers_everything 130 "X" 0 true initial_world)
  = Return ("Text of introduction" ++ blank_line ++ "Text of main_topic_A"
            ++ blank_line ++ "Text of practical" ++ blank_line
            ++ "Text of summary").
Proof. vm_compute. reflexivity. Qed.

(** C2, counterexample. The provider answers a well-formed document whose
    [topics] list is empty: the planner returns it as decoded, a structure
    without any topic.  And when the provider answers the document [[]],
    the planner returns the empty list that [json.loads] makes of it, which
    is no structure at all. *)
Lemma planner_returns_no_topic :
  fst (_generate_detailed_structure answers_no_topics Json.loads_structure
         "X" 10 initial_world)
  = Return (FromJSON (Structure.make "T" [] [] [] []))
  /\ fst (_generate_detailed_structure (fun _ _ => Return "[]") Json.loads
            "X" 10 initial_world)
     = Return (FromJSON (Json.Arr [])).
Proof. vm_compute. split; reflexivity. Qed.

(** The provider behaviours of the planner: a valid document, a document
    wrapped in prose, prose with a usable line-oriented answer, a provider
    that raises, and a valid document on which [json.loads] raises
    something else than [JSONDecodeError]. *)
Example planner_on_valid_document :
  fst (_generate_detailed_structure answers_everything Json.loads_structure
         "X" 10 initial_world)
  = Return (FromJSON one_topic_structure).
Proof. vm_compute. reflexivity. Qed.

Example planner_on_wrapped_document :
  Json.loads_structure wrapped_document = JSONDecodeError
  /\ fst (_generate_detailed_structure answers_wrapped Json.loads_structure
            "X" 10 initial_world)
     = Return (FromJSON one_topic_structure).
Proof. vm_compute. split; reflexivity. Qed.

Example planner_on_garbage :
  fst (_generate_detailed_structure answers_lines Json.loads_structure
         "X" 10 initial_world)
  = Return (FromFallback
              (Structure.make "Title" ["O1"; "O2"; "O3"]
                 [Topic.make "First" ["First"]
                             ["Overview"; "Details"; "Examples"] 2 [1];
                  Topic.make "Second" ["Second"]
                             ["Overview"; "Details"; "Examples"] 2 [1];
                  Topic.make "Term" ["Term"]
                             ["Overview"; "Details"; "Examples"] 2 [1]]
                 ["Real-world application example"; "Interactive exercise";
                  "Case study"]
                 [])).
Proof. vm_compute. reflexivity. Qed.

Example planner_on_raising_provider :
  fst (_generate_detailed_structure unavailable Json.loads_structure
         "X" 10 initial_world)
  = Return (FromFallback (hardcoded_structure 10)).
Proof. vm_compute. reflexivity. Qed.

Example planner_on_raising_decoder :
  let run :=
    _generate_detailed_structure answers_wrapped
      (fun _ => @DecodingRaised Structure.t RecursionError)
      "X" 10 initial_world in
  fst run = Return (FromFallback (hardcoded_structure 10))
  /\ calls (snd run) = 2%nat
  /\ In (ERROR, ErrorGeneratingStructure RecursionError) (log (snd run)).
Proof.
  vm_compute. split; [reflexivity|]. split; [reflexivity|].
  repeat (first [left; reflexivity | right]).
Qed.

(** C3, counterexample. At 130 words per minute and 1 minute the upper
    bound is [int(130 * 1.05) = 136], and the ceiling of 136.5 is 137. *)
Lemma max_words_is_not_the_ceiling :
  target_word_counts 130 1 = Return (130, 123, 136)
  /\ ceil_frac 105 100 (130 * 1) = 137.
Proof. vm_compute. split; reflexivity. Qed.

(** C4, counterexample. Two topics of 7 and 3 minutes and 2730 words:
    the first topic gets [int(2730 * (7 / 10)) = 1910], and
    [floor (2730 * 7 / 10) = 1911]. *)
Lemma quota_below_exact_floor :
  (exists topic_words,
      allocate_topics 2730 (sum [7; 3]) (Structure.topics two_topics) ∅
      = Return topic_words
      /\ topic_words !! "A" = Some 1910)
  /\ 2730 * 7 / sum [7; 3] = 1911.
Proof.
  split; [|reflexivity].
  eexists. split; [vm_compute; reflexivity|]. vm_compute. reflexivity.
Qed.

(** C5, counterexample. For a duration of -1 minute the quotas are
    truncated towards zero, the practical one is -19 and not
    [floor (-19.5) = -20], and the four add up to -129, more than the total
    of -130. For 5 minutes the main quota is [int(650 * 0.7) = 454], and
    [floor (0.7 * 650) = 455]. *)
Lemma quotas_truncate_and_round :
  (section_quotas (130 * -1)
   = Return {| sw_intro := -13; sw_main := -91; sw_practical := -19;
               sw_summary := -6 |}
   /\ floor_frac 15 100 (130 * -1) = -20
   /\ 130 * -1 < -13 + -91 + -19 + -6)
  /\ (section_quotas (130 * 5)
      = Return {| sw_intro := 65; sw_main := 454; sw_practical := 97;
                  sw_summary := 32 |}
      /\ floor_frac 7 10 (130 * 5) = 455).
Proof. vm_compute. intuition. Qed.

(** C7. The provider answers the line-oriented request with three
    non-blank lines, a title and two objectives. There is no topic line,
    [main_time // len(topics)] raises [ZeroDivisionError] inside the [try],
    and the handler returns the hardcoded single-topic structure although
    the provider call succeeded. *)
Theorem short_response_gets_hardcoded_structure :
  fst (_generate_fallback_structure answers_three_lines "X" 10 initial_world)
  = Return (hardcoded_structure 10)
  /\ response_lines three_lines = ["Title"; "Objective one"; "Objective two"].
Proof. vm_compute. split; reflexivity. Qed.

(** C8, counterexample. With [total_words = 2^1024 + 1] and a target of
    one word the quotient has no binary64 value and the true division
    raises [OverflowError]. *)
Lemma validator_overflows :
  fst (_validate_word_count (2 ^ 1024 + 1) 1 1 1 initial_world)
  = Raise OverflowError.
Proof. vm_compute. reflexivity. Qed.

(** ** The word budget *)

(** C3. For positive [target_duration] and [words_per_minute] whose
    product is below [2^48], the target is the product, [min_words] is
    [floor (0.95 * target)] and [max_words] is [floor (1.05 * target)]:
    [int()] truncates, and the binary64 product lands on the side of the
    exact one. *)
Theorem word_count_bounds (words_per_minute target_duration : Z) :
  0 < target_duration ->
  0 < words_per_minute ->
  words_per_minute * target_duration < 2 ^ 48 ->
  target_word_counts words_per_minute target_duration
  = Return (words_per_minute * target_duration,
            floor_frac 95 100 (words_per_minute * target_duration),
            floor_frac 105 100 (words_per_minute * target_duration)).
Proof.
  intros HD HW Hlt. unfold target_word_counts.
  rewrite product_0_95, product_1_05 by nia. reflexivity.
Qed.

Lemma word_count_bounds_witness :
  0 < 10 /\ 0 < 130 /\ 130 * 10 < 2 ^ 48
  /\ target_word_counts 130 10 = Return (1300, 1235, 1365).
Proof.
  split; [lia|]. split; [lia|]. split; [reflexivity|].
  apply (word_count_bounds 130 10); [lia | lia | reflexivity].
Defined.

(** C5. For a total [words_per_minute * target_duration] between 0 and
    [2^48], the introduction, practical and summary quotas are
    [floor (0.1 * total)], [floor (0.15 * total)] and [floor (0.05 * total)];
    the main quota is [floor (0.7 * total)] or one less; and the four quotas
    add up to no more than the total. *)
Theorem section_quotas_budget (words_per_minute target_duration : Z) :
  let total := words_per_minute * target_duration in
  0 <= total < 2 ^ 48 ->
  exists main,
    section_quotas total
    = Return {| sw_intro := floor_frac 1 10 total;
                sw_main := main;
                sw_practical := floor_frac 15 100 total;
                sw_summary := floor_frac 5 100 total |}
    /\ floor_frac 7 10 total - 1 <= main <= floor_frac 7 10 total
    /\ floor_frac 1 10 total + main + floor_frac 15 100 total
       + floor_frac 5 100 total <= total.
Proof.
  intros total Ht. unfold section_quotas.
  destruct (product_0_7 total Ht) as (main & Emain & Hmain).
  rewrite product_0_1, Emain, product_0_15, product_0_05 by exact Ht.
  exists main. split; [reflexivity|]. split; [exact Hmain|].
  unfold floor_frac in *.
  pose proof (Z.div_mod (1 * total) 10 ltac:(lia)).
  pose proof (Z.mod_pos_bound (1 * total) 10 ltac:(lia)).
  pose proof (Z.div_mod (7 * total) 10 ltac:(lia)).
  pose proof (Z.mod_pos_bound (7 * total) 10 ltac:(lia)).
  pose proof (Z.div_mod (15 * total) 100 ltac:(lia)).
  pose proof (Z.mod_pos_bound (15 * total) 100 ltac:(lia)).
  pose proof (Z.div_mod (5 * total) 100 ltac:(lia)).
  pose proof (Z.mod_pos_bound (5 * total) 100 ltac:(lia)).
  clear Emain Ht. lia.
Qed.

Lemma section_quotas_budget_witness :
  0 <= 130 * 10 < 2 ^ 48
  /\ exists main,
      section_quotas (130 * 10)
      = Return {| sw_intro := 130; sw_main := main; sw_practical := 195;
                  sw_summary := 65 |}
      /\ 909 <= main <= 910
      /\ 130 + main + 195 + 65 <= 1300.
Proof.
  split; [split; [lia | reflexivity]|].
  apply (section_quotas_budget 130 10). split; [lia | reflexivity].
Defined.

(** ** Instances *)

Lemma topic_allocation_witness :
  (map Topic.duration_minutes three_equal_topics = [10; 10; 10]
   /\ exists topic_words,
      allocate_topics 210 (sum (map Topic.duration_minutes three_equal_topics))
        three_equal_topics ∅
      = Return topic_words
      /\ forall topic,
          In topic three_equal_topics ->
          topic_words !! Topic.title topic = Some 70)
  /\ (0 <= 2730
      /\ (forall topic, In topic (Structure.topics two_topics) ->
                        0 <= Topic.duration_minutes topic)
      /\ 0 < sum (map Topic.duration_minutes (Structure.topics two_topics)) < 2 ^ 51
      /\ 2730 * sum (map Topic.duration_minutes (Structure.topics two_topics))
         < 2 ^ 51
      /\ NoDup (map Topic.title (Structure.topics two_topics))
      /\ exists topic_words,
        allocate_topics 2730
          (sum (map Topic.duration_minutes (Structure.topics two_topics)))
          (Structure.topics two_topics) ∅
        = Return topic_words
        /\ forall topic, In topic (Structure.topics two_topics) ->
             exists quota,
               topic_words !! Topic.title topic = Some quota
               /\ 2730 * Topic.duration_minutes topic
                    / sum (map Topic.duration_minutes (Structure.topics two_topics))
                  - 1 <= quota
                  <= 2730 * Topic.duration_minutes topic
                     / sum (map Topic.duration_minutes
                              (Structure.topics two_topics))).
Proof.
  assert (H1 : 0 <= 2730) by lia.
  assert (H2 : forall topic, In topic (Structure.topics two_topics) ->
                             0 <= Topic.duration_minutes topic).
  { intros topic [<-|[<-|[]]]; simpl; lia. }
  assert (H3 : 0 < sum (map Topic.duration_minutes (Structure.topics two_topics))
               < 2 ^ 51) by (split; reflexivity).
  assert (H4 : 2730 * sum (map Topic.duration_minutes (Structure.topics two_topics))
               < 2 ^ 51) by reflexivity.
  assert (H5 : NoDup (map Topic.title (Structure.topics two_topics))).
  { apply NoDup_cons. split; [|apply NoDup_singleton].
    intros H. apply list_elem_of_In in H. destruct H as [H|[]]. discriminate. }
  split.
  - split; [reflexivity|].
    exact (proj1 topic_allocation three_equal_topics eq_refl).
  - split; [exact H1|]. split; [exact H2|]. split; [exact H3|]. split; [exact H4|].
    split; [exact H5|].
    exact (proj2 topic_allocation 2730 (Structure.topics two_topics) H1 H2 H3 H4 H5).
Defined.

Lemma zero_durations_fault_witness :
  Structure.topics zero_topics <> []
  /\ (forall topic, In topic (Structure.topics zero_topics) ->
                    Topic.duration_minutes topic = 0)
  /\ _generate_main_content count_tokens unavailable zero_topics "X" 909 true
       (seeded_context zero_topics "intro") initial_world
     = (Raise ZeroDivisionError,
        add_log initial_world [(INFO, GeneratingMainContent 909)]).
Proof.
  assert (H1 : Structure.topics zero_topics <> []) by discriminate.
  assert (H2 : forall topic, In topic (Structure.topics zero_topics) ->
                             Topic.duration_minutes topic = 0).
  { intros topic [<-|[<-|[]]]; reflexivity. }
  split; [exact H1|]. split; [exact H2|].
  exact (zero_durations_fault count_tokens unavailable zero_topics "X" 909 true
           (seeded_context zero_topics "intro") initial_world H1 H2).
Defined.

Lemma validate_word_count_returns_witness :
  0 < 1000 < 2 ^ 52 /\ 0 < 1300 < 2 ^ 52
  /\ exists deviation,
      _validate_word_count 1000 1300 1235 1365 initial_world
      = (Return tt,
         add_log initial_world
           [(ERROR, WordCountSignificantlyOutside 1000 1235 1365 deviation)]).
Proof.
  split; [split; [lia | reflexivity]|]. split; [split; [lia | reflexivity]|].
  apply (validate_word_count_returns 1000 1300 1235 1365 initial_world);
    split; first [lia | reflexivity].
Defined.

Lemma topic_loop_invariant_witness :
  Structure.topics two_topics = ([topic_of "A" 7] ++ [topic_of "B" 3])%list
  /\ Context.covered_topics (seeded_context two_topics "intro") = []
  /\ Context.pending_topics (seeded_context two_topics "intro")
     = Structure.topic_titles two_topics
  /\ allocate_topics 2730
       (sum (map Topic.duration_minutes (Structure.topics two_topics)))
       (Structure.topics two_topics) ∅ = Return two_topic_words
  /\ match for_each [topic_of "A" 7]
             (topic_iteration count_tokens answers_everything two_topics "X"
                true two_topic_words)
             ([], seeded_context two_topics "intro") initial_world with
     | (Return (topic_contents, context'), w') =>
         Context.covered_topics context' = map Topic.title [topic_of "A" 7] /\
         Context.pending_topics context' = map Topic.title [topic_of "B" 3] /\
         Permutation (Context.covered_topics context'
                        ++ Context.pending_topics context')%list
                     (Structure.topic_titles two_topics) /\
         Context.key_terms context'
           = Context.key_terms (seeded_context two_topics "intro")
               ∪ concepts_of [topic_of "A" 7]
     | (Raise e, w') => exists n request, answers_everything n request = Raise e
     end.
Proof.
  assert (H1 : Structure.topics two_topics
               = ([topic_of "A" 7] ++ [topic_of "B" 3])%list) by reflexivity.
  assert (H2 : Context.covered_topics (seeded_context two_topics "intro") = [])
    by reflexivity.
  assert (H3 : Context.pending_topics (seeded_context two_topics "intro")
               = Structure.topic_titles two_topics) by reflexivity.
  assert (H4 : allocate_topics 2730
                 (sum (map Topic.duration_minutes (Structure.topics two_topics)))
                 (Structure.topics two_topics) ∅ = Return two_topic_words)
    by (vm_compute; reflexivity).
  split; [exact H1|]. split; [exact H2|]. split; [exact H3|]. split; [exact H4|].
  exact (topic_loop_invariant count_tokens answers_everything two_topics "X" true
           2730 two_topic_words (seeded_context two_topics "intro")
           [topic_of "A" 7] [topic_of "B" 3] initial_world H1 H2 H3 H4).
Defined.

(** ** The constructor and the generation methods *)

Module GeneratorFacts.

Import Generator.

(** Sign symmetry of the float operations. *)

Lemma binary_round_aux_opp m e l :
  binary_round_aux Py.prec Py.emax true m e l
  = SFopp (binary_round_aux Py.prec Py.emax false m e l).
Proof.
  unfold binary_round_aux.
  destruct (shr_fexp Py.prec Py.emax m e l) as [mrs e'].
  destruct (shr_fexp Py.prec Py.emax _ e' loc_Exact) as [mrs' e''].
  destruct (shr_m mrs'); [reflexivity| |reflexivity].
  destruct (e'' <=? Py.emax - Py.prec); reflexivity.
Qed.

Lemma of_int_opp p : Py.of_int (Z.neg p) = SFopp (Py.of_int (Z.pos p)).
Proof.
  unfold Py.of_int, binary_normalize, binary_round.
  destruct (shl_align p 0 _) as [mz ez].
  apply binary_round_aux_opp.
Qed.

Lemma fmul_opp x m e :
  Py.fmul (SFopp x) (S754_finite false m e)
  = SFopp (Py.fmul x (S754_finite false m e)).
Proof.
  destruct x as [s|s| |s mx ex]; try reflexivity.
  - destruct s; reflexivity.
  - destruct s; reflexivity.
  - unfold Py.fmul, SFmul, SFopp. destruct s; cbn [negb xorb].
    + rewrite binary_round_aux_opp.
      destruct (binary_round_aux Py.prec Py.emax false _ _ _) as [[]|[]| |[] ? ?];
        reflexivity.
    + apply binary_round_aux_opp.
Qed.

Lemma trunc_opp x : Py.trunc (SFopp x) = rbind (Py.trunc x) (fun v => Return (- v)).
Proof.
  destruct x as [s|s| |s m e]; try reflexivity.
  cbn [SFopp Py.trunc rbind]. f_equal. destruct s; cbn [negb]; lia.
Qed.

Lemma is_infinity_opp x : Py.is_infinity (SFopp x) = Py.is_infinity x.
Proof. destruct x; reflexivity. Qed.

(** [int(-n * c) = -int(n * c)]: rounding and truncation are symmetric. *)
Lemma int_of_product_opp p m e :
  Py.int_of_product (Z.neg p) (S754_finite false m e)
  = rbind (Py.int_of_product (Z.pos p) (S754_finite false m e))
          (fun v => Return (- v)).
Proof.
  unfold Py.int_of_product, Py.int_mul_float, Py.float_of_int.
  rewrite of_int_opp, is_infinity_opp.
  destruct (Py.is_infinity (Py.of_int (Z.pos p))); [reflexivity|].
  cbn [rbind]. rewrite fmul_opp. apply trunc_opp.
Qed.

Lemma product_0_9 t :
  0 <= t < 2 ^ 48 -> Py.int_of_product t f0_9 = Return (floor_frac 9 10 t).
Proof.
  intros Ht. unfold floor_frac, f0_9.
  destruct (Z.eq_dec t 0) as [->|Hne]; [reflexivity|].
  floor_facts 9 10 t.
  assert (exists v, Py.int_of_product t (S754_finite false 8106479329266893 (-53)) = Return v
                    /\ 9 * t / 10 <= v <= 9 * t / 10) as (v & -> & Hv).
  { product_between 8106479329266893%positive (-53) (9 * t / 10) (9 * t / 10) t. }
  f_equal. lia.
Qed.

Lemma product_1_3 t :
  0 <= t < 2 ^ 48 -> Py.int_of_product t f1_3 = Return (floor_frac 13 10 t).
Proof.
  intros Ht. unfold floor_frac, f1_3.
  destruct (Z.eq_dec t 0) as [->|Hne]; [reflexivity|].
  floor_facts 13 10 t.
  assert (exists v, Py.int_of_product t (S754_finite false 5854679515581645 (-52)) = Return v
                    /\ 13 * t / 10 <= v <= 13 * t / 10) as (v & -> & Hv).
  { product_between 5854679515581645%positive (-52) (13 * t / 10) (13 * t / 10) t. }
  f_equal. lia.
Qed.

(** [int(a * 0.9)] for a negative [a]: the ceiling, not the floor. *)
Lemma product_0_9_neg t :
  - 2 ^ 48 < t < 0 ->
  Py.int_of_product t f0_9 = Return (- floor_frac 9 10 (- t)).
Proof.
  intros Ht. destruct t as [|p|p]; try lia.
  unfold f0_9. rewrite int_of_product_opp. fold f0_9.
  rewrite product_0_9 by lia. reflexivity.
Qed.

Section SafeMaxTokens.

Context {Tokenizer Model : Type}.
Variable self : Self Tokenizer Model.

Lemma safe_max_tokens_exact (prompt_tokens : Z) :
  - 2 ^ 48 < max_tokens self - prompt_tokens < 2 ^ 48 ->
  _get_safe_max_tokens self prompt_tokens
  = Return (Z.max 100
              (Z.min (floor_frac 9 10 (max_tokens self - prompt_tokens)) 8000)).
Proof.
  intros Ha. unfold _get_safe_max_tokens.
  set (a := max_tokens self - prompt_tokens) in *.
  destruct (Z_lt_le_dec a 0) as [Hneg|Hpos].
  - rewrite product_0_9_neg by lia. cbn [rbind]. f_equal.
    unfold floor_frac.
    assert (0 <= 9 * - a / 10) by (apply Z.div_pos; lia).
    assert (9 * a / 10 < 0) by (apply Z.div_lt_upper_bound; lia).
    lia.
  - rewrite product_0_9 by lia. reflexivity.
Qed.

(** X5. [_get_safe_max_tokens] on a context limit and a prompt length
    whose difference is below [2^48] in size: the result is
    [floor (0.9 * available)] clamped to the range from 100 to 8000, where
    [available = max_tokens - prompt_tokens]; the binary64 product and its
    truncation lose nothing, also when [available] is negative. *)
Theorem safe_max_tokens_value (prompt_tokens : Z) :
  let available_tokens := max_tokens self - prompt_tokens in
  - 2 ^ 48 < available_tokens < 2 ^ 48 ->
  exists safe_tokens,
    _get_safe_max_tokens self prompt_tokens = Return safe_tokens
    /\ safe_tokens
       = Z.max 100 (Z.min (floor_frac 9 10 available_tokens) 8000)
    /\ 100 <= safe_tokens <= 8000.
Proof.
  intros a Ha. eexists. split; [apply safe_max_tokens_exact; exact Ha|].
  split; [reflexivity | lia].
Qed.

(** X6. The number of tokens that [_get_safe_max_tokens] grants fits in
    what the context leaves exactly when at least 100 tokens are left, and
    keeps the reserve of one tenth exactly when at least 112 are left: below
    that the floor of 100 wins. *)
Theorem safe_max_tokens_reserve (prompt_tokens : Z) :
  let available_tokens := max_tokens self - prompt_tokens in
  - 2 ^ 48 < available_tokens < 2 ^ 48 ->
  exists safe_tokens,
    _get_safe_max_tokens self prompt_tokens = Return safe_tokens
    /\ (safe_tokens <= available_tokens <-> 100 <= available_tokens)
    /\ (10 * safe_tokens <= 9 * available_tokens <-> 112 <= available_tokens).
Proof.
  intros a Ha. eexists. split; [apply safe_max_tokens_exact; exact Ha|].
  fold a. unfold floor_frac.
  pose proof (Z.div_mod (9 * a) 10 ltac:(lia)).
  pose proof (Z.mod_pos_bound (9 * a) 10 ltac:(lia)).
  clear Ha. lia.
Qed.

End SafeMaxTokens.

(** Whitespace stripping. *)

Lemma rstrip_idempotent s : Str.rstrip (Str.rstrip s) = Str.rstrip s.
Proof.
  induction s as [|c r IH]; [reflexivity|].
  cbn [Str.rstrip]. destruct (Str.rstrip r) as [|d r'] eqn:E.
  - destruct (Str.is_space c) eqn:Ec; [reflexivity|].
    cbn [Str.rstrip]. rewrite Ec. reflexivity.
  - cbn [Str.rstrip] in *. 
    destruct (Str.rstrip r') as [|d' r''] eqn:E'.
    + destruct (Str.is_space d) eqn:Ed; [discriminate|]. 
      rewrite IH. reflexivity.
    + rewrite IH. reflexivity.
Qed.

Lemma lstrip_not_blank s : starts_blank (Str.lstrip s) = false.
Proof.
  induction s as [|c r IH]; [reflexivity|].
  cbn [Str.lstrip]. destruct (Str.is_space c) eqn:Ec; [exact IH|].
  cbn [starts_blank]. exact Ec.
Qed.

Lemma lstrip_fixed s : starts_blank s = false -> Str.lstrip s = s.
Proof. destruct s as [|c r]; [reflexivity|]. cbn. intros ->. reflexivity. Qed.

Lemma rstrip_not_blank s : starts_blank s = false -> starts_blank (Str.rstrip s) = false.
Proof.
  destruct s as [|c r]; [reflexivity|]. cbn [starts_blank Str.rstrip]. intros Ec.
  destruct (Str.rstrip r); [rewrite Ec|]; cbn [starts_blank]; exact Ec.
Qed.

Lemma strip_fixed s :
  Str.lstrip (Str.strip s) = Str.strip s /\ Str.rstrip (Str.strip s) = Str.strip s.
Proof.
  unfold Str.strip. split.
  - apply lstrip_fixed, rstrip_not_blank, lstrip_not_blank.
  - apply rstrip_idempotent.
Qed.

(** The estimate [len(prompt.split()) * 1.3] and its integer part. *)
Lemma prompt_tokens_estimate words :
  0 <= words < 2 ^ 48 ->
  exists prompt_tokens,
    Py.int_mul_float words f1_3 = Return prompt_tokens
    /\ Py.trunc prompt_tokens = Return (floor_frac 13 10 words).
Proof.
  intros Hw. pose proof (product_1_3 words Hw) as H.
  unfold Py.int_of_product in H.
  destruct (Py.int_mul_float words f1_3) as [pt|e]; [|discriminate].
  exists pt. split; [reflexivity | exact H].
Qed.

Section GenerateWithApi.

Context {Tokenizer Model : Type}.
Variable chat : Client -> string -> string -> Z -> nat -> Result string.
Variable self : Self Tokenizer Model.
Variable client : Client.
Variable name : string.
Hypothesis has_client : openai_client self = Some client.
Hypothesis has_name : model_name self = Some name.

(** X7. [_generate_with_api] on an object with a client, for a prompt of
    fewer than [2^48] words and, when the caller gives no limit, a context
    limit within [2^48] of the estimate: it writes one log record, makes
    exactly one
    completion request and returns the answer stripped, or raises what the
    request raises. The prompt is estimated at [floor (1.3 * words)] tokens;
    the limit of the request is the caller's [max_tokens] when given, and
    otherwise [floor (0.9 * (context limit - estimate))] clamped to the
    range from 100 to 8000. *)
Theorem generate_with_api_request (prompt : string) (limit : option Z) (st : State) :
  let words := Z.of_nat (length (Str.split_ws prompt)) in
  words < 2 ^ 48 ->
  (limit = None ->
   - 2 ^ 48 < max_tokens self - floor_frac 13 10 words < 2 ^ 48) ->
  _generate_with_api chat self prompt limit st
  = (match chat client name prompt (api_limit self prompt limit) (requests st) with
     | Return content => Done (Str.strip content)
     | Raise e => Failed (Exn e)
     end,
     {| requests := S (requests st);
        notices := (notices st
                    ++ [(INFO, GeneratingApi (api_limit self prompt limit)
                                 (floor_frac 13 10 words))])%list |}).
Proof.
  intros words Hw Hlimit.
  destruct (prompt_tokens_estimate words ltac:(lia)) as (pt & Ept & Etr).
  unfold _generate_with_api. fold words.
  unfold gbind at 1, glift at 1. rewrite Ept.
  assert (Elim : forall st0,
             (match limit with
              | Some limit0 => gret limit0
              | None => let! estimate := glift (Py.trunc pt) in
                        glift (_get_safe_max_tokens self estimate)
              end) st0 = (Done (api_limit self prompt limit), st0)).
  { intros st0. destruct limit as [m|]; [reflexivity|].
    unfold gbind, glift. rewrite Etr.
    rewrite safe_max_tokens_exact by (apply Hlimit; reflexivity).
    reflexivity. }
  unfold gbind at 1. rewrite Elim.
  unfold gbind at 1, glift at 1. rewrite Etr.
  unfold gbind at 1, info at 1.
  unfold gbind at 1, attr at 1. rewrite has_client.
  unfold gbind at 1, attr at 1. rewrite has_name.
  unfold gbind, request, gret. cbn [requests notices].
  destruct (chat client name prompt _ (requests st)); reflexivity.
Qed.

End GenerateWithApi.

Section GenerateWithLocalModel.

Context {Tokenizer Model : Type}.
Variable encode : Tokenizer -> string -> list Z.
Variable generate : Model -> Tokenizer -> list Z -> Z -> nat -> Result (list Z).
Variable decode : Tokenizer -> list Z -> string.
Variable self : Self Tokenizer Model.
Variable loaded_tokenizer : Tokenizer.
Variable loaded_model : Model.
Hypothesis has_tokenizer : tokenizer self = Some loaded_tokenizer.
Hypothesis has_model : model self = Some loaded_model.

(** X8. [_generate_with_local_model] on an object with a tokenizer and a
    model (when the caller gives no limit, for a context limit within
    [2^48] of the prompt length): it writes one log record, asks the model
    once and returns the
    decoded output without its first [len(prompt)] characters, stripped, or
    raises what the model raises. The limit of new tokens is the caller's
    [max_tokens] when given, and otherwise
    [floor (0.9 * (context limit - prompt length))] clamped to the range
    from 100 to 8000. *)
Theorem generate_with_local_model_request (prompt : string) (limit : option Z)
    (st : State) :
  let input_ids := encode loaded_tokenizer prompt in
  let prompt_length := Z.of_nat (length input_ids) in
  (limit = None -> - 2 ^ 48 < max_tokens self - prompt_length < 2 ^ 48) ->
  _generate_with_local_model encode generate decode self prompt limit st
  = (match generate loaded_model loaded_tokenizer input_ids
             (local_limit self prompt_length limit) (requests st) with
     | Return outputs =>
         Done (Str.strip (Str.drop (String.length prompt)
                            (decode loaded_tokenizer outputs)))
     | Raise e => Failed (Exn e)
     end,
     {| requests := S (requests st);
        notices := (notices st
                    ++ [(INFO, GeneratingLocal
                                 (local_limit self prompt_length limit)
                                 prompt_length)])%list |}).
Proof.
  intros input_ids prompt_length Hlimit.
  unfold _generate_with_local_model.
  unfold gbind at 1, attr at 1. rewrite has_tokenizer.
  unfold gbind at 1, attr at 1. rewrite has_model.
  fold input_ids. fold prompt_length.
  assert (Elim : forall st0,
             (match limit with
              | Some limit0 => gret limit0
              | None => glift (_get_safe_max_tokens self prompt_length)
              end) st0 = (Done (local_limit self prompt_length limit), st0)).
  { intros st0. destruct limit as [m|]; [reflexivity|].
    unfold glift. rewrite safe_max_tokens_exact by (apply Hlimit; reflexivity).
    reflexivity. }
  unfold gbind at 1. rewrite Elim.
  unfold gbind at 1, info at 1.
  unfold gbind, request, gret. cbn [requests notices].
  destruct (generate loaded_model loaded_tokenizer input_ids _ (requests st));
    reflexivity.
Qed.

End GenerateWithLocalModel.

Section GenerateText.

Context {Tokenizer Model : Type}.
Variable encode : Tokenizer -> string -> list Z.
Variable generate : Model -> Tokenizer -> list Z -> Z -> nat -> Result (list Z).
Variable decode : Tokenizer -> list Z -> string.
Variable chat : Client -> string -> string -> Z -> nat -> Result string.

(** X9. Whatever [_generate_text] returns, on either path, has no blank
    character at its start or at its end. *)
Theorem generate_text_stripped
    (self : Self Tokenizer Model) (prompt : string) (max_tokens : Z)
    (st st' : State) (text : string) :
  _generate_text encode generate decode chat self prompt max_tokens st
  = (Done text, st') ->
  Str.lstrip text = text /\ Str.rstrip text = text.
Proof.
  unfold _generate_text, _generate_with_local_model, _generate_with_api.
  intros H.
  assert (Hs : exists raw, text = Str.strip raw); [|destruct Hs as (raw & ->); apply strip_fixed].
  destruct (LOCAL_MODEL_IDS !! model_type self).
  - unfold gbind, attr, glift, gret, info, request in H.
    destruct (tokenizer self); [|discriminate].
    destruct (model self); [|discriminate].
    cbn [requests notices] in H.
    destruct (generate _ _ _ _ _); [|discriminate].
    injection H as <- _. eauto.
  - unfold gbind, attr, glift, gret, info, request in H.
    destruct (Py.int_mul_float _ _) as [pt|]; [|discriminate].
    destruct (Py.trunc pt); [|discriminate].
    destruct (openai_client self); [|discriminate].
    destruct (model_name self); [|discriminate].
    cbn [requests notices] in H.
    destruct (chat _ _ _ _ _); [|discriminate].
    injection H as <- _. eauto.
Qed.

End GenerateText.

Lemma model_limits_range :
  map_Forall (fun _ limit => 4096 <= limit <= 128000) MODEL_LIMITS.
Proof.
  intros k limit H. unfold MODEL_LIMITS in H.
  apply elem_of_list_to_map_2 in H.
  repeat (apply elem_of_cons in H as [H|H]; [injection H as _ ->; lia|]).
  apply elem_of_nil in H. destruct H.
Qed.

Lemma is_provider_spec name api_provider :
  is_provider name api_provider = true <-> api_provider = Some name.
Proof.
  destruct api_provider as [p|]; cbn; [|split; discriminate].
  rewrite String.eqb_eq. split; congruence.
Qed.

Section Init.

Variable getenv : string -> option string.
Context {Tokenizer Model : Type}.
Variable tokenizer_from_pretrained : string -> Result Tokenizer.
Variable model_from_pretrained : string -> Result Model.

Local Abbreviation init :=
  (__init__ getenv tokenizer_from_pretrained model_from_pretrained).

(** X1. The constructor on a model type that is not a local one: it
    either returns an object or raises [ValueError], and it raises exactly
    when [api_provider] is missing or empty, or is "openai" or "gemini" with
    the key of that provider missing or empty in the environment. *)
Theorem init_failure (model_type : string) (api_provider : option string)
    (custom_context : option Z) (st : State) :
  LOCAL_MODEL_IDS !! model_type = None ->
  match fst (init model_type api_provider custom_context st) with
  | Done self =>
      truthy api_provider = true
      /\ (api_provider = Some "openai" -> truthy (getenv "OPENAI_API_KEY") = true)
      /\ (api_provider = Some "gemini" -> truthy (getenv "GOOGLE_API_KEY") = true)
  | Failed e =>
      e = Exn ValueError
      /\ (truthy api_provider = false
          \/ api_provider = Some "openai" /\ truthy (getenv "OPENAI_API_KEY") = false
          \/ api_provider = Some "gemini" /\ truthy (getenv "GOOGLE_API_KEY") = false)
  end.
Proof.
  intros Hlocal. unfold __init__.
  unfold gbind at 1.
  destruct custom_context as [limit|]; cbn [gbind info gret fst snd];
    rewrite Hlocal;
    (destruct (truthy api_provider) eqn:Et; [|cbn; auto]);
    (destruct (is_provider "openai" api_provider) eqn:Eo;
     [apply is_provider_spec in Eo; subst api_provider;
      destruct (truthy (getenv "OPENAI_API_KEY")) eqn:Ek; cbn;
      [split; [reflexivity|]; split; [auto | discriminate] | auto 6]|]);
    (destruct (is_provider "gemini" api_provider) eqn:Eg;
     [apply is_provider_spec in Eg; subst api_provider;
      destruct (truthy (getenv "GOOGLE_API_KEY")) eqn:Ek; cbn;
      [split; [reflexivity|]; split; [discriminate | auto] | auto 6]|]);
    cbn; (split; [reflexivity|]);
    split; intros ->; cbn in *; discriminate.
Qed.

(** X2. What a constructed object can generate with. The words per
    minute are 130. For a local model type the tokenizer and the model are
    the loaded ones and there is no completion client. Otherwise nothing is
    loaded, and the client exists exactly for the providers "openai" and
    "gemini": it carries the non-empty key of the provider, the base URL of
    Gemini for "gemini" and none for "openai", and the model name is the
    model type. *)
Theorem init_backend (model_type : string) (api_provider : option string)
    (custom_context : option Z) (st st' : State) (self : Self Tokenizer Model) :
  init model_type api_provider custom_context st = (Done self, st') ->
  words_per_minute self = 130
  /\ Generator.model_type self = model_type
  /\ match LOCAL_MODEL_IDS !! model_type with
     | Some model_id =>
         (exists loaded, tokenizer_from_pretrained model_id = Return loaded
                         /\ tokenizer self = Some loaded)
         /\ (exists loaded, model_from_pretrained model_id = Return loaded
                            /\ model self = Some loaded)
         /\ openai_client self = None /\ model_name self = None
     | None =>
         tokenizer self = None /\ model self = None
         /\ match openai_client self with
            | Some client =>
                model_name self = Some model_type
                /\ truthy (api_key client) = true
                /\ (api_provider = Some "openai"
                    /\ api_key client = getenv "OPENAI_API_KEY"
                    /\ base_url client = None
                    \/ api_provider = Some "gemini"
                       /\ api_key client = getenv "GOOGLE_API_KEY"
                       /\ base_url client = Some GEMINI_BASE_URL)
            | None =>
                model_name self = None
                /\ api_provider <> Some "openai"
                /\ api_provider <> Some "gemini"
            end
     end.
Proof.
  unfold __init__. unfold gbind at 1.
  destruct custom_context as [limit|]; cbn [gbind info gret].
  all: destruct (LOCAL_MODEL_IDS !! model_type) as [model_id|].
  all: try (unfold gbind, info, glift, gret;
            destruct (tokenizer_from_pretrained model_id) as [t|]; [|discriminate];
            destruct (model_from_pretrained model_id) as [m|]; [|discriminate];
            intros H; injection H as <- _; cbn; eauto 10; fail).
  all: destruct (truthy api_provider) eqn:Et; [|discriminate].
  all: destruct (is_provider "openai" api_provider) eqn:Eo;
    [apply is_provider_spec in Eo;
     destruct (truthy (getenv "OPENAI_API_KEY")) eqn:Ek; [|discriminate];
     intros H; injection H as <- _; cbn; auto 10|].
  all: destruct (is_provider "gemini" api_provider) eqn:Eg;
    [apply is_provider_spec in Eg;
     destruct (truthy (getenv "GOOGLE_API_KEY")) eqn:Ek; [|discriminate];
     intros H; injection H as <- _; cbn; auto 10|].
  all: intros H; injection H as <- _; cbn.
  all: repeat split; try reflexivity.
  all: intros Ha; apply is_provider_spec in Ha; congruence.
Qed.

(** X3. The context limit of a constructed object: [custom_context] as
    given when it is given, whatever its value; otherwise the entry that
    [MODEL_LIMITS] has for the model type, or 4096 for a model type that the
    table does not list, and so a limit between 4096 and 128000. *)
Theorem init_context_limit (model_type : string) (api_provider : option string)
    (custom_context : option Z) (st st' : State) (self : Self Tokenizer Model) :
  init model_type api_provider custom_context st = (Done self, st') ->
  match custom_context with
  | Some limit => max_tokens self = limit
  | None =>
      4096 <= max_tokens self <= 128000
      /\ match MODEL_LIMITS !! model_type with
         | Some limit => max_tokens self = limit
         | None => max_tokens self = 4096
         end
  end.
Proof.
  unfold __init__. unfold gbind at 1.
  assert (Hlim : match custom_context with
                 | Some limit => True
                 | None =>
                     4096 <= default 4096 (MODEL_LIMITS !! model_type) <= 128000
                     /\ match MODEL_LIMITS !! model_type with
                        | Some limit =>
                            default 4096 (MODEL_LIMITS !! model_type) = limit
                        | None =>
                            default 4096 (MODEL_LIMITS !! model_type) = 4096
                        end
                 end).
  { destruct custom_context; [exact I|].
    destruct (MODEL_LIMITS !! model_type) as [limit|] eqn:E; cbn.
    - split; [exact (model_limits_range _ _ E) | reflexivity].
    - split; [lia | reflexivity]. }
  destruct custom_context as [limit|]; cbn [gbind info gret].
  - destruct (LOCAL_MODEL_IDS !! model_type) as [model_id|].
    + unfold gbind, info, glift, gret.
      destruct (tokenizer_from_pretrained model_id); [|discriminate].
      destruct (model_from_pretrained model_id); [|discriminate].
      intros H. injection H as <- _. reflexivity.
    + destruct (truthy api_provider); [|discriminate].
      destruct (is_provider "openai" api_provider).
      { destruct (truthy (getenv "OPENAI_API_KEY")); [|discriminate].
        intros H. injection H as <- _. reflexivity. }
      destruct (is_provider "gemini" api_provider).
      { destruct (truthy (getenv "GOOGLE_API_KEY")); [|discriminate].
        intros H. injection H as <- _. reflexivity. }
      intros H. injection H as <- _. reflexivity.
  - destruct (LOCAL_MODEL_IDS !! model_type) as [model_id|].
    + unfold gbind, info, glift, gret.
      destruct (tokenizer_from_pretrained model_id); [|discriminate].
      destruct (model_from_pretrained model_id); [|discriminate].
      intros H. injection H as <- _. exact Hlim.
    + destruct (truthy api_provider); [|discriminate].
      destruct (is_provider "openai" api_provider).
      { destruct (truthy (getenv "OPENAI_API_KEY")); [|discriminate].
        intros H. injection H as <- _. exact Hlim. }
      destruct (is_provider "gemini" api_provider).
      { destruct (truthy (getenv "GOOGLE_API_KEY")); [|discriminate].
        intros H. injection H as <- _. exact Hlim. }
      intros H. injection H as <- _. exact Hlim.
Qed.

Lemma init_local_has_no_client (model_type : string)
    (api_provider : option string) (custom_context : option Z)
    (st st' : State) (self : Self Tokenizer Model) :
  is_Some (LOCAL_MODEL_IDS !! model_type) ->
  init model_type api_provider custom_context st = (Done self, st') ->
  openai_client self = None.
Proof.
  intros (model_id & Hlocal). unfold __init__. unfold gbind at 1.
  destruct custom_context as [limit|]; cbn [gbind info gret]; rewrite Hlocal;
    unfold gbind, info, glift, gret;
    (destruct (tokenizer_from_pretrained model_id); [|discriminate]);
    (destruct (model_from_pretrained model_id); [|discriminate]);
    intros H; injection H as <- _; reflexivity.
Qed.

End Init.

Section InitBranches.

Context {Tokenizer Model : Type}.

Variable getenv : string -> option string.
Variable tokenizer_from_pretrained : string -> Result Tokenizer.
Variable model_from_pretrained : string -> Result Model.
Variable encode : Tokenizer -> string -> list Z.
Variable generate : Model -> Tokenizer -> list Z -> Z -> nat -> Result (list Z).
Variable decode : Tokenizer -> list Z -> string.
Variable chat : Client -> string -> string -> Z -> nat -> Result string.

(** X4. For a model type that is not local, a non-empty provider name
    other than "openai" and "gemini" is accepted by the constructor, and
    leaves an object without a client: every [_generate_text] on it raises
    [AttributeError] (prompts of fewer than [2^48] words). *)
Theorem unknown_provider_cannot_generate
    (model_type provider : string) (custom_context : option Z) (st : State) :
  LOCAL_MODEL_IDS !! model_type = None ->
  provider <> "" -> provider <> "openai" -> provider <> "gemini" ->
  exists self st',
    __init__ getenv tokenizer_from_pretrained model_from_pretrained
      model_type (Some provider) custom_context st = (Done self, st')
    /\ forall prompt max_tokens st0,
        Z.of_nat (length (Str.split_ws prompt)) < 2 ^ 48 ->
        fst (_generate_text encode generate decode chat self prompt
               max_tokens st0)
        = Failed (AttributeError "openai_client").
Proof.
  intros Hlocal Hne Ho Hg.
  assert (Et : truthy (Some provider) = true)
    by (destruct provider; [congruence | reflexivity]).
  assert (Eo : is_provider "openai" (Some provider) = false).
  { destruct (is_provider "openai" (Some provider)) eqn:E; [|reflexivity].
    apply is_provider_spec in E. congruence. }
  assert (Eg : is_provider "gemini" (Some provider) = false).
  { destruct (is_provider "gemini" (Some provider)) eqn:E; [|reflexivity].
    apply is_provider_spec in E. congruence. }
  assert (Einit : exists self st',
             __init__ getenv tokenizer_from_pretrained model_from_pretrained
               model_type (Some provider) custom_context st = (Done self, st')
             /\ Generator.model_type self = model_type
             /\ openai_client self = None).
  { unfold __init__. unfold gbind at 1.
    destruct custom_context as [limit|]; cbn [gbind info gret];
      rewrite Hlocal, Et, Eo, Eg; eexists _, _; split; try reflexivity;
      split; reflexivity. }
  destruct Einit as (self & st' & Einit & Hmodel & Hclient).
  exists self, st'. split; [exact Einit|].
  intros prompt m st0 Hw.
  unfold _generate_text. rewrite Hmodel, Hlocal.
  unfold _generate_with_api.
  destruct (prompt_tokens_estimate (Z.of_nat (length (Str.split_ws prompt)))
              ltac:(lia)) as (pt & Ept & Etr).
  unfold gbind, glift, gret, info, attr. rewrite Ept, Etr, Hclient. reflexivity.
Qed.

End InitBranches.


(** Instances. *)

Lemma init_failure_witness :
  LOCAL_MODEL_IDS !! "gpt-4" = None
  /\ fst (__init__ no_environment load_unit load_unit "gpt-4" (Some "openai")
            None initial_state)
     = Failed (Exn ValueError).
Proof.
  assert (H : LOCAL_MODEL_IDS !! "gpt-4" = None) by (vm_compute; reflexivity).
  split; [exact H|].
  pose proof (init_failure no_environment load_unit load_unit "gpt-4"
                (Some "openai") None initial_state H) as W.
  destruct (fst (__init__ no_environment load_unit load_unit "gpt-4"
                   (Some "openai") None initial_state)) as [self|e].
  - destruct W as (_ & Hkey & _). specialize (Hkey eq_refl). discriminate Hkey.
  - destruct W as (-> & _). reflexivity.
Defined.

Lemma init_backend_witness :
  exists self st',
    __init__ openai_environment load_unit load_unit "gpt-4" (Some "openai")
      None initial_state = (Done self, st')
    /\ words_per_minute self = 130
    /\ model_type self = "gpt-4".
Proof.
  destruct (__init__ openai_environment load_unit load_unit "gpt-4"
              (Some "openai") None initial_state) as [[self|e] st'] eqn:E;
    [|vm_compute in E; discriminate E].
  exists self, st'. split; [reflexivity|].
  pose proof (init_backend openai_environment load_unit load_unit "gpt-4"
                (Some "openai") None initial_state st' self E) as (W1 & W2 & _).
  split; [exact W1 | exact W2].
Defined.

Lemma init_context_limit_witness :
  exists self st',
    __init__ openai_environment load_unit load_unit "gpt-4-turbo"
      (Some "openai") None initial_state = (Done self, st')
    /\ max_tokens self = 128000.
Proof.
  destruct (__init__ openai_environment load_unit load_unit "gpt-4-turbo"
              (Some "openai") None initial_state) as [[self|e] st'] eqn:E;
    [|vm_compute in E; discriminate E].
  exists self, st'. split; [reflexivity|].
  pose proof (init_context_limit openai_environment load_unit load_unit
                "gpt-4-turbo" (Some "openai") None initial_state st' self E)
    as [_ H].
  assert (L : MODEL_LIMITS !! "gpt-4-turbo" = Some 128000)
    by (vm_compute; reflexivity).
  rewrite L in H. exact H.
Defined.

Lemma unknown_provider_cannot_generate_witness :
  LOCAL_MODEL_IDS !! "my-model" = None
  /\ "azure" <> "" /\ "azure" <> "openai" /\ "azure" <> "gemini"
  /\ exists self st',
      __init__ no_environment load_unit load_unit "my-model" (Some "azure")
        None initial_state = (Done self, st')
      /\ forall prompt max_tokens st0,
          Z.of_nat (length (Str.split_ws prompt)) < 2 ^ 48 ->
          fst (_generate_text encode_words generate_nothing decode_padded
                 chat_padded self prompt max_tokens st0)
          = Failed (AttributeError "openai_client").
Proof.
  assert (H1 : LOCAL_MODEL_IDS !! "my-model" = None) by (vm_compute; reflexivity).
  assert (H2 : "azure" <> "") by discriminate.
  assert (H3 : "azure" <> "openai") by discriminate.
  assert (H4 : "azure" <> "gemini") by discriminate.
  split; [exact H1|]. split; [exact H2|]. split; [exact H3|]. split; [exact H4|].
  exact (unknown_provider_cannot_generate no_environment load_unit load_unit
           encode_words generate_nothing decode_padded chat_padded
           "my-model" "azure" None initial_state H1 H2 H3 H4).
Defined.

Lemma safe_max_tokens_value_witness :
  - 2 ^ 48 < max_tokens api_self - 1000 < 2 ^ 48
  /\ exists safe_tokens,
      _get_safe_max_tokens api_self 1000 = Return safe_tokens
      /\ safe_tokens
         = Z.max 100 (Z.min (floor_frac 9 10 (max_tokens api_self - 1000)) 8000)
      /\ 100 <= safe_tokens <= 8000.
Proof.
  assert (H : - 2 ^ 48 < max_tokens api_self - 1000 < 2 ^ 48)
    by (split; reflexivity).
  split; [exact H|]. exact (safe_max_tokens_value api_self 1000 H).
Defined.

Lemma safe_max_tokens_reserve_witness :
  - 2 ^ 48 < max_tokens api_self - 8150 < 2 ^ 48
  /\ exists safe_tokens,
      _get_safe_max_tokens api_self 8150 = Return safe_tokens
      /\ (safe_tokens <= max_tokens api_self - 8150
          <-> 100 <= max_tokens api_self - 8150)
      /\ (10 * safe_tokens <= 9 * (max_tokens api_self - 8150)
          <-> 112 <= max_tokens api_self - 8150).
Proof.
  assert (H : - 2 ^ 48 < max_tokens api_self - 8150 < 2 ^ 48)
    by (split; reflexivity).
  split; [exact H|]. exact (safe_max_tokens_reserve api_self 8150 H).
Defined.

Lemma generate_with_api_request_witness :
  openai_client api_self = Some test_client
  /\ model_name api_self = Some "gpt-4"
  /\ Z.of_nat (length (Str.split_ws "Say hi.")) < 2 ^ 48
  /\ - 2 ^ 48
     < max_tokens api_self
       - floor_frac 13 10 (Z.of_nat (length (Str.split_ws "Say hi.")))
     < 2 ^ 48
  /\ _generate_with_api chat_padded api_self "Say hi." None initial_state
     = (Done "Hi!",
        {| requests := 1; notices := [(INFO, GeneratingApi 7371 2)] |}).
Proof.
  assert (H1 : openai_client api_self = Some test_client) by reflexivity.
  assert (H2 : model_name api_self = Some "gpt-4") by reflexivity.
  assert (H3 : Z.of_nat (length (Str.split_ws "Say hi.")) < 2 ^ 48)
    by reflexivity.
  assert (H4 : - 2 ^ 48
               < max_tokens api_self
                 - floor_frac 13 10 (Z.of_nat (length (Str.split_ws "Say hi.")))
               < 2 ^ 48) by (split; reflexivity).
  split; [exact H1|]. split; [exact H2|]. split; [exact H3|]. split; [exact H4|].
  rewrite (generate_with_api_request chat_padded api_self test_client "gpt-4"
             H1 H2 "Say hi." None initial_state H3 (fun _ => H4)).
  vm_compute. reflexivity.
Defined.

Lemma generate_with_local_model_request_witness :
  tokenizer local_self = Some tt
  /\ model local_self = Some tt
  /\ - 2 ^ 48
     < max_tokens local_self - Z.of_nat (length (encode_words tt "Say hi."))
     < 2 ^ 48
  /\ _generate_with_local_model encode_words generate_nothing decode_padded
       local_self "Say hi." None initial_state
     = (Done "Hi!",
        {| requests := 1; notices := [(INFO, GeneratingLocal 8000 2)] |}).
Proof.
  assert (H1 : tokenizer local_self = Some tt) by reflexivity.
  assert (H2 : model local_self = Some tt) by reflexivity.
  assert (H3 : - 2 ^ 48
               < max_tokens local_self
                 - Z.of_nat (length (encode_words tt "Say hi."))
               < 2 ^ 48) by (split; reflexivity).
  split; [exact H1|]. split; [exact H2|]. split; [exact H3|].
  rewrite (generate_with_local_model_request encode_words generate_nothing
             decode_padded local_self tt tt H1 H2 "Say hi." None initial_state
             (fun _ => H3)).
  vm_compute. reflexivity.
Defined.

Lemma generate_text_stripped_witness :
  _generate_text encode_words generate_nothing decode_padded chat_padded
    api_self "Say hi." 1000 initial_state
  = (Done "Hi!", {| requests := 1; notices := [(INFO, GeneratingApi 1000 2)] |})
  /\ Str.lstrip "Hi!" = "Hi!" /\ Str.rstrip "Hi!" = "Hi!".
Proof.
  assert (H : _generate_text encode_words generate_nothing decode_padded
                chat_padded api_self "Say hi." 1000 initial_state
              = (Done "Hi!",
                 {| requests := 1; notices := [(INFO, GeneratingApi 1000 2)] |}))
    by (vm_compute; reflexivity).
  split; [exact H|].
  exact (generate_text_stripped encode_words generate_nothing decode_padded
           chat_padded api_self "Say hi." 1000 initial_state _ "Hi!" H).
Defined.

End GeneratorFacts.

(** ** More of the pipeline *)

(** When the introduction call raises, the body of the [try] raises with
    [full_content] unbound. *)
Lemma generate_sections_first_call_fails
    count_words provider structure_data cleaned_text section_words
    include_examples target_words min_words max_words w :
  (forall request, exists e, provider (calls w) request = Raise e) ->
  full_content w = None ->
  exists e w',
    generate_sections count_words provider structure_data cleaned_text
      section_words include_examples target_words min_words max_words w
    = (Raise e, w')
    /\ full_content w' = None.
Proof.
  intros Hprov Hfc. unfold generate_sections.
  unfold bind at 1. rewrite logger_spec.
  unfold bind at 1. unfold _generate_section at 1.
  unfold bind at 1. rewrite logger_spec.
  unfold bind at 1, create at 1. cbn [calls add_log].
  match goal with
  | |- context [provider (calls w) ?r] => destruct (Hprov r) as (e & ->)
  end.
  eexists _, _. split; [reflexivity|]. exact Hfc.
Qed.

Lemma run_without_answers
    (clean_text : string -> string) (count_words : string -> Z)
    (json_loads : string -> Decoding Structure.t)
    (provider : nat -> Request -> Result string) (words_per_minute : Z)
    (text : string) (target_duration : Z) (include_examples : bool) (w : World) :
  (forall n request, exists e, provider n request = Raise e) ->
  exists e w',
    transform_to_lecture clean_text count_words json_loads provider
      words_per_minute text target_duration include_examples w
    = (Raise e, w').
Proof.
  intros Hprov. unfold transform_to_lecture.
  unfold bind at 1. cbn [unbind_full_content].
  set (w0 := {| calls := calls w; log := log w; full_content := None |}).
  unfold bind at 1. rewrite logger_spec.
  unfold bind at 1. rewrite logger_spec.
  unfold bind at 1, lift at 1.
  destruct (target_word_counts words_per_minute target_duration)
    as [[[target_words min_words] max_words]|e]; [|eauto].
  unfold bind at 1. rewrite logger_spec.
  unfold bind at 1.
  match goal with
  | |- context [_generate_detailed_structure ?a ?b ?c ?d ?w1] =>
      pose proof (keeps_planner a b c d w1) as K1;
      destruct (_generate_detailed_structure a b c d w1) as [[structure_data|e] w2];
      cbn [snd] in K1
  end; [|eauto].
  unfold bind at 1. rewrite logger_spec.
  unfold bind at 1. rewrite logger_spec.
  unfold bind at 1, lift at 1.
  destruct (section_quotas target_words) as [section_words|e]; [|eauto].
  unfold try_except.
  match goal with
  | |- context [generate_sections ?a ?b ?c ?d ?e ?f ?g ?h ?i ?w3] =>
      destruct (generate_sections_first_call_fails a b c d e f g h i w3)
        as (e' & w4 & -> & Hfc4)
  end.
  { intros request. apply Hprov. }
  { cbn. exact K1. }
  unfold on_generation_error. unfold bind at 1. rewrite logger_spec.
  unfold bind, lookup_full_content. cbn [add_log full_content]. rewrite Hfc4.
  eauto.
Qed.


Section LocalModel.

Variable getenv : string -> option string.
Context {Tokenizer Model : Type}.
Variable tokenizer_from_pretrained : string -> Result Tokenizer.
Variable model_from_pretrained : string -> Result Model.
Variable completions : Generator.Client -> nat -> Request -> Result string.
Variable clean_text : string -> string.
Variable count_words : string -> Z.
Variable json_loads : string -> Decoding Structure.t.

(** X11. A transformer that the constructor builds for one of the local
    models has no completion client, and [transform_to_lecture] asks
    nothing else for text: on such an object every run raises. *)
Theorem local_model_cannot_transform
    (model_type : string) (api_provider : option string)
    (custom_context : option Z) (st st' : Generator.State)
    (self : Generator.Self Tokenizer Model)
    (text : string) (target_duration : Z) (include_examples : bool) (w : World) :
  is_Some (Generator.LOCAL_MODEL_IDS !! model_type) ->
  Generator.__init__ getenv tokenizer_from_pretrained model_from_pretrained
    model_type api_provider custom_context st = (Generator.Done self, st') ->
  exists e w',
    transform_to_lecture clean_text count_words json_loads
      (pipeline_provider (Generator.openai_client self) completions)
      (Generator.words_per_minute self) text target_duration include_examples w
    = (Raise e, w').
Proof.
  intros Hlocal Hinit.
  rewrite (GeneratorFacts.init_local_has_no_client getenv
             tokenizer_from_pretrained model_from_pretrained
             model_type api_provider custom_context st st' self Hlocal Hinit).
  apply run_without_answers.
  intros n request. exists ProviderError. reflexivity.
Qed.

End LocalModel.

(** The quotas of the topics add up. *)

Lemma quota_sum_bounds q T (quota duration : Topic.t -> Z) topics :
  0 < T ->
  (forall t, In t topics ->
             q * duration t / T - 1 <= quota t <= q * duration t / T) ->
  T * sum (map quota topics) <= q * sum (map duration topics)
  /\ q * sum (map duration topics)
     < T * (sum (map quota topics) + 2 * Z.of_nat (length topics))
       + match topics with [] => 1 | _ => 0 end.
Proof.
  intros HT. induction topics as [|t rest IH]; intros H.
  - unfold sum; cbn. lia.
  - cbn [map length]. rewrite !sum_cons.
    destruct (H t ltac:(left; reflexivity)) as (Hlo & Hhi).
    destruct IH as (IH1 & IH2); [intros t' Ht'; apply H; right; exact Ht'|].
    pose proof (Z.mul_div_le (q * duration t) T HT) as D1.
    pose proof (Z.mul_succ_div_gt (q * duration t) T HT) as D2.
    unfold Z.succ in D2.
    set (f := q * duration t / T) in *.
    set (Sq := sum (map quota rest)) in *.
    set (Sd := sum (map duration rest)) in *.
    assert (E : Z.of_nat (S (length rest)) = Z.of_nat (length rest) + 1) by lia.
    rewrite E. set (n := Z.of_nat (length rest)) in *.
    assert (A1 : T * quota t <= T * f) by (apply Z.mul_le_mono_nonneg_l; lia).
    assert (A2 : T * (f - 1) <= T * quota t) by (apply Z.mul_le_mono_nonneg_l; lia).
    assert (A3 : q * Sd < T * (Sq + 2 * n) + 1) by (destruct rest; lia).
    clear IH2 H Hlo Hhi E. split; [lia|]. lia.
Qed.

(** X16. The quotas of the first loop of [_generate_main_content] add up
    to no more than the words of the main section, and fall short of them
    by less than two words per topic (a non-negative word count,
    non-negative durations with a positive total, distinct titles,
    [target_words * total_duration] below [2^51]). *)
Theorem topic_quotas_within_budget (target_words : Z) (topics : list Topic.t)
    (topic_words : gmap string Z) :
  let total_duration := sum (map Topic.duration_minutes topics) in
  0 <= target_words ->
  (forall topic, In topic topics -> 0 <= Topic.duration_minutes topic) ->
  0 < total_duration < 2 ^ 51 ->
  target_words * total_duration < 2 ^ 51 ->
  NoDup (map Topic.title topics) ->
  allocate_topics target_words total_duration topics ∅ = Return topic_words ->
  target_words - 2 * Z.of_nat (length topics)
  < sum (quotas_of topic_words topics) <= target_words.
Proof.
  intros T Hq Hdur HT HqT Hnd Halloc.
  destruct (allocate_topics_spec target_words T
              (fun t v => target_words * Topic.duration_minutes t / T - 1 <= v
                          <= target_words * Topic.duration_minutes t / T) topics)
    with (m0 := (∅ : gmap string Z)) as (tw & Etw & Htw).
  { intros t Ht. apply topic_quota_bounds; try assumption.
    split; [apply Hdur; exact Ht|].
    apply sum_member_le.
    - intros y Hy. apply in_map_iff in Hy as (t' & <- & Ht'). apply Hdur. exact Ht'.
    - apply in_map. exact Ht. }
  rewrite Halloc in Etw. injection Etw as <-.
  destruct (quota_sum_bounds target_words T
              (fun topic => default 0 (topic_words !! Topic.title topic))
              Topic.duration_minutes topics ltac:(lia)) as (B1 & B2).
  { intros t Ht.
    destruct (Htw (Topic.title t)) as [(t' & v & Hin & Heq & Rv & L)|(Hnone & _)].
    - assert (t' = t) as -> by (eapply NoDup_map_inj; eauto).
      rewrite L. exact Rv.
    - exfalso. exact (Hnone t Ht eq_refl). }
  fold (quotas_of topic_words topics) in B1, B2. fold T in B1, B2.
  assert (Hne : match topics with [] => 1 | _ => 0 end = 0).
  { destruct topics; [|reflexivity]. unfold T, sum in HT. cbn in HT. lia. }
  rewrite Hne in B2.
  set (Sq := sum (quotas_of topic_words topics)) in *.
  set (n := Z.of_nat (length topics)) in *.
  clear - B1 B2 HT. nia.
Qed.

(** X19. On the bounds that [transform_to_lecture] computes for a target
    of at least 5 words (and below [2^48]), [_validate_word_count] returns
    without a call, and logs nothing exactly when the total is within
    [min_words] and [max_words]; the target itself is always within them. *)
Theorem validator_silent_on_window
    (words_per_minute target_duration total_words : Z) (w : World) :
  let target_words := words_per_minute * target_duration in
  5 <= target_words < 2 ^ 48 ->
  0 <= total_words < 2 ^ 52 ->
  exists min_words max_words w',
    target_word_counts words_per_minute target_duration
    = Return (target_words, min_words, max_words)
    /\ _validate_word_count total_words target_words min_words max_words w
       = (Return tt, w')
    /\ calls w' = calls w
    /\ (log w' = log w <-> min_words <= total_words <= max_words)
    /\ min_words <= target_words <= max_words.
Proof.
  intros target Ht Htotal.
  unfold target_word_counts. fold target.
  rewrite product_0_95, product_1_05 by lia. cbn [rbind].
  unfold floor_frac.
  set (min_words := 95 * target / 100).
  set (max_words := 105 * target / 100).
  pose proof (Z.div_mod (95 * target) 100 ltac:(lia)) as D1.
  pose proof (Z.mod_pos_bound (95 * target) 100 ltac:(lia)) as D2.
  pose proof (Z.div_mod (105 * target) 100 ltac:(lia)) as D3.
  pose proof (Z.mod_pos_bound (105 * target) 100 ltac:(lia)) as D4.
  fold min_words in D1. fold max_words in D3.
  destruct (deviation_gt_threshold (Z.abs (total_words - target)) target)
    as (deviation & Ediv & Hgt).
  { change (2 ^ 52) with 4503599627370496 in *.
    change (2 ^ 48) with 281474976710656 in *. lia. }
  { change (2 ^ 52) with 4503599627370496 in *.
    change (2 ^ 48) with 281474976710656 in *. lia. }
  unfold _validate_word_count, bind, lift.
  rewrite Ediv. unfold LARGE_DEVIATION_THRESHOLD. rewrite Hgt.
  exists min_words, max_words.
  assert (Hlog : forall r, log (add_log w [r]) <> log w).
  { intros r H. cbn in H. apply (f_equal (@length _)) in H.
    rewrite length_app in H. cbn in H. lia. }
  destruct (Z.ltb_spec target (5 * Z.abs (total_words - target))) as [Hbig|Hsmall].
  - eexists. split; [reflexivity|]. split; [apply logger_spec|].
    split; [reflexivity|]. split; [|clear - D1 D2 D3 D4 Ht; lia].
    split; [intros H; exfalso; exact (Hlog _ H)|].
    intros Hin. exfalso. clear - Hbig Hin D1 D2 D3 D4 Ht. lia.
  - destruct ((total_words <? min_words) || (total_words >? max_words)) eqn:Eout.
    + eexists. split; [reflexivity|]. split; [apply logger_spec|].
      split; [reflexivity|]. split; [|clear - D1 D2 D3 D4 Ht; lia].
      split; [intros H; exfalso; exact (Hlog _ H)|].
      intros Hin. exfalso. apply orb_true_iff in Eout.
      destruct Eout as [E|E]; [apply Z.ltb_lt in E | apply Z.gtb_lt in E];
        clear - E Hin; lia.
    + eexists. split; [reflexivity|]. split; [reflexivity|].
      split; [reflexivity|]. split; [|clear - D1 D2 D3 D4 Ht; lia].
      split; [intros _|reflexivity].
      apply orb_false_iff in Eout. destruct Eout as (E1 & E2).
      apply Z.ltb_ge in E1. rewrite Z.gtb_ltb in E2. apply Z.ltb_ge in E2.
      clear - E1 E2. lia.
Qed.

(** Below 5 words the window and the threshold disagree: 3 words for a
    target of 4 are within the bounds and 25 percent off. *)
Example small_target_is_flagged_inside_the_window :
  target_word_counts 1 4 = Return (4, 3, 4)
  /\ exists deviation,
      _validate_word_count 3 4 3 4 initial_world
      = (Return tt,
         add_log initial_world
           [(ERROR, WordCountSignificantlyOutside 3 3 4 deviation)]).
Proof. split; [vm_compute; reflexivity|]. eexists. vm_compute. reflexivity. Qed.

(** The durations of the line-oriented tier. *)

Lemma product_0_7_nonneg t :
  0 <= t < 2 ^ 48 ->
  exists v, Py.int_of_product t Py.f0_7 = Return v
            /\ 0 <= v /\ floor_frac 7 10 t - 1 <= v <= floor_frac 7 10 t.
Proof.
  intros Ht. destruct (product_0_7 t Ht) as (v & Ev & Hv).
  exists v. split; [exact Ev|]. split; [|exact Hv].
  destruct (Z.eq_dec t 0) as [->|Hne].
  { vm_compute in Ev. injection Ev as <-. lia. }
  unfold Py.f0_7 in Ev.
  assert (exists v', Py.int_of_product t (S754_finite false 6305039478318694 (-53)) = Return v'
                     /\ 0 <= v' <= 7 * t / 10) as (v' & Ev' & Hv').
  { floor_facts 7 10 t.
    product_between 6305039478318694%positive (-53) 0 (7 * t / 10) t. }
  rewrite Ev in Ev'. injection Ev' as <-. lia.
Qed.

Lemma sum_constant {A} (f : A -> Z) (c : Z) (l : list A) :
  (forall x, In x l -> f x = c) -> sum (map f l) = c * Z.of_nat (length l).
Proof.
  induction l as [|x l IH]; intros H; [unfold sum; cbn; lia|].
  cbn [map length]. rewrite sum_cons, IH, (H x).
  - lia.
  - left; reflexivity.
  - intros y Hy. apply H. right. exact Hy.
Qed.

(** X14. The line-oriented tier on an answer of five non-blank lines or
    more, for a duration from 0 to below [2^48] minutes: the structure has
    one to three topics, each with itself as only key concept and with the
    same duration [int(target_duration * 0.7) // len(topics)], and the
    durations add up to no more than 70 percent of the target duration. *)
Theorem fallback_equal_shares (provider : nat -> Request -> Result string)
    (text : string) (target_duration : Z) (w : World) (content : string) :
  provider (calls w) (fallback_request text) = Return content ->
  (5 <= length (response_lines content))%nat ->
  0 <= target_duration < 2 ^ 48 ->
  exists structure_data main_time,
    fst (_generate_fallback_structure provider text target_duration w)
    = Return structure_data
    /\ Py.int_of_product target_duration Py.f0_7 = Return main_time
    /\ (1 <= length (Structure.topics structure_data) <= 3)%nat
    /\ (forall topic, In topic (Structure.topics structure_data) ->
          Topic.duration_minutes topic
          = main_time / Z.of_nat (length (Structure.topics structure_data))
          /\ Topic.key_concepts topic = [Topic.title topic])
    /\ 0 <= sum (map Topic.duration_minutes (Structure.topics structure_data))
       <= floor_frac 7 10 target_duration.
Proof.
  intros Hp Hlong Hd.
  unfold _generate_fallback_structure.
  unfold bind at 1. rewrite logger_spec.
  unfold try_except, bind at 1, create.
  cbn [calls add_log]. fold (fallback_request text). rewrite Hp.
  fold (response_lines content).
  set (lines := response_lines content) in *.
  pose proof (response_lines_nonblank content) as Hnb. fold lines in Hnb.
  rewrite !filter_all by (apply Forall_slice; exact Hnb).
  assert (L3 : forall a b, (b - a <= 3)%nat ->
                           firstn 3 (slice a b lines) = slice a b lines).
  { intros a b Hab. apply firstn_all2. unfold slice.
    rewrite length_firstn. lia. }
  rewrite !L3 by lia.
  destruct (product_0_7_nonneg target_duration Hd) as (main_time & Emain & H0 & Hm).
  unfold bind at 1, lift. rewrite Emain.
  unfold bind at 1, Py.floordiv.
  assert (Hlen : (1 <= length (slice 4 7 lines) <= 3)%nat).
  { unfold slice. rewrite length_firstn, length_skipn. lia. }
  destruct (Z.eqb_spec (Z.of_nat (length (slice 4 7 lines))) 0) as [Hz|_]; [lia|].
  cbn [ret fst]. eexists _, main_time. split; [reflexivity|].
  cbn [Structure.topics]. rewrite length_map.
  split; [reflexivity|]. split; [exact Hlen|].
  set (n := Z.of_nat (length (slice 4 7 lines))) in *.
  assert (Hall : forall topic,
             In topic (map (fun topic0 =>
                              Topic.make topic0 [topic0]
                                ["Overview"; "Details"; "Examples"]
                                (main_time / n) [1]) (slice 4 7 lines)) ->
             Topic.duration_minutes topic = main_time / n
             /\ Topic.key_concepts topic = [Topic.title topic]).
  { intros topic Hin. apply in_map_iff in Hin as (line & <- & _).
    split; reflexivity. }
  split; [exact Hall|].
  rewrite (sum_constant Topic.duration_minutes (main_time / n))
    by (intros x Hx; apply Hall; exact Hx).
  rewrite length_map. fold n.
  assert (Hn : 0 < n) by lia.
  pose proof (Z.mul_div_le main_time n Hn).
  assert (0 <= main_time / n) by (apply Z.div_pos; lia).
  split; [nia | lia].
Qed.

(** The structure of the fallback tier for 0 or 1 minute: every topic gets
    no time at all. *)
Lemma fallback_outcome_short (provider : nat -> Request -> Result string)
    (text : string) (target_duration : Z) (w : World) :
  0 <= target_duration <= 1 ->
  match _generate_fallback_structure provider text target_duration w with
  | (Return structure_data, _) =>
      Structure.topics structure_data <> []
      /\ forall topic, In topic (Structure.topics structure_data) ->
                       Topic.duration_minutes topic = 0
  | (Raise _, _) => False
  end.
Proof.
  intros Hd.
  assert (Emain : Py.int_of_product target_duration Py.f0_7 = Return 0).
  { assert (target_duration = 0 \/ target_duration = 1) as [->| ->] by lia;
      vm_compute; reflexivity. }
  assert (Ehalf : target_duration / 2 = 0).
  { assert (target_duration = 0 \/ target_duration = 1) as [->| ->] by lia;
      reflexivity. }
  unfold _generate_fallback_structure.
  unfold bind at 1. rewrite logger_spec.
  unfold try_except, bind at 1, create.
  set (w1 := add_log w [(INFO, GeneratingFallback)]).
  assert (Hhard : Structure.topics (hardcoded_structure target_duration) <> []
                  /\ forall topic,
                      In topic (Structure.topics (hardcoded_structure target_duration)) ->
                      Topic.duration_minutes topic = 0).
  { split; [discriminate|]. intros topic [<-|[]]. exact Ehalf. }
  destruct (provider (calls w1) _) as [content|e]; [|exact Hhard].
  fold (response_lines content).
  unfold bind at 1, lift. rewrite Emain.
  unfold bind at 1. unfold Py.floordiv.
  set (topics := firstn 3 (List.filter nonblank (slice 4 7 (response_lines content)))).
  destruct (Z.eqb_spec (Z.of_nat (length topics)) 0) as [Hz|Hnz]; [exact Hhard|].
  cbn [ret Structure.topics]. split.
  - destruct topics; [cbn in Hnz; lia | discriminate].
  - intros topic Hin. apply in_map_iff in Hin as (line & <- & _).
    cbn [Topic.duration_minutes]. apply Z.div_0_l. exact Hnz.
Qed.

Lemma planner_outcome_short
    (provider : nat -> Request -> Result string)
    (json_loads : string -> Decoding Structure.t)
    (text : string) (target_duration : Z) (w : World) :
  0 <= target_duration <= 1 ->
  (forall n request content,
      provider n request = Return content -> undecodable json_loads content) ->
  match _generate_detailed_structure provider json_loads text target_duration w with
  | (Return planned, _) =>
      Structure.topics (planned_structure planned) <> []
      /\ forall topic, In topic (Structure.topics (planned_structure planned)) ->
                       Topic.duration_minutes topic = 0
  | (Raise _, _) => False
  end.
Proof.
  intros Hd Hun.
  pose proof (planner_run provider json_loads text target_duration w) as H.
  destruct (_generate_detailed_structure provider json_loads text target_duration w)
    as [result w'].
  cbv zeta in H.
  assert (Hfall :
    (exists w0 structure_data,
        calls w0 = S (calls w)
        /\ _generate_fallback_structure provider text target_duration w0
           = (Return structure_data, w')
        /\ result = Return (FromFallback structure_data)) ->
    match result with
    | Return planned =>
        Structure.topics (planned_structure planned) <> []
        /\ forall topic, In topic (Structure.topics (planned_structure planned)) ->
                         Topic.duration_minutes topic = 0
    | Raise _ => False
    end).
  { intros (w0 & s & _ & E & ->). cbn [planned_structure].
    pose proof (fallback_outcome_short provider text target_duration w0 Hd) as O.
    rewrite E in O. exact O. }
  destruct (provider (calls w) (structure_request text target_duration))
    as [response|e] eqn:Ep; [|exact (Hfall H)].
  pose proof (Hun _ _ _ Ep) as Hnone. unfold undecodable in Hnone.
  rewrite Hnone in H. exact (Hfall H).
Qed.

(** The first division of [_generate_main_content] by a zero total. *)
Lemma zero_total_faults
    (count_words : string -> Z) (provider : nat -> Request -> Result string)
    (structure_data : Structure.t) (original_text : string) (target_words : Z)
    (include_examples : bool) (context : Context.t) (w : World) :
  Structure.topics structure_data <> [] ->
  (forall topic, In topic (Structure.topics structure_data) ->
                 Topic.duration_minutes topic = 0) ->
  _generate_main_content count_words provider structure_data original_text
    target_words include_examples context w
  = (Raise ZeroDivisionError,
     add_log w [(INFO, GeneratingMainContent target_words)]).
Proof.
  intros Hne Hzero.
  unfold _generate_main_content.
  unfold bind at 1. rewrite logger_spec.
  rewrite (sum_zero (map Topic.duration_minutes (Structure.topics structure_data))).
  2:{ intros x Hx. apply in_map_iff in Hx as (t & <- & Ht). apply Hzero. exact Ht. }
  destruct (Structure.topics structure_data) as [|t rest] eqn:E; [congruence|].
  unfold bind at 1, lift.
  cbn [allocate_topics]. unfold allocate_topic, topic_quota.
  rewrite (Hzero t ltac:(left; reflexivity)).
  reflexivity.
Qed.

(** X15. A lecture of 0 or 1 minute, when no answer of the provider can be
    decoded as JSON and the introduction call succeeds: the fallback tier
    (from lines or hardcoded) gives every topic a duration of 0, the ratio
    of the first topic divides by the zero total, and
    [transform_to_lecture] raises [ZeroDivisionError]. *)
Theorem one_minute_lecture_faults
    (clean_text : string -> string) (count_words : string -> Z)
    (json_loads : string -> Decoding Structure.t)
    (provider : nat -> Request -> Result string) (words_per_minute : Z)
    (text : string) (target_duration : Z) (include_examples : bool) (w : World) :
  0 <= target_duration <= 1 ->
  0 <= words_per_minute < 2 ^ 48 ->
  (forall n request content,
      provider n request = Return content -> undecodable json_loads content) ->
  (forall n request, is_introduction request = true ->
                     exists content, provider n request = Return content) ->
  fst (transform_to_lecture clean_text count_words json_loads provider
         words_per_minute text target_duration include_examples w)
  = Raise ZeroDivisionError.
Proof.
  intros Hd HW Hun Hintro. unfold transform_to_lecture.
  unfold bind at 1. cbn [unbind_full_content].
  set (w0 := {| calls := calls w; log := log w; full_content := None |}).
  unfold bind at 1. rewrite logger_spec.
  unfold bind at 1. rewrite logger_spec.
  unfold bind at 1, lift at 1.
  assert (Ht : 0 <= words_per_minute * target_duration < 2 ^ 48) by nia.
  unfold target_word_counts.
  rewrite product_0_95, product_1_05 by exact Ht. cbn [rbind].
  unfold bind at 1. rewrite logger_spec.
  unfold bind at 1.
  match goal with
  | |- context [_generate_detailed_structure ?a ?b ?c ?d ?w1] =>
      pose proof (keeps_planner a b c d w1) as K1;
      pose proof (planner_outcome_short a b c d w1 Hd Hun) as P1;
      destruct (_generate_detailed_structure a b c d w1) as [[structure_data|e] w2];
      cbn [snd] in K1
  end; [|destruct P1].
  destruct P1 as (Hne & Hzero).
  unfold bind at 1. rewrite logger_spec.
  unfold bind at 1. rewrite logger_spec.
  unfold bind at 1, lift at 1.
  unfold section_quotas.
  destruct (product_0_7 _ Ht) as (main & Emain & _).
  rewrite product_0_1, Emain, product_0_15, product_0_05 by exact Ht.
  cbn [rbind sw_intro sw_main].
  unfold try_except, generate_sections.
  unfold bind at 1. rewrite logger_spec.
  unfold bind at 1.
  match goal with
  | |- context [_generate_section ?a ?b ?c ?d ?e ?f ?g ?h ?i ?j ?w3] =>
      pose proof (keeps_generate_section a b c d e f g h i j w3) as K2;
      assert (Hret : exists intro w4,
                 _generate_section a b c d e f g h i j w3 = (Return intro, w4))
  end.
  { unfold _generate_section. unfold bind at 1. rewrite logger_spec.
    unfold bind at 1, create at 1.
    match goal with
    | |- context [provider ?n ?r] =>
        destruct (Hintro n r eq_refl) as (content & ->)
    end.
    unfold bind. rewrite logger_spec. cbn [ret]. eauto. }
  destruct Hret as (intro & w4 & Eintro). rewrite Eintro in *. cbn [snd] in K2.
  unfold bind at 1. rewrite logger_spec.
  unfold bind at 1.
  rewrite zero_total_faults by assumption.
  unfold on_generation_error. unfold bind at 1. rewrite logger_spec.
  unfold bind, lookup_full_content. cbn [add_log full_content].
  rewrite K2. cbn [add_log full_content]. rewrite K1. reflexivity.
Qed.

(** The span between the braces. *)

Lemma has_char_app c a b : has_char c (a ++ b) <-> has_char c a \/ has_char c b.
Proof.
  induction a as [|d a IH]; [rewrite append_nil; cbn; tauto|].
  rewrite append_cons. cbn [has_char]. rewrite IH. tauto.
Qed.

Lemma index_of_spec c s :
  match Str.index_of c s with
  | Some i => exists pre post,
      s = pre ++ String c post /\ String.length pre = i /\ ~ has_char c pre
  | None => ~ has_char c s
  end.
Proof.
  unfold Str.index_of. induction s as [|d r IH].
  - cbn. tauto.
  - cbn [String.index String.prefix].
    destruct (Ascii.ascii_dec c d) as [->|Hne].
    + rewrite prefix_nil_l. exists "", r. cbn. tauto.
    + destruct (String.index 0 (String c "") r) as [i|].
      * destruct IH as (pre & post & -> & <- & Hno).
        exists (String d pre), post. rewrite append_cons. cbn [has_char String.length].
        split; [reflexivity|]. split; [reflexivity|]. intros [E|E]; auto.
      * cbn [has_char]. intros [E|E]; auto.
Qed.

Lemma last_index_of_spec c s :
  match Str.last_index_of c s with
  | Some j => exists pre post,
      s = pre ++ String c post /\ String.length pre = j /\ ~ has_char c post
  | None => ~ has_char c s
  end.
Proof.
  induction s as [|d r IH].
  - cbn. tauto.
  - cbn [Str.last_index_of].
    destruct (Str.last_index_of c r) as [j|].
    + destruct IH as (pre & post & -> & <- & Hno).
      exists (String d pre), post. rewrite append_cons.
      split; [reflexivity|]. split; [reflexivity | exact Hno].
    + destruct (Ascii.eqb_spec c d) as [->|Hne].
      * exists "", r. rewrite append_nil. split; [reflexivity|].
        split; [reflexivity | exact IH].
      * cbn [has_char]. intros [E|E]; auto.
Qed.

Lemma substring_middle pre mid post :
  String.substring (String.length pre) (String.length mid) (pre ++ mid ++ post) = mid.
Proof.
  induction pre as [|c pre IH].
  - rewrite append_nil. cbn [String.length].
    induction mid as [|d mid IHm].
    + rewrite append_nil. destruct post; reflexivity.
    + rewrite append_cons. cbn [String.length String.substring]. rewrite IHm. reflexivity.
  - rewrite append_cons. cbn [String.length String.substring]. exact IH.
Qed.

(** Two splittings of a string at a character: the shorter prefix is a
    prefix of the longer. *)
Lemma split_compare (a b a' b' : string) :
  a ++ b = a' ++ b' -> (String.length a <= String.length a')%nat ->
  exists m, a' = a ++ m /\ b = m ++ b'.
Proof.
  revert a'. induction a as [|c a IH]; intros a' E Hlen.
  - exists a'. rewrite !append_nil in *. split; [reflexivity | exact E].
  - destruct a' as [|c' a']; [cbn in Hlen; lia|].
    rewrite !append_cons in E. injection E as -> E.
    destruct (IH a' E ltac:(cbn in Hlen; lia)) as (m & -> & ->).
    exists m. rewrite append_cons. split; reflexivity.
Qed.

(** X13. The span that the planner extracts from an answer that is not
    JSON as a whole: when there is one, it runs from the first opening
    brace of the answer to its last closing brace; there is none exactly
    when no opening brace of the answer is followed by a closing one. *)
Theorem extract_json_span (content : string) :
  match extract_json content with
  | Some span =>
      exists pre mid post,
        content = pre ++ span ++ post
        /\ span = String open_brace (mid ++ String close_brace "")
        /\ ~ has_char open_brace pre
        /\ ~ has_char close_brace post
  | None =>
      forall a b c,
        content <> a ++ String open_brace (b ++ String close_brace c)
  end.
Proof.
  unfold extract_json.
  pose proof (index_of_spec open_brace content) as Hi.
  pose proof (last_index_of_spec close_brace content) as Hj.
  fold open_brace close_brace.
  change (Str.index_of "{" content) with (Str.index_of open_brace content).
  change (Str.last_index_of "}" content) with (Str.last_index_of close_brace content).
  destruct (Str.index_of open_brace content) as [i|].
  2:{ assert (forall a b c, content <> a ++ String open_brace (b ++ String close_brace c)).
      { intros a b c ->. apply Hi. apply has_char_app. right. left. reflexivity. }
      destruct (Str.last_index_of close_brace content); assumption. }
  destruct (Str.last_index_of close_brace content) as [j|].
  2:{ intros a b c ->. apply Hj. apply has_char_app. right. right.
      apply has_char_app. right. left. reflexivity. }
  destruct Hi as (pre & rest & E1 & Li & Hpre).
  destruct Hj as (front & post & E2 & Lj & Hpost).
  destruct (Nat.ltb_spec i j) as [Hlt|Hge].
  - (* the first opening brace is before the last closing brace *)
    assert (Hsplit : exists mid, rest = mid ++ String close_brace post).
    { rewrite E1 in E2.
      replace (pre ++ String open_brace rest)
        with ((pre ++ String open_brace "") ++ rest) in E2.
      2:{ rewrite append_assoc. reflexivity. }
      destruct (split_compare (pre ++ String open_brace "") rest front
                  (String close_brace post) E2) as (m & Hm & Hr).
      { rewrite length_append. cbn. lia. }
      exists m. exact Hr. }
    destruct Hsplit as (mid & ->).
    assert (Espan : String.substring i (j - i + 1) content
                    = String open_brace (mid ++ String close_brace "")).
    { replace (j - i + 1)%nat
        with (String.length (String open_brace (mid ++ String close_brace ""))).
      2:{ cbn [String.length]. rewrite length_append. cbn [String.length].
          assert (Hlen : String.length content
                         = (String.length front + S (String.length post))%nat).
          { rewrite E2, length_append. reflexivity. }
          rewrite E1, !length_append in Hlen. cbn [String.length] in Hlen.
          rewrite length_append in Hlen. cbn [String.length] in Hlen. lia. }
      rewrite <- Li, E1.
      replace (String open_brace (mid ++ String close_brace post))
        with (String open_brace (mid ++ String close_brace "") ++ post).
      2:{ rewrite append_cons, append_assoc. reflexivity. }
      apply substring_middle. }
    rewrite Espan.
    exists pre, mid, post. split; [|split; [reflexivity|split; assumption]].
    rewrite E1. f_equal. rewrite append_cons, append_assoc. reflexivity.
  - (* every closing brace is before the first opening brace *)
    intros a b c E.
    (* the opening brace of the decomposition is at or after [i], its
       closing brace at or before [j] *)
    assert (Ha : (i <= String.length a)%nat).
    { destruct (Nat.le_gt_cases i (String.length a)) as [H|H]; [exact H|exfalso].
      rewrite E1 in E.
      destruct (split_compare a (String open_brace (b ++ String close_brace c))
                  pre (String open_brace rest)) as (m & Hm & Hr);
        [symmetry; exact E | lia |].
      destruct m as [|x m].
      - rewrite append_nil_r in Hm. subst a. lia.
      - rewrite append_cons in Hr. injection Hr as <- _.
        apply Hpre. rewrite Hm. apply has_char_app. right. left. reflexivity. }
    assert (Hc : (String.length a + 1 + String.length b <= j)%nat).
    { destruct (Nat.le_gt_cases (String.length a + 1 + String.length b) j)
        as [H|H]; [exact H|exfalso].
      rewrite E2 in E.
      replace (a ++ String open_brace (b ++ String close_brace c))
        with ((a ++ String open_brace b) ++ String close_brace c) in E.
      2:{ rewrite append_assoc, append_cons. reflexivity. }
      destruct (split_compare front (String close_brace post)
                  (a ++ String open_brace b) (String close_brace c) E)
        as (m & Hm & Hr).
      { rewrite length_append. cbn [String.length]. lia. }
      destruct m as [|x m].
      - rewrite append_nil_r in Hm.
        apply (f_equal String.length) in Hm.
        rewrite length_append in Hm. cbn [String.length] in Hm. lia.
      - rewrite append_cons in Hr. injection Hr as _ Hr.
        apply Hpost. rewrite Hr. apply has_char_app. right. left. reflexivity. }
    lia.
Qed.

(** The completion calls of the planner. *)


(** The completion calls of the topic loop. *)

Section TopicCalls.

Variable count_words : string -> Z.
Variable provider : nat -> Request -> Result string.
Variable structure_data : Structure.t.
Variable original_text : string.
Variable include_examples : bool.
Variable topic_words : gmap string Z.

Lemma topic_loop_calls topics :
  forall acc context w acc' context' w',
    for_each topics
      (topic_iteration count_words provider structure_data original_text
         include_examples topic_words)
      (acc, context) w
    = (Return (acc', context'), w') ->
    exists texts,
      acc' = (acc ++ texts)%list
      /\ one_call_each provider topic_words (calls w) topics texts
      /\ calls w' = (calls w + length topics)%nat.
Proof.
  induction topics as [|topic topics IH]; intros acc context w acc' context' w' H.
  - cbn in H. injection H as <- <- <-. exists []. rewrite app_nil_r.
    split; [reflexivity|]. split; [constructor | cbn; lia].
  - cbn [for_each] in H. unfold bind at 1 in H.
    destruct (topic_iteration _ _ _ _ _ _ topic (acc, context) w)
      as [[[acc1 context1]|e] w1] eqn:Estep; [|discriminate].
    destruct (IH _ _ _ _ _ _ H) as (texts & -> & Hcalls & Hn).
    unfold topic_iteration in Estep.
    unfold bind at 1, lift, dict_get in Estep.
    destruct (topic_words !! Topic.title topic) as [quota|] eqn:Eq; [|discriminate].
    unfold bind at 1 in Estep.
    destruct (update_context topic context) as [context0|e]; [|discriminate].
    unfold bind at 1 in Estep. unfold _generate_section in Estep.
    unfold bind at 1 in Estep. rewrite logger_spec in Estep.
    unfold bind at 1, create at 1 in Estep. cbn [calls add_log] in Estep.
    match type of Estep with
    | context [provider (calls w) ?r] =>
        destruct (provider (calls w) r) as [text|e] eqn:Ep; [|discriminate]
    end.
    unfold bind in Estep. rewrite logger_spec in Estep. cbn in Estep.
    injection Estep as <- <- <-. cbn [calls add_log] in *.
    exists (text :: texts). split; [rewrite <- app_assoc; reflexivity|].
    split; [|cbn [length]; lia].
    econstructor; [exact Ep | exact Eq | reflexivity | exact Hcalls].
Qed.

End TopicCalls.

(** X17. When [_generate_main_content] returns, it has made exactly one
    completion call per topic, in topic order, each for the section
    "main_topic_" followed by the title and with the word quota of that
    title, and the text it returns is the answers joined by blank lines. *)
Theorem main_content_one_call_per_topic
    (count_words : string -> Z) (provider : nat -> Request -> Result string)
    (structure_data : Structure.t) (original_text : string)
    (target_words : Z) (include_examples : bool) (context context' : Context.t)
    (w w' : World) (main_content : string) :
  _generate_main_content count_words provider structure_data original_text
    target_words include_examples context w
  = (Return (main_content, context'), w') ->
  exists topic_words texts,
    allocate_topics target_words
      (sum (map Topic.duration_minutes (Structure.topics structure_data)))
      (Structure.topics structure_data) ∅ = Return topic_words
    /\ one_call_each provider topic_words (calls w)
         (Structure.topics structure_data) texts
    /\ main_content = Str.join blank_line texts
    /\ calls w' = (calls w + length (Structure.topics structure_data))%nat.
Proof.
  unfold _generate_main_content.
  unfold bind at 1. rewrite logger_spec.
  unfold bind at 1, lift.
  destruct (allocate_topics target_words _ (Structure.topics structure_data) ∅)
    as [topic_words|e]; [|discriminate].
  unfold bind at 1. rewrite logger_spec.
  unfold bind at 1.
  match goal with
  | |- context [for_each ?l ?body ([], context) ?w1] =>
      destruct (for_each l body ([], context) w1) as [[[acc ctx]|e] w2] eqn:Eloop;
      [|discriminate]
  end.
  cbn [ret fst snd]. intros H. injection H as <- <- <-.
  destruct (topic_loop_calls _ _ _ _ _ _ _ _ _ _ _ _ _ Eloop) as (texts & -> & Hcalls & Hn).
  exists topic_words, texts. cbn [app calls add_log] in *.
  split; [reflexivity|]. split; [exact Hcalls|]. split; [reflexivity | exact Hn].
Qed.

Lemma list_remove_absent x l : ~ In x l -> list_remove x l = Raise ValueError.
Proof.
  induction l as [|y l IH]; intros H; [reflexivity|].
  cbn [list_remove]. destruct (String.eqb_spec x y) as [->|Hne].
  - exfalso. apply H. left. reflexivity.
  - rewrite IH; [reflexivity|]. intros Hin. apply H. right. exact Hin.
Qed.

(** X18. [_generate_main_content] on a context whose [pending_topics]
    lacks the title of the first topic, once the first loop has allocated
    the quotas without a fault: [list.remove] raises [ValueError] before
    any completion call is made. *)
Theorem main_content_needs_pending_title
    (count_words : string -> Z) (provider : nat -> Request -> Result string)
    (structure_data : Structure.t) (original_text : string)
    (target_words : Z) (include_examples : bool) (context : Context.t)
    (w : World) (topic : Topic.t) (rest : list Topic.t)
    (topic_words : gmap string Z) :
  Structure.topics structure_data = topic :: rest ->
  allocate_topics target_words
    (sum (map Topic.duration_minutes (Structure.topics structure_data)))
    (Structure.topics structure_data) ∅ = Return topic_words ->
  ~ In (Topic.title topic) (Context.pending_topics context) ->
  exists w',
    _generate_main_content count_words provider structure_data original_text
      target_words include_examples context w
    = (Raise ValueError, w')
    /\ calls w' = calls w.
Proof.
  intros Htopics Halloc Hpending.
  unfold _generate_main_content.
  unfold bind at 1. rewrite logger_spec.
  unfold bind at 1, lift. rewrite Halloc.
  unfold bind at 1. rewrite logger_spec.
  destruct (allocate_topics_binds _ _ _ _ _ Halloc) as (_ & Hbound).
  rewrite Htopics in *.
  destruct (Hbound topic ltac:(left; reflexivity)) as (quota & Hquota).
  cbn [for_each]. unfold bind at 1. unfold bind at 1.
  unfold topic_iteration. unfold bind at 1, lift, dict_get. rewrite Hquota.
  unfold bind at 1. unfold update_context.
  cbn [Context.set_current_topic Context.set_covered_topics
       Context.pending_topics].
  rewrite list_remove_absent by exact Hpending.
  cbn [rbind]. eexists. split; reflexivity.
Qed.

(** Runs that differ in what they log only. *)

Lemma sim_refl w : sim w w.
Proof. split; reflexivity. Qed.

Lemma alike_ret {A} (a : A) : alike (ret a) (ret a).
Proof. intros w1 w2 H. split; [reflexivity | exact H]. Qed.

Lemma alike_raise {A} (e : exn) : alike (@raise A e) (raise e).
Proof. intros w1 w2 H. split; [reflexivity | exact H]. Qed.

Lemma alike_lift {A} (r : Result A) : alike (lift r) (lift r).
Proof. intros w1 w2 H. split; [reflexivity | exact H]. Qed.

Lemma alike_logger l1 m1 l2 m2 : alike (logger l1 m1) (logger l2 m2).
Proof. intros w1 w2 H. split; [reflexivity | exact H]. Qed.

Lemma alike_bind {A B} (c1 c2 : M A) (k1 k2 : A -> M B) :
  alike c1 c2 -> (forall a, alike (k1 a) (k2 a)) -> alike (bind c1 k1) (bind c2 k2).
Proof.
  intros Hc Hk w1 w2 Hw. unfold bind.
  destruct (Hc w1 w2 Hw) as (E & Hs).
  destruct (c1 w1) as [[a1|e1] w1'], (c2 w2) as [[a2|e2] w2'];
    cbn [fst snd] in *; try discriminate.
  - injection E as <-. apply Hk. exact Hs.
  - injection E as <-. split; [reflexivity | exact Hs].
Qed.

Lemma alike_try_except {A} (c1 c2 : M A) (h1 h2 : exn -> M A) :
  alike c1 c2 -> (forall e, alike (h1 e) (h2 e)) ->
  alike (try_except c1 h1) (try_except c2 h2).
Proof.
  intros Hc Hh w1 w2 Hw. unfold try_except.
  destruct (Hc w1 w2 Hw) as (E & Hs).
  destruct (c1 w1) as [[a1|e1] w1'], (c2 w2) as [[a2|e2] w2'];
    cbn [fst snd] in *; try discriminate.
  - split; [exact E | exact Hs].
  - injection E as <-. apply Hh. exact Hs.
Qed.

(** A body that is tried up to its end: the handler of the first part is
    the handler of the whole. *)
Lemma alike_try_bind {A B} (c1 c2 : M A) (k1 k2 : A -> M B) (h1 h2 : exn -> M B) :
  alike c1 c2 ->
  (forall a, alike (try_except (k1 a) h1) (try_except (k2 a) h2)) ->
  (forall e, alike (h1 e) (h2 e)) ->
  alike (try_except (bind c1 k1) h1) (try_except (bind c2 k2) h2).
Proof.
  intros Hc Hk Hh w1 w2 Hw. unfold try_except, bind.
  destruct (Hc w1 w2 Hw) as (E & Hs).
  destruct (c1 w1) as [[a1|e1] w1'], (c2 w2) as [[a2|e2] w2'];
    cbn [fst snd] in *; try discriminate.
  - injection E as <-. apply (Hk a1 w1' w2' Hs).
  - injection E as <-. apply Hh. exact Hs.
Qed.

Lemma alike_for_each {A S} (l : list A) (body1 body2 : A -> S -> M S) (s : S) :
  (forall x s', alike (body1 x s') (body2 x s')) ->
  alike (for_each l body1 s) (for_each l body2 s).
Proof.
  intros Hb. revert s. induction l as [|x l IH]; intros s.
  - apply alike_ret.
  - cbn [for_each]. apply alike_bind; [apply Hb | intros s'; apply IH].
Qed.

Lemma alike_for_each_ {A} (l : list A) (body1 body2 : A -> M unit) :
  (forall x, alike (body1 x) (body2 x)) ->
  alike (for_each_ l body1) (for_each_ l body2).
Proof.
  intros Hb. induction l as [|x l IH].
  - apply alike_ret.
  - cbn [for_each_]. apply alike_bind; [apply Hb | intros _; exact IH].
Qed.

Lemma alike_bind_full_content v : alike (bind_full_content v) (bind_full_content v).
Proof. intros w1 w2 (H1 & H2). split; [reflexivity|]. split; [exact H1 | reflexivity]. Qed.

Lemma alike_unbind_full_content : alike unbind_full_content unbind_full_content.
Proof. intros w1 w2 (H1 & H2). split; [reflexivity|]. split; [exact H1 | reflexivity]. Qed.

Lemma alike_lookup_full_content : alike lookup_full_content lookup_full_content.
Proof.
  intros w1 w2 (H1 & H2). unfold lookup_full_content. cbn [fst snd].
  split; [rewrite H2; reflexivity|]. split; assumption.
Qed.

Section Alike.

Variables count1 count2 : string -> Z.
Variables provider1 provider2 : nat -> Request -> Result string.
Variable json_loads : string -> Decoding Structure.t.
Hypothesis agree :
  forall n request, pipeline_request request = true ->
                    provider1 n request = provider2 n request.

Lemma alike_create request :
  pipeline_request request = true ->
  alike (create provider1 request) (create provider2 request).
Proof.
  intros HP w1 w2 (H1 & H2). unfold create. cbn [fst snd calls full_content].
  rewrite H1, (agree _ _ HP). split; [reflexivity|].
  split; [cbn; congruence | exact H2].
Qed.

Lemma alike_fallback text target_duration :
  alike (_generate_fallback_structure provider1 text target_duration)
        (_generate_fallback_structure provider2 text target_duration).
Proof.
  unfold _generate_fallback_structure.
  apply alike_bind; [apply alike_logger|intros _].
  apply alike_try_except.
  - apply alike_bind; [apply alike_create; reflexivity|intros content].
    apply alike_bind; [apply alike_lift|intros main_time].
    apply alike_bind; [apply alike_lift|intros topic_minutes]. apply alike_ret.
  - intros e. apply alike_bind; [apply alike_logger|intros _]. apply alike_ret.
Qed.

Lemma alike_planner text target_duration :
  alike (_generate_detailed_structure provider1 json_loads text target_duration)
        (_generate_detailed_structure provider2 json_loads text target_duration).
Proof.
  assert (Hfallback :
    alike
      (let* structure_data :=
         _generate_fallback_structure provider1 text target_duration in
       ret (@FromFallback Structure.t structure_data))
      (let* structure_data :=
         _generate_fallback_structure provider2 text target_duration in
       ret (@FromFallback Structure.t structure_data))).
  { apply alike_bind; [apply alike_fallback|intros s]. apply alike_ret. }
  unfold _generate_detailed_structure.
  apply alike_bind; [apply alike_logger|intros _].
  apply alike_try_except.
  - apply alike_bind; [apply alike_create; reflexivity|intros response].
    apply alike_bind; [apply alike_logger|intros _].
    destruct (json_loads (Str.strip response)).
    + apply alike_bind; [apply alike_logger|intros _]. apply alike_ret.
    + apply alike_bind; [apply alike_logger|intros _].
      apply alike_bind.
      * destruct (extract_json (Str.strip response)); [|apply alike_ret].
        destruct (json_loads s);
          [apply alike_bind; [apply alike_logger|intros _]; apply alike_ret
          |apply alike_bind; [apply alike_logger|intros _]; apply alike_ret
          |apply alike_raise].
      * intros [s|]; [apply alike_ret|].
        apply alike_bind; [apply alike_logger|intros _]. exact Hfallback.
    + apply alike_raise.
  - intros e. apply alike_bind; [apply alike_logger|intros _]. exact Hfallback.
Qed.

Lemma alike_section section_type structure_data text1 text2 target_words
      include_examples context is_first is_last :
  pipeline_request
    {| system := CoherentLectureEducator;
       user := SectionPrompt section_type target_words
                 (Structure.title structure_data)
                 (Str.join ", " (Structure.learning_objectives structure_data))
                 (guidance_for section_type structure_data)
                 (option_map context_block context) include_examples;
       max_tokens := 8000 |} = true ->
  alike (_generate_section count1 provider1 section_type structure_data text1
           target_words include_examples context is_first is_last)
        (_generate_section count2 provider2 section_type structure_data text2
           target_words include_examples context is_first is_last).
Proof.
  intros HP. unfold _generate_section.
  apply alike_bind; [apply alike_logger|intros _].
  apply alike_bind; [apply alike_create; exact HP|intros content].
  apply alike_bind; [apply alike_logger|intros _]. apply alike_ret.
Qed.

Lemma main_topic_request title structure_data target_words context include_examples :
  pipeline_request
    {| system := CoherentLectureEducator;
       user := SectionPrompt ("main_topic_" ++ title) target_words
                 (Structure.title structure_data)
                 (Str.join ", " (Structure.learning_objectives structure_data))
                 (guidance_for ("main_topic_" ++ title) structure_data)
                 (option_map context_block (Some context)) include_examples;
       max_tokens := 8000 |} = true.
Proof.
  unfold pipeline_request. cbn [system user max_tokens option_map].
  unfold guidance_for.
  change (String.eqb ("main_topic_" ++ title) "introduction") with false.
  change (String.eqb ("main_topic_" ++ title) "main") with false.
  change (String.eqb ("main_topic_" ++ title) "practical") with false.
  change (String.eqb ("main_topic_" ++ title) "summary") with false.
  cbn [andb Z.eqb Pos.eqb].
  apply prefix_app. exists title. reflexivity.
Qed.

Lemma alike_main_content structure_data text1 text2 target_words
      include_examples context :
  alike (_generate_main_content count1 provider1 structure_data text1
           target_words include_examples context)
        (_generate_main_content count2 provider2 structure_data text2
           target_words include_examples context).
Proof.
  unfold _generate_main_content.
  apply alike_bind; [apply alike_logger|intros _].
  apply alike_bind; [apply alike_lift|intros topic_words].
  apply alike_bind; [apply alike_logger|intros _].
  apply alike_bind; [|intros state; apply alike_ret].
  apply alike_for_each. intros topic [acc context']. unfold topic_iteration.
  apply alike_bind; [apply alike_lift|intros target].
  apply alike_bind; [apply alike_lift|intros context''].
  apply alike_bind; [|intros content; apply alike_ret].
  apply alike_section. apply main_topic_request.
Qed.

End Alike.

(** The validators are observers. *)

Lemma validate_word_count_observes total_words target_words min_words max_words w :
  calls (snd (_validate_word_count total_words target_words min_words max_words w))
  = calls w
  /\ full_content
       (snd (_validate_word_count total_words target_words min_words max_words w))
     = full_content w.
Proof.
  unfold _validate_word_count, bind, lift.
  destruct (Py.int_truediv _ _) as [deviation|e]; [|split; reflexivity].
  destruct (Py.gt deviation LARGE_DEVIATION_THRESHOLD); [split; reflexivity|].
  destruct (_ || _); split; reflexivity.
Qed.

Lemma for_each_quiet {A} (l : list A) (test : A -> bool) level (message : A -> Message) w :
  exists w',
    for_each_ l (fun x => if test x then logger level (message x) else ret tt) w
    = (Return tt, w')
    /\ calls w' = calls w /\ full_content w' = full_content w.
Proof.
  revert w. induction l as [|x l IH]; intros w.
  - exists w. split; [reflexivity|]. split; reflexivity.
  - cbn [for_each_]. unfold bind.
    destruct (test x).
    + rewrite logger_spec. destruct (IH (add_log w [(level, message x)]))
        as (w' & -> & H1 & H2).
      exists w'. split; [reflexivity|]. split; assumption.
    + unfold ret at 1. destruct (IH w) as (w' & -> & H1 & H2).
      exists w'. split; [reflexivity|]. split; assumption.
Qed.

Lemma validate_coherence_quiet content structure_data w :
  exists w',
    _validate_coherence content structure_data w = (Return tt, w')
    /\ calls w' = calls w /\ full_content w' = full_content w.
Proof.
  unfold _validate_coherence.
  unfold bind at 1. rewrite logger_spec.
  unfold bind at 1.
  match goal with
  | |- context [for_each_ ?l (fun x => if @?t x then logger ?lv (@?m x) else ret tt) ?w0] =>
      destruct (for_each_quiet l t lv m w0) as (w1 & -> & C1 & F1)
  end.
  unfold bind at 1.
  match goal with
  | |- context [for_each_ ?l (fun x => if @?t x then logger ?lv (@?m x) else ret tt) ?w0] =>
      destruct (for_each_quiet l t lv m w0) as (w2 & -> & C2 & F2)
  end.
  unfold bind at 1.
  match goal with
  | |- context [for_each_ ?l (fun x => if @?t x then logger ?lv (@?m x) else ret tt) ?w0] =>
      destruct (for_each_quiet l t lv m w0) as (w3 & -> & C3 & F3)
  end.
  rewrite logger_spec. eexists. split; [reflexivity|].
  cbn [calls full_content add_log] in *. split; congruence.
Qed.

(** Once the four sections are joined, the run returns them: a validator
    that raises is caught, and the handler finds [full_content] bound. *)
Lemma joined_content_is_returned count_words content structure_data
      target_words min_words max_words w :
  match
    try_except
      (bind_full_content content >>
       logger INFO (TotalGenerated (count_words content)) >>
       _validate_word_count (count_words content) target_words min_words
         max_words >>
       _validate_coherence content structure_data >>
       logger INFO CoherenceValidated >>
       ret content)
      on_generation_error w
  with
  | (result, w') =>
      result = Return content
      /\ calls w' = calls w
      /\ full_content w' = Some content
  end.
Proof.
  unfold try_except.
  unfold bind at 1. cbn [bind_full_content].
  unfold bind at 1. rewrite logger_spec.
  unfold bind at 1.
  match goal with
  | |- context [_validate_word_count ?a ?b ?c ?d ?w0] =>
      destruct (validate_word_count_observes a b c d w0) as (C1 & F1);
      destruct (_validate_word_count a b c d w0) as [[[]|e] w1]
  end; cbn [snd calls full_content add_log] in C1, F1.
  - unfold bind at 1.
    destruct (validate_coherence_quiet content structure_data w1)
      as (w2 & -> & C2 & F2).
    unfold bind. rewrite logger_spec. cbn.
    split; [reflexivity|]. split; congruence.
  - unfold on_generation_error. unfold bind at 1. rewrite logger_spec.
    unfold bind at 1, lookup_full_content. cbn [full_content add_log].
    rewrite F1. unfold bind. rewrite logger_spec. cbn.
    split; [reflexivity|]. split; congruence.
Qed.

Lemma alike_on_generation_error e : alike (on_generation_error e) (on_generation_error e).
Proof.
  unfold on_generation_error.
  apply alike_bind; [apply alike_logger|intros _].
  apply alike_bind; [apply alike_lookup_full_content|intros [content|]].
  - apply alike_bind; [apply alike_logger|intros _]. apply alike_ret.
  - apply alike_raise.
Qed.

Lemma take_take n m s : (n <= m)%nat -> Str.take n (Str.take m s) = Str.take n s.
Proof.
  revert m s. induction n as [|n IH]; intros m s H; [reflexivity|].
  destruct m as [|m]; [lia|]. destruct s as [|c s]; [reflexivity|].
  cbn [Str.take]. rewrite IH by lia. reflexivity.
Qed.

Lemma planner_reads_a_prefix {Value : Type} provider
    (json_loads : string -> Decoding Value) text1 text2 target_duration w :
  Str.first_chars 2000 text1 = Str.first_chars 2000 text2 ->
  _generate_detailed_structure provider json_loads text1 target_duration w
  = _generate_detailed_structure provider json_loads text2 target_duration w.
Proof.
  intros H.
  assert (H' : Str.first_chars 1000 text1 = Str.first_chars 1000 text2).
  { unfold Str.first_chars in *.
    rewrite <- (take_take 1000 2000 text1), <- (take_take 1000 2000 text2), H.
    - reflexivity.
    - apply Nat.leb_le. vm_compute. reflexivity.
    - apply Nat.leb_le. vm_compute. reflexivity. }
  unfold _generate_detailed_structure, _generate_fallback_structure.
  rewrite H, H'. reflexivity.
Qed.

Section AlikeRuns.

Variable clean_text : string -> string.
Variables count1 count2 : string -> Z.
Variables provider1 provider2 : nat -> Request -> Result string.
Variable json_loads : string -> Decoding Structure.t.
Variable words_per_minute : Z.
Hypothesis agree :
  forall n request, pipeline_request request = true ->
                    provider1 n request = provider2 n request.

Lemma alike_generate_sections structure_data text1 text2 section_words
      include_examples target_words min_words max_words :
  alike (try_except
           (generate_sections count1 provider1 structure_data text1
              section_words include_examples target_words min_words max_words)
           on_generation_error)
        (try_except
           (generate_sections count2 provider2 structure_data text2
              section_words include_examples target_words min_words max_words)
           on_generation_error).
Proof.
  unfold generate_sections.
  apply alike_try_bind; [apply alike_logger| |apply alike_on_generation_error].
  intros _.
  apply alike_try_bind;
    [apply (alike_section count1 count2 provider1 provider2 agree); reflexivity
    | |apply alike_on_generation_error].
  intros intro.
  apply alike_try_bind; [apply alike_logger| |apply alike_on_generation_error].
  intros _.
  apply alike_try_bind;
    [apply (alike_main_content count1 count2 provider1 provider2 agree)
    | |apply alike_on_generation_error].
  intros main.
  apply alike_try_bind; [apply alike_logger| |apply alike_on_generation_error].
  intros _.
  apply alike_try_bind;
    [apply (alike_section count1 count2 provider1 provider2 agree); reflexivity
    | |apply alike_on_generation_error].
  intros practical.
  apply alike_try_bind; [apply alike_logger| |apply alike_on_generation_error].
  intros _.
  apply alike_try_bind;
    [apply (alike_section count1 count2 provider1 provider2 agree); reflexivity
    | |apply alike_on_generation_error].
  intros summary.
  apply alike_try_bind; [apply alike_logger| |apply alike_on_generation_error].
  intros _.
  intros w1 w2 (Hc & Hf).
  match goal with
  | |- context [try_except (bind_full_content ?content >> _) _ w1] =>
      pose proof (joined_content_is_returned count1 content structure_data
                    target_words min_words max_words w1) as J1;
      pose proof (joined_content_is_returned count2 content structure_data
                    target_words min_words max_words w2) as J2
  end.
  destruct (try_except _ _ w1) as [r1 w1'].
  destruct (try_except _ _ w2) as [r2 w2'].
  destruct J1 as (R1 & C1 & F1). destruct J2 as (R2 & C2 & F2).
  cbn [fst snd]. split; [congruence|]. split; congruence.
Qed.

Lemma alike_transform text1 text2 target_duration include_examples :
  Str.first_chars 2000 (clean_text text1) = Str.first_chars 2000 (clean_text text2) ->
  alike (transform_to_lecture clean_text count1 json_loads provider1
           words_per_minute text1 target_duration include_examples)
        (transform_to_lecture clean_text count2 json_loads provider2
           words_per_minute text2 target_duration include_examples).
Proof.
  intros Hprefix. unfold transform_to_lecture.
  apply alike_bind; [apply alike_unbind_full_content|intros _].
  apply alike_bind; [apply alike_logger|intros _].
  apply alike_bind; [apply alike_logger|intros _].
  apply alike_bind; [apply alike_lift|intros [[target_words min_words] max_words]].
  apply alike_bind; [apply alike_logger|intros _].
  apply alike_bind.
  { intros w1 w2 Hw.
    rewrite (planner_reads_a_prefix provider1 json_loads _ _ target_duration w1 Hprefix).
    apply (alike_planner provider1 provider2 json_loads agree). exact Hw. }
  intros structure_data.
  apply alike_bind; [apply alike_logger|intros _].
  apply alike_bind; [apply alike_logger|intros _].
  apply alike_bind; [apply alike_lift|intros section_words].
  apply alike_generate_sections.
Qed.

End AlikeRuns.

(** What a run depends on. *)

(** X20. Two runs of [transform_to_lecture] on texts whose cleaned forms
    agree on their first 2000 characters return the same result and make
    the same number of completion calls: the planner reads that prefix, the
    section prompts do not contain the text. *)
Theorem text_beyond_2000_characters_is_ignored
    (clean_text : string -> string) (count_words : string -> Z)
    (json_loads : string -> Decoding Structure.t)
    (provider : nat -> Request -> Result string) (words_per_minute : Z)
    (text1 text2 : string) (target_duration : Z) (include_examples : bool)
    (w : World) :
  Str.first_chars 2000 (clean_text text1) = Str.first_chars 2000 (clean_text text2) ->
  let run1 := transform_to_lecture clean_text count_words json_loads provider
                words_per_minute text1 target_duration include_examples w in
  let run2 := transform_to_lecture clean_text count_words json_loads provider
                words_per_minute text2 target_duration include_examples w in
  fst run1 = fst run2 /\ calls (snd run1) = calls (snd run2).
Proof.
  intros Hprefix.
  destruct (alike_transform clean_text count_words count_words provider provider
              json_loads words_per_minute ltac:(reflexivity)
              text1 text2 target_duration include_examples Hprefix w w (sim_refl w))
    as (E & C & _).
  split; [exact E | exact C].
Qed.

(** X21. The word counter has no influence on what
    [transform_to_lecture] returns or on the calls it makes: the counts are
    logged and validated, and once the four sections are joined the run
    returns them, also when a validator raises. *)
Theorem word_counter_does_not_change_the_lecture
    (clean_text : string -> string) (count_words count_words' : string -> Z)
    (json_loads : string -> Decoding Structure.t)
    (provider : nat -> Request -> Result string) (words_per_minute : Z)
    (text : string) (target_duration : Z) (include_examples : bool)
    (w : World) :
  let run := transform_to_lecture clean_text count_words json_loads provider
               words_per_minute text target_duration include_examples w in
  let run' := transform_to_lecture clean_text count_words' json_loads provider
                words_per_minute text target_duration include_examples w in
  fst run = fst run' /\ calls (snd run) = calls (snd run').
Proof.
  destruct (alike_transform clean_text count_words count_words' provider provider
              json_loads words_per_minute ltac:(reflexivity)
              text text target_duration include_examples eq_refl w w (sim_refl w))
    as (E & C & _).
  split; [exact E | exact C].
Qed.

(** X22. A run of [transform_to_lecture] sends planner requests and
    section requests for the introduction, the main topics (without any
    guidance on the purpose of the section), the practical part and the
    summary, and no other: a provider that refuses every other request,
    the one with the guidance of section "main" among them, gives the same
    run. *)
Theorem only_pipeline_requests_are_sent
    (clean_text : string -> string) (count_words : string -> Z)
    (json_loads : string -> Decoding Structure.t)
    (provider : nat -> Request -> Result string) (words_per_minute : Z)
    (text : string) (target_duration : Z) (include_examples : bool)
    (w : World) :
  let run := transform_to_lecture clean_text count_words json_loads provider
               words_per_minute text target_duration include_examples w in
  let run' := transform_to_lecture clean_text count_words json_loads
                (restrict pipeline_request provider)
                words_per_minute text target_duration include_examples w in
  fst run = fst run' /\ calls (snd run) = calls (snd run').
Proof.
  destruct (alike_transform clean_text count_words count_words provider
              (restrict pipeline_request provider) json_loads words_per_minute)
    with (text1 := text) (text2 := text) (target_duration := target_duration)
         (include_examples := include_examples) (w1 := w) (w2 := w)
    as (E & C & _).
  - intros n request HP. unfold restrict. rewrite HP. reflexivity.
  - reflexivity.
  - apply sim_refl.
  - split; [exact E | exact C].
Qed.

(** The run when every request is answered. *)

Lemma try_bind_step {A B} (c : M A) (k : A -> M B) (h : exn -> M B) w a w1 :
  c w = (Return a, w1) ->
  try_except (bind c k) h w = try_except (k a) h w1.
Proof. intros H. unfold try_except, bind. rewrite H. reflexivity. Qed.

Section AnsweredSections.

Variable count_words : string -> Z.
Variable provider : nat -> Request -> Result string.
Hypothesis answered :
  forall n request, section_of request <> None ->
                    exists content, provider n request = Return content.

Lemma section_succeeds section_type structure_data original_text target_words
      include_examples context is_first is_last w :
  exists content w' request,
    _generate_section count_words provider section_type structure_data
      original_text target_words include_examples context is_first is_last w
    = (Return content, w')
    /\ provider (calls w) request = Return content
    /\ section_of request = Some (section_type, target_words)
    /\ calls w' = S (calls w) /\ full_content w' = full_content w.
Proof.
  unfold _generate_section. unfold bind at 1. rewrite logger_spec.
  unfold bind at 1, create at 1. cbv beta. cbn [calls add_log full_content log].
  match goal with
  | |- context [provider (calls w) ?r] =>
      destruct (answered (calls w) r ltac:(discriminate)) as (content & E);
      rewrite E; exists content; eexists; exists r
  end.
  unfold bind. rewrite logger_spec. cbn [ret].
  split; [reflexivity|]. split; [exact E|]. split; [reflexivity|].
  split; reflexivity.
Qed.

Lemma topic_loop_succeeds structure_data original_text include_examples
      topic_words done :
  forall acc context rest w,
    Context.pending_topics context = (map Topic.title done ++ rest)%list ->
    (forall topic, In topic done -> is_Some (topic_words !! Topic.title topic)) ->
    exists texts context' w',
      for_each done
        (topic_iteration count_words provider structure_data original_text
           include_examples topic_words)
        (acc, context) w
      = (Return ((acc ++ texts)%list, context'), w')
      /\ length texts = length done
      /\ calls w' = (calls w + length done)%nat
      /\ full_content w' = full_content w.
Proof.
  induction done as [|topic done IH]; intros acc context rest w Hp Hw.
  - exists [], context, w. rewrite app_nil_r. cbn.
    split; [reflexivity|]. split; [reflexivity|]. split; [lia | reflexivity].
  - destruct (Hw topic ltac:(left; reflexivity)) as (quota & Hq).
    destruct (update_context_head topic context (map Topic.title done ++ rest)%list Hp)
      as (context1 & Eu & _ & Hp1 & _).
    cbn [for_each]. unfold bind at 1. unfold topic_iteration at 1.
    unfold bind at 1, lift, dict_get. rewrite Hq.
    unfold bind at 1. rewrite Eu.
    unfold bind at 1.
    match goal with
    | |- context [_generate_section ?a ?b ?c ?d ?e ?f ?g ?h ?i ?j w] =>
        destruct (section_succeeds c d e f g h i j w)
          as (content & w1 & request & -> & _ & _ & C1 & F1)
    end.
    cbn [ret].
    destruct (IH (acc ++ [content])%list
                 (Context.set_current_narrative (Str.last_chars 1000 content) context1)
                 rest w1) as (texts & context' & w' & -> & L & C & F).
    { cbn [Context.set_current_narrative Context.pending_topics]. exact Hp1. }
    { intros t Ht. apply Hw. right. exact Ht. }
    exists (content :: texts), context', w'.
    rewrite <- app_assoc. split; [reflexivity|].
    split; [cbn; lia|]. split; [cbn [length]; lia | congruence].
Qed.

Lemma main_content_succeeds structure_data original_text target_words
      include_examples context topic_words w :
  allocate_topics target_words
    (sum (map Topic.duration_minutes (Structure.topics structure_data)))
    (Structure.topics structure_data) ∅ = Return topic_words ->
  Context.pending_topics context = Structure.topic_titles structure_data ->
  exists texts context' w',
    _generate_main_content count_words provider structure_data original_text
      target_words include_examples context w
    = (Return (Str.join blank_line texts, context'), w')
    /\ one_call_each provider topic_words (calls w)
         (Structure.topics structure_data) texts
    /\ calls w' = (calls w + length (Structure.topics structure_data))%nat
    /\ full_content w' = full_content w.
Proof.
  intros Halloc Hp. unfold _generate_main_content.
  unfold bind at 1. rewrite logger_spec.
  unfold bind at 1, lift. rewrite Halloc.
  unfold bind at 1. rewrite logger_spec.
  destruct (allocate_topics_binds _ _ _ _ _ Halloc) as (_ & Hbound).
  unfold bind at 1.
  match goal with
  | |- context [for_each ?l ?body ([], context) ?w1] =>
      destruct (topic_loop_succeeds structure_data original_text include_examples
                  topic_words l [] context [] w1)
        as (texts & context' & w' & E & L & C & F)
  end.
  { rewrite app_nil_r. exact Hp. }
  { exact Hbound. }
  rewrite E.
  destruct (topic_loop_calls _ _ _ _ _ _ _ _ _ _ _ _ _ E)
    as (texts' & Etexts & Hcalls & _).
  apply app_inv_head in Etexts. subst texts'.
  cbn [ret fst snd app]. exists texts, context', w'.
  split; [reflexivity|]. split; [exact Hcalls|]. split; [exact C | exact F].
Qed.

End AnsweredSections.

(** X23. The run in which everything succeeds: the first answer of the
    provider decodes to a structure, the word budget and the topic quotas
    are computed without a fault, and every section request is answered.
    Then [transform_to_lecture] returns the introduction, the topic texts,
    the practical part and the summary, joined by blank lines in this
    order; each of them is the answer to one call, made in this order
    after the one of the planner, for its own section and word quota; and
    the run makes four calls plus one per topic. *)
Theorem complete_run
    (clean_text : string -> string) (count_words : string -> Z)
    (json_loads : string -> Decoding Structure.t)
    (provider : nat -> Request -> Result string) (words_per_minute : Z)
    (text : string) (target_duration : Z) (include_examples : bool) (w : World)
    (response : string) (structure_data : Structure.t)
    (target_words min_words max_words : Z) (section_words : SectionWords)
    (topic_words : gmap string Z) :
  provider (calls w) (structure_request (clean_text text) target_duration)
  = Return response ->
  decoded json_loads response = Some structure_data ->
  target_word_counts words_per_minute target_duration
  = Return (target_words, min_words, max_words) ->
  section_quotas target_words = Return section_words ->
  allocate_topics (sw_main section_words)
    (sum (map Topic.duration_minutes (Structure.topics structure_data)))
    (Structure.topics structure_data) ∅ = Return topic_words ->
  (forall n request, section_of request <> None ->
                     exists content, provider n request = Return content) ->
  exists intro texts practical summary w',
    transform_to_lecture clean_text count_words json_loads provider
      words_per_minute text target_duration include_examples w
    = (Return (intro ++ blank_line ++ Str.join blank_line texts ++ blank_line
               ++ practical ++ blank_line ++ summary), w')
    /\ (exists request,
          provider (calls w + 1)%nat request = Return intro
          /\ section_of request
             = Some ("introduction", sw_intro section_words))
    /\ one_call_each provider topic_words (calls w + 2)%nat
         (Structure.topics structure_data) texts
    /\ (exists request,
          provider (calls w + 2 + length (Structure.topics structure_data))%nat
            request = Return practical
          /\ section_of request
             = Some ("practical", sw_practical section_words))
    /\ (exists request,
          provider (calls w + 3 + length (Structure.topics structure_data))%nat
            request = Return summary
          /\ section_of request = Some ("summary", sw_summary section_words))
    /\ calls w'
       = (calls w + 4 + length (Structure.topics structure_data))%nat.
Proof.
  intros Hfirst Hdecoded Hcounts Hquotas Halloc Hanswered.
  unfold transform_to_lecture.
  unfold bind at 1. cbn [unbind_full_content].
  set (w0 := {| calls := calls w; log := log w; full_content := None |}).
  unfold bind at 1. rewrite logger_spec.
  unfold bind at 1. rewrite logger_spec.
  unfold bind at 1, lift at 1. rewrite Hcounts.
  unfold bind at 1. rewrite logger_spec.
  unfold bind at 1.
  match goal with
  | |- context [_generate_detailed_structure ?a ?b ?c ?d ?w1] =>
      pose proof (planner_run a b c d w1) as P;
      pose proof (keeps_planner a b c d w1) as K;
      destruct (_generate_detailed_structure a b c d w1) as [r w2]
  end.
  cbn [calls add_log w0] in P. rewrite Hfirst, Hdecoded in P.
  destruct P as (-> & C2). cbn [snd full_content add_log w0] in K.
  cbv zeta. cbn [planned_structure].
  unfold bind at 1. rewrite logger_spec.
  unfold bind at 1. rewrite logger_spec.
  unfold bind at 1, lift at 1. rewrite Hquotas.
  unfold generate_sections.
  erewrite try_bind_step by apply logger_spec.
  match goal with
  | |- context [try_except (bind (_generate_section ?cw ?p ?a ?b ?c ?d ?e ?f ?g ?h) _) _ ?w3] =>
      destruct (section_succeeds cw p Hanswered a b c d e f g h w3)
        as (intro & w4 & request4 & E4 & P4 & S4 & C4 & F4);
      rewrite (try_bind_step _ _ _ _ _ _ E4)
  end.
  erewrite try_bind_step by apply logger_spec.
  match goal with
  | |- context [try_except (bind (_generate_main_content ?cw ?p ?a ?b ?c ?d ?e) _) _ ?w5] =>
      destruct (main_content_succeeds cw p Hanswered a b c d e topic_words w5 Halloc
                  eq_refl)
        as (texts & context' & w6 & E6 & L6 & C6 & F6);
      rewrite (try_bind_step _ _ _ _ _ _ E6)
  end.
  cbn [fst snd].
  erewrite try_bind_step by apply logger_spec.
  match goal with
  | |- context [try_except (bind (_generate_section ?cw ?p ?a ?b ?c ?d ?e ?f ?g ?h) _) _ ?w7] =>
      destruct (section_succeeds cw p Hanswered a b c d e f g h w7)
        as (practical & w8 & request8 & E8 & P8 & S8 & C8 & F8);
      rewrite (try_bind_step _ _ _ _ _ _ E8)
  end.
  erewrite try_bind_step by apply logger_spec.
  match goal with
  | |- context [try_except (bind (_generate_section ?cw ?p ?a ?b ?c ?d ?e ?f ?g ?h) _) _ ?w9] =>
      destruct (section_succeeds cw p Hanswered a b c d e f g h w9)
        as (summary & w10 & request10 & E10 & P10 & S10 & C10 & F10);
      rewrite (try_bind_step _ _ _ _ _ _ E10)
  end.
  erewrite try_bind_step by apply logger_spec.
  match goal with
  | |- context [try_except (bind_full_content ?content >> _) _ ?w11] =>
      pose proof (joined_content_is_returned count_words content structure_data
                    target_words min_words max_words w11) as J
  end.
  destruct (try_except _ _ _) as [result w'].
  destruct J as (-> & CJ & _).
  cbn [calls add_log] in *.
  exists intro, texts, practical, summary, w'.
  split; [reflexivity|].
  split.
  { exists request4. split; [|exact S4].
    replace (calls w + 1)%nat with (calls w2) by lia. exact P4. }
  split.
  { replace (calls w + 2)%nat with (calls w4) by lia. exact L6. }
  split.
  { exists request8. split; [|exact S8].
    replace (calls w + 2 + length (Structure.topics structure_data))%nat
      with (calls w6) by lia. exact P8. }
  split.
  { exists request10. split; [|exact S10].
    replace (calls w + 3 + length (Structure.topics structure_data))%nat
      with (calls w8) by lia. exact P10. }
  lia.
Qed.

(** X24. The line-oriented tier on an answer of five non-blank lines or
    more (for a duration from 0 to below [2^48]): the title is line 0, the
    objectives are lines 1 to 3, the topic titles lines 4 to 6 and the key
    terms lines 7 to 9 of the stripped non-blank lines, as many of them as
    the answer has. *)
Theorem fallback_reads_the_lines (provider : nat -> Request -> Result string)
    (text : string) (target_duration : Z) (w : World) (content : string) :
  provider (calls w) (fallback_request text) = Return content ->
  (5 <= length (response_lines content))%nat ->
  0 <= target_duration < 2 ^ 48 ->
  exists structure_data,
    fst (_generate_fallback_structure provider text target_duration w)
    = Return structure_data
    /\ Structure.title structure_data = hd "Lecture" (response_lines content)
    /\ Structure.learning_objectives structure_data
       = slice 1 4 (response_lines content)
    /\ map Topic.title (Structure.topics structure_data)
       = slice 4 7 (response_lines content)
    /\ Structure.key_terms structure_data = slice 7 10 (response_lines content).
Proof. apply fallback_from_lines. Qed.

(** Instances. *)


Lemma local_model_cannot_transform_witness :
  is_Some (Generator.LOCAL_MODEL_IDS !! "phi-4")
  /\ exists self st',
      Generator.__init__ no_environment load_unit load_unit "phi-4" None None
        initial_state = (Generator.Done self, st')
      /\ exists e w',
          transform_to_lecture (fun s => s) count_tokens Json.loads_structure
            (pipeline_provider (Generator.openai_client self) any_completions)
            (Generator.words_per_minute self) "X" 10 true initial_world
          = (Raise e, w').
Proof.
  assert (H : is_Some (Generator.LOCAL_MODEL_IDS !! "phi-4"))
    by (vm_compute; eauto).
  split; [exact H|].
  destruct (Generator.__init__ no_environment load_unit load_unit "phi-4" None
              None initial_state) as [[self|e] st'] eqn:E;
    [|vm_compute in E; discriminate E].
  exists self, st'. split; [reflexivity|].
  exact (local_model_cannot_transform no_environment load_unit load_unit
           any_completions (fun s => s) count_tokens Json.loads_structure
           "phi-4" None None initial_state st' self "X" 10 true initial_world
           H E).
Defined.

Lemma fallback_equal_shares_witness :
  answers_lines (calls initial_world) (fallback_request "X") = Return seven_lines
  /\ (5 <= length (response_lines seven_lines))%nat
  /\ 0 <= 10 < 2 ^ 48
  /\ exists structure_data main_time,
      fst (_generate_fallback_structure answers_lines "X" 10 initial_world)
      = Return structure_data
      /\ Py.int_of_product 10 Py.f0_7 = Return main_time
      /\ (1 <= length (Structure.topics structure_data) <= 3)%nat
      /\ (forall topic, In topic (Structure.topics structure_data) ->
            Topic.duration_minutes topic
            = main_time / Z.of_nat (length (Structure.topics structure_data))
            /\ Topic.key_concepts topic = [Topic.title topic])
      /\ 0 <= sum (map Topic.duration_minutes (Structure.topics structure_data))
         <= floor_frac 7 10 10.
Proof.
  assert (H1 : answers_lines (calls initial_world) (fallback_request "X")
               = Return seven_lines) by reflexivity.
  assert (H2 : (5 <= length (response_lines seven_lines))%nat)
    by (apply Nat.leb_le; vm_compute; reflexivity).
  assert (H3 : 0 <= 10 < 2 ^ 48) by (split; [lia | reflexivity]).
  split; [exact H1|]. split; [exact H2|]. split; [exact H3|].
  exact (fallback_equal_shares answers_lines "X" 10 initial_world seven_lines
           H1 H2 H3).
Defined.

Lemma one_minute_lecture_faults_witness :
  0 <= 1 <= 1
  /\ 0 <= 130 < 2 ^ 48
  /\ (forall n request content,
         answers_welcome n request = Return content ->
         undecodable Json.loads_structure content)
  /\ (forall n request, is_introduction request = true ->
                        exists content, answers_welcome n request = Return content)
  /\ fst (transform_to_lecture (fun s => s) count_tokens Json.loads_structure
            answers_welcome 130 "X" 1 true initial_world)
     = Raise ZeroDivisionError.
Proof.
  assert (H1 : 0 <= 1 <= 1) by lia.
  assert (H2 : 0 <= 130 < 2 ^ 48) by (split; [lia | reflexivity]).
  assert (H3 : forall n request content,
             answers_welcome n request = Return content ->
             undecodable Json.loads_structure content).
  { intros n request content H. unfold answers_welcome in H.
    destruct (user request); try discriminate H.
    injection H as <-. vm_compute. reflexivity. }
  assert (H4 : forall n request, is_introduction request = true ->
                                 exists content,
                                   answers_welcome n request = Return content).
  { intros n request H. unfold is_introduction in H. unfold answers_welcome.
    destruct (user request); try discriminate H. eauto. }
  split; [exact H1|]. split; [exact H2|]. split; [exact H3|]. split; [exact H4|].
  exact (one_minute_lecture_faults (fun s => s) count_tokens Json.loads_structure
           answers_welcome 130 "X" 1 true initial_world H1 H2 H3 H4).
Defined.

Lemma topic_quotas_within_budget_witness :
  0 <= 2730
  /\ (forall topic, In topic (Structure.topics two_topics) ->
                    0 <= Topic.duration_minutes topic)
  /\ 0 < sum (map Topic.duration_minutes (Structure.topics two_topics)) < 2 ^ 51
  /\ 2730 * sum (map Topic.duration_minutes (Structure.topics two_topics))
     < 2 ^ 51
  /\ NoDup (map Topic.title (Structure.topics two_topics))
  /\ allocate_topics 2730
       (sum (map Topic.duration_minutes (Structure.topics two_topics)))
       (Structure.topics two_topics) ∅ = Return two_topic_words
  /\ 2730 - 2 * Z.of_nat (length (Structure.topics two_topics))
     < sum (quotas_of two_topic_words (Structure.topics two_topics)) <= 2730.
Proof.
  assert (H1 : 0 <= 2730) by lia.
  assert (H2 : forall topic, In topic (Structure.topics two_topics) ->
                             0 <= Topic.duration_minutes topic).
  { intros topic [<-|[<-|[]]]; simpl; lia. }
  assert (H3 : 0 < sum (map Topic.duration_minutes (Structure.topics two_topics))
               < 2 ^ 51) by (split; reflexivity).
  assert (H4 : 2730 * sum (map Topic.duration_minutes (Structure.topics two_topics))
               < 2 ^ 51) by reflexivity.
  assert (H5 : NoDup (map Topic.title (Structure.topics two_topics))).
  { apply NoDup_cons. split; [|apply NoDup_singleton].
    intros H. apply list_elem_of_In in H. destruct H as [H|[]]. discriminate. }
  assert (H6 : allocate_topics 2730
                 (sum (map Topic.duration_minutes (Structure.topics two_topics)))
                 (Structure.topics two_topics) ∅ = Return two_topic_words)
    by (vm_compute; reflexivity).
  split; [exact H1|]. split; [exact H2|]. split; [exact H3|]. split; [exact H4|].
  split; [exact H5|]. split; [exact H6|].
  exact (topic_quotas_within_budget 2730 (Structure.topics two_topics)
           two_topic_words H1 H2 H3 H4 H5 H6).
Defined.

Lemma main_content_one_call_per_topic_witness :
  exists main_content context' w',
    _generate_main_content count_tokens answers_everything two_topics "X" 2730
      true (seeded_context two_topics "intro") initial_world
    = (Return (main_content, context'), w')
    /\ exists topic_words texts,
        allocate_topics 2730
          (sum (map Topic.duration_minutes (Structure.topics two_topics)))
          (Structure.topics two_topics) ∅ = Return topic_words
        /\ one_call_each answers_everything topic_words (calls initial_world)
             (Structure.topics two_topics) texts
        /\ main_content = Str.join blank_line texts
        /\ calls w'
           = (calls initial_world + length (Structure.topics two_topics))%nat.
Proof.
  destruct (_generate_main_content count_tokens answers_everything two_topics
              "X" 2730 true (seeded_context two_topics "intro") initial_world)
    as [[[main_content context']|e] w'] eqn:E;
    [|vm_compute in E; discriminate E].
  exists main_content, context', w'. split; [reflexivity|].
  exact (main_content_one_call_per_topic count_tokens answers_everything
           two_topics "X" 2730 true (seeded_context two_topics "intro") context'
           initial_world w' main_content E).
Defined.

Lemma main_content_needs_pending_title_witness :
  Structure.topics two_topics = topic_of "A" 7 :: [topic_of "B" 3]
  /\ allocate_topics 2730
       (sum (map Topic.duration_minutes (Structure.topics two_topics)))
       (Structure.topics two_topics) ∅ = Return two_topic_words
  /\ ~ In (Topic.title (topic_of "A" 7))
          (Context.pending_topics (Context.make "introduction" None [] [] ∅ "" []))
  /\ exists w',
      _generate_main_content count_tokens answers_everything two_topics "X"
        2730 true (Context.make "introduction" None [] [] ∅ "" []) initial_world
      = (Raise ValueError, w')
      /\ calls w' = calls initial_world.
Proof.
  assert (H1 : Structure.topics two_topics = topic_of "A" 7 :: [topic_of "B" 3])
    by reflexivity.
  assert (H2 : allocate_topics 2730
                 (sum (map Topic.duration_minutes (Structure.topics two_topics)))
                 (Structure.topics two_topics) ∅ = Return two_topic_words)
    by (vm_compute; reflexivity).
  assert (H3 : ~ In (Topic.title (topic_of "A" 7))
                    (Context.pending_topics
                       (Context.make "introduction" None [] [] ∅ "" [])))
    by (intros []).
  split; [exact H1|]. split; [exact H2|]. split; [exact H3|].
  exact (main_content_needs_pending_title count_tokens answers_everything
           two_topics "X" 2730 true
           (Context.make "introduction" None [] [] ∅ "" []) initial_world
           (topic_of "A" 7) [topic_of "B" 3] two_topic_words H1 H2 H3).
Defined.

Lemma validator_silent_on_window_witness :
  5 <= 130 * 10 < 2 ^ 48
  /\ 0 <= 1300 < 2 ^ 52
  /\ exists min_words max_words w',
      target_word_counts 130 10 = Return (130 * 10, min_words, max_words)
      /\ _validate_word_count 1300 (130 * 10) min_words max_words initial_world
         = (Return tt, w')
      /\ calls w' = calls initial_world
      /\ (log w' = log initial_world <-> min_words <= 1300 <= max_words)
      /\ min_words <= 130 * 10 <= max_words.
Proof.
  assert (H1 : 5 <= 130 * 10 < 2 ^ 48) by (split; [lia | reflexivity]).
  assert (H2 : 0 <= 1300 < 2 ^ 52) by (split; [lia | reflexivity]).
  split; [exact H1|]. split; [exact H2|].
  exact (validator_silent_on_window 130 10 1300 initial_world H1 H2).
Defined.

Lemma text_beyond_2000_characters_is_ignored_witness :
  long_text "b" <> long_text "c"
  /\ Str.first_chars 2000 (long_text "b") = Str.first_chars 2000 (long_text "c")
  /\ fst (transform_to_lecture (fun s => s) count_tokens Json.loads_structure
            answers_everything 130 (long_text "b") 10 true initial_world)
     = fst (transform_to_lecture (fun s => s) count_tokens Json.loads_structure
              answers_everything 130 (long_text "c") 10 true initial_world)
  /\ calls (snd (transform_to_lecture (fun s => s) count_tokens
                   Json.loads_structure answers_everything 130 (long_text "b")
                   10 true initial_world))
     = calls (snd (transform_to_lecture (fun s => s) count_tokens
                     Json.loads_structure answers_everything 130
                     (long_text "c") 10 true initial_world)).
Proof.
  assert (H0 : long_text "b" <> long_text "c").
  { intros H. apply (f_equal (Str.drop 2000)) in H. vm_compute in H.
    discriminate H. }
  assert (H : Str.first_chars 2000 (long_text "b")
              = Str.first_chars 2000 (long_text "c"))
    by (vm_compute; reflexivity).
  split; [exact H0|]. split; [exact H|].
  exact (text_beyond_2000_characters_is_ignored (fun s => s) count_tokens
           Json.loads_structure answers_everything 130 (long_text "b")
           (long_text "c") 10 true initial_world H).
Defined.

Lemma complete_run_witness :
  answers_everything (calls initial_world)
    (structure_request ((fun s => s) "X") 10) = Return one_topic_document
  /\ decoded Json.loads_structure one_topic_document = Some one_topic_structure
  /\ target_word_counts 130 10 = Return (1300, 1235, 1365)
  /\ section_quotas 1300
     = Return {| sw_intro := 130; sw_main := 909; sw_practical := 195;
                 sw_summary := 65 |}
  /\ allocate_topics 909
       (sum (map Topic.duration_minutes (Structure.topics one_topic_structure)))
       (Structure.topics one_topic_structure) ∅ = Return (<["A" := 909]> ∅)
  /\ (forall n request, section_of request <> None ->
                        exists content, answers_everything n request = Return content)
  /\ exists w',
      transform_to_lecture (fun s => s) count_tokens Json.loads_structure
        answers_everything 130 "X" 10 true initial_world
      = (Return ("Text of introduction" ++ blank_line ++ "Text of main_topic_A"
                 ++ blank_line ++ "Text of practical" ++ blank_line
                 ++ "Text of summary"), w')
      /\ calls w' = 5%nat.
Proof.
  assert (H1 : answers_everything (calls initial_world)
                 (structure_request ((fun s => s) "X") 10)
               = Return one_topic_document) by reflexivity.
  assert (H2 : decoded Json.loads_structure one_topic_document
               = Some one_topic_structure) by (vm_compute; reflexivity).
  assert (H3 : target_word_counts 130 10 = Return (1300, 1235, 1365))
    by (vm_compute; reflexivity).
  assert (H4 : section_quotas 1300
               = Return {| sw_intro := 130; sw_main := 909; sw_practical := 195;
                           sw_summary := 65 |}) by (vm_compute; reflexivity).
  assert (H5 : allocate_topics 909
                 (sum (map Topic.duration_minutes
                         (Structure.topics one_topic_structure)))
                 (Structure.topics one_topic_structure) ∅
               = Return (<["A" := 909]> ∅)) by (vm_compute; reflexivity).
  assert (H6 : forall n request, section_of request <> None ->
                                 exists content,
                                   answers_everything n request = Return content).
  { intros n request H. unfold section_of in H. unfold answers_everything.
    destruct (user request); eauto. }
  split; [exact H1|]. split; [exact H2|]. split; [exact H3|]. split; [exact H4|].
  split; [exact H5|]. split; [exact H6|].
  destruct (complete_run (fun s => s) count_tokens Json.loads_structure
              answers_everything 130 "X" 10 true initial_world
              one_topic_document one_topic_structure 1300 1235 1365
              {| sw_intro := 130; sw_main := 909; sw_practical := 195;
                 sw_summary := 65 |} (<["A" := 909]> ∅) H1 H2 H3 H4 H5 H6)
    as (intro & texts & practical & summary & w' & E & _ & _ & _ & _ & C).
  exists w'. split; [|exact C].
  assert (R : fst (transform_to_lecture (fun s => s) count_tokens
                     Json.loads_structure answers_everything 130 "X" 10 true
                     initial_world)
              = Return ("Text of introduction" ++ blank_line
                        ++ "Text of main_topic_A" ++ blank_line
                        ++ "Text of practical" ++ blank_line
                        ++ "Text of summary")) by (vm_compute; reflexivity).
  rewrite E in R. cbn [fst] in R. injection R as R.
  rewrite E, R. reflexivity.
Defined.

Lemma fallback_reads_the_lines_witness :
  answers_lines (calls initial_world) (fallback_request "X") = Return seven_lines
  /\ (5 <= length (response_lines seven_lines))%nat
  /\ 0 <= 10 < 2 ^ 48
  /\ exists structure_data,
      fst (_generate_fallback_structure answers_lines "X" 10 initial_world)
      = Return structure_data
      /\ Structure.title structure_data = hd "Lecture" (response_lines seven_lines)
      /\ Structure.learning_objectives structure_data
         = slice 1 4 (response_lines seven_lines)
      /\ map Topic.title (Structure.topics structure_data)
         = slice 4 7 (response_lines seven_lines)
      /\ Structure.key_terms structure_data
         = slice 7 10 (response_lines seven_lines).
Proof.
  assert (H1 : answers_lines (calls initial_world) (fallback_request "X")
               = Return seven_lines) by reflexivity.
  assert (H2 : (5 <= length (response_lines seven_lines))%nat)
    by (apply Nat.leb_le; vm_compute; reflexivity).
  assert (H3 : 0 <= 10 < 2 ^ 48) by (split; [lia | reflexivity]).
  split; [exact H1|]. split; [exact H2|]. split; [exact H3|].
  exact (fallback_reads_the_lines answers_lines "X" 10 initial_world seven_lines
           H1 H2 H3).
Defined.

